(** * Screenshot capture, glTF extension registry and audio engine of
      Babylon.js

    A shallow embedding of
      - packages/dev/core/src/Misc/screenshotTools.ts
        (GetScreenshotSize, CreateScreenshotUsingRenderTarget,
        CreateScreenshot and its two promises),
      - packages/dev/loaders/src/glTF/2.0/glTFLoaderExtensionRegistry.ts
        (registerGLTFExtension, unregisterGLTFExtension), and
      - the class AudioEngine,
    with the properties stated about them. *)

From Stdlib Require Import ZArith QArith Qround Qabs Lia Lqa List Bool.
From stdpp Require Import base option gmap strings.

Local Open Scope Z_scope.

(** ** JavaScript numbers

    A JavaScript number is NaN, an infinity or a finite value.  A finite
    value is kept as the rational it stands for; multiplication, division
    and subtraction round their exact result to the nearest binary64 value,
    ties to even, as IEEE 754 arithmetic does.  The sign of zero is not
    represented. *)
Module JS.

Inductive number : Type :=
  | NaN
  | Infinity (negative : bool)
  | Fin (q : Q).

Definition isneg (q : Q) : bool := negb (Qle_bool 0 q).

(** [x * 2 ^ e] when [e] is not negative, and [x] when it is. *)
Definition shiftUp (x e : Z) : Z := if 0 <=? e then x * 2 ^ e else x.

(** The integer nearest to [n / d], the even one of the two on a tie. *)
Definition roundHalfEven (n d : Z) : Z :=
  let fl := n / d in
  match 2 * (n mod d) ?= d with
  | Lt => fl
  | Gt => fl + 1
  | Eq => if Z.even fl then fl else fl + 1
  end.

(** Rounding to a binary format with [prec] significant bits, whose least
    positive value is [2 ^ emin] and whose values lie below [2 ^ emax]: with
    [2 ^ k <= |q| < 2 ^ (k + 1)], the result is the multiple of [2 ^ e]
    nearest to [q], where [e] is [k - (prec - 1)] or [emin] for a subnormal
    result; a result that reaches [2 ^ emax] is an infinity. *)
Definition roundBinary (prec emin emax : Z) (q : Q) : number :=
  let q := Qred q in
  let a := Z.abs (Qnum q) in
  let d := Z.pos (Qden q) in
  if a =? 0 then Fin 0 else
  let k0 := Z.log2 a - Z.log2 d in
  let k := if shiftUp d k0 <=? shiftUp a (- k0) then k0 else k0 - 1 in
  let e := Z.max (k - (prec - 1)) emin in
  let m := roundHalfEven (shiftUp a (- e)) (shiftUp d e) in
  if 2 ^ emax <=? shiftUp m e then Infinity (Qnum q <? 0)
  else Fin (Qred (Qmake (Z.sgn (Qnum q) * shiftUp m e) (Z.to_pos (shiftUp 1 (- e))))).

(** binary64, the format of numbers, and binary32. *)
Definition round64 : Q -> number := roundBinary 53 (-1074) 1024.
Definition round32 : Q -> number := roundBinary 24 (-149) 128.

(** The rational is a double: rounding leaves its value. *)
Definition isDouble (q : Q) : bool :=
  match round64 q with
  | Fin r => Qeq_bool r q
  | _ => false
  end.

(** ToBoolean on a number: 0 and NaN are falsy. *)
Definition truthy (x : number) : bool :=
  match x with
  | NaN => false
  | Infinity _ => true
  | Fin q => negb (Qeq_bool q 0)
  end.

(** An optional property of an object: [None] is [undefined]. *)
Definition truthy_opt (o : option number) : bool :=
  match o with Some x => truthy x | None => false end.

(** ToNumber on an optional property: [undefined] becomes NaN. *)
Definition to_number (o : option number) : number :=
  match o with Some x => x | None => NaN end.

Definition isNaN (x : number) : bool :=
  match x with NaN => true | _ => false end.

Definition mul (x y : number) : number :=
  match x, y with
  | NaN, _ | _, NaN => NaN
  | Infinity s, Infinity t => Infinity (xorb s t)
  | Infinity s, Fin q | Fin q, Infinity s =>
      if Qeq_bool q 0 then NaN else Infinity (xorb s (isneg q))
  | Fin p, Fin q => round64 (p * q)
  end.

Definition div (x y : number) : number :=
  match x, y with
  | NaN, _ | _, NaN => NaN
  | Infinity _, Infinity _ => NaN
  | Infinity s, Fin q => Infinity (xorb s (isneg q))
  | Fin _, Infinity _ => Fin 0
  | Fin p, Fin q =>
      if Qeq_bool q 0
      then (if Qeq_bool p 0 then NaN else Infinity (isneg p))
      else round64 (p / q)
  end.

Definition Math_abs (x : number) : number :=
  match x with
  | NaN => NaN
  | Infinity _ => Infinity false
  | Fin q => Fin (Qabs q)
  end.

(** Math.floor: the largest integer below the argument. *)
Definition Math_floor (x : number) : number :=
  match x with
  | Fin q => Fin (inject_Z (Qfloor q))
  | _ => x
  end.

(** Math.round: the nearest integer, ties going up. *)
Definition Math_round (x : number) : number :=
  match x with
  | Fin q => Fin (inject_Z (Qfloor (q + (1 # 2))))
  | _ => x
  end.

(** Wrap-around of an integer into the signed 32-bit range. *)
Definition wrap32 (z : Z) : Z := (z + 2 ^ 31) mod 2 ^ 32 - 2 ^ 31.

(** [x | 0], that is ToInt32: NaN and the infinities give 0, a finite value
    is truncated towards zero and wrapped modulo 2^32. *)
Definition ToInt32 (x : number) : Z :=
  match x with
  | Fin q => wrap32 (Z.quot (Qnum q) (Z.pos (Qden q)))
  | _ => 0
  end.

Definition of_Z (z : Z) : number := Fin (inject_Z z).

End JS.

Arguments JS.roundBinary : simpl never.
Arguments JS.round64 : simpl never.
Arguments JS.round32 : simpl never.

Import JS.

(** ** interfaces/screenshotSize: IScreenshotSize, all properties optional *)
Record IScreenshotSize : Type := {
  size_precision : option number;
  size_width : option number;
  size_height : option number;
  size_finalWidth : option number;
  size_finalHeight : option number;
}.

(** The [size] parameter: [IScreenshotSize | number]. *)
Inductive ScreenshotSizeArg : Type :=
  | SizeNumber (n : number)
  | SizeObject (o : IScreenshotSize).

(** The four dimensions, as numbers while they are being computed and as
    32-bit integers once returned. *)
Record RawSize : Type := {
  raw_height : number;
  raw_width : number;
  raw_finalWidth : number;
  raw_finalHeight : number;
}.

Record ScreenshotSize : Type := {
  height : Z;
  width : Z;
  finalWidth : Z;
  finalHeight : Z;
}.

(** ** Engine, scene and cameras: the state the capture reads and writes *)

Definition CameraId := nat.
Definition MeshId := nat.
Definition TextureId := nat.
Definition ArrayBufferView := list Z.

(** engine._currentRenderTarget: the render target wrapper bound on the
    engine, with its own size. *)
Record RenderTargetWrapper : Type := {
  rt_width : number;
  rt_height : number;
}.

(** The functions that [engine.getRenderWidth] and [engine.getRenderHeight]
    can hold: the engine's own methods, or the closures which
    CreateScreenshotUsingRenderTarget installs (they capture [width] and
    [height]). *)
Inductive RenderSizeFn : Type :=
  | EngineGetRenderWidth
  | EngineGetRenderHeight
  | CaptureGetRenderWidth (width : Z)
  | CaptureGetRenderHeight (height : Z).

Record AbstractEngine : Type := {
  skipFrameRender : bool;
  getRenderWidth : RenderSizeFn;
  getRenderHeight : RenderSizeFn;
  _currentRenderTarget : option RenderTargetWrapper;
  (** number of observers of engine.onResizeObservable *)
  onResizeObservers : nat;
  isWebGPU : bool;
}.

Record Scene : Type := {
  activeCamera : option CameraId;
  activeCameras : option (list CameraId);
  spritesEnabled : bool;
  meshes : list MeshId;
  renderId : nat;
  cachedMaterial : option nat;
}.

(** [outputRenderTarget] maps a camera to the texture its
    [camera.outputRenderTarget] holds; an absent key is [null]. *)
Record World : Type := {
  engine : AbstractEngine;
  scene : Scene;
  outputRenderTarget : gmap nat nat;
}.

(** Field assignments. *)
Definition set_skipFrameRender (b : bool) (e : AbstractEngine) : AbstractEngine :=
  {| skipFrameRender := b;
     getRenderWidth := getRenderWidth e;
     getRenderHeight := getRenderHeight e;
     _currentRenderTarget := _currentRenderTarget e;
     onResizeObservers := onResizeObservers e;
     isWebGPU := isWebGPU e |}.

Definition set_getRenderWidth (f : RenderSizeFn) (e : AbstractEngine) : AbstractEngine :=
  {| skipFrameRender := skipFrameRender e;
     getRenderWidth := f;
     getRenderHeight := getRenderHeight e;
     _currentRenderTarget := _currentRenderTarget e;
     onResizeObservers := onResizeObservers e;
     isWebGPU := isWebGPU e |}.

Definition set_getRenderHeight (f : RenderSizeFn) (e : AbstractEngine) : AbstractEngine :=
  {| skipFrameRender := skipFrameRender e;
     getRenderWidth := getRenderWidth e;
     getRenderHeight := f;
     _currentRenderTarget := _currentRenderTarget e;
     onResizeObservers := onResizeObservers e;
     isWebGPU := isWebGPU e |}.

Definition set_currentRenderTarget (t : option RenderTargetWrapper)
    (e : AbstractEngine) : AbstractEngine :=
  {| skipFrameRender := skipFrameRender e;
     getRenderWidth := getRenderWidth e;
     getRenderHeight := getRenderHeight e;
     _currentRenderTarget := t;
     onResizeObservers := onResizeObservers e;
     isWebGPU := isWebGPU e |}.

Definition set_activeCamera (c : option CameraId) (s : Scene) : Scene :=
  {| activeCamera := c;
     activeCameras := activeCameras s;
     spritesEnabled := spritesEnabled s;
     meshes := meshes s;
     renderId := renderId s;
     cachedMaterial := cachedMaterial s |}.

Definition set_activeCameras (cs : option (list CameraId)) (s : Scene) : Scene :=
  {| activeCamera := activeCamera s;
     activeCameras := cs;
     spritesEnabled := spritesEnabled s;
     meshes := meshes s;
     renderId := renderId s;
     cachedMaterial := cachedMaterial s |}.

Definition set_spritesEnabled (b : bool) (s : Scene) : Scene :=
  {| activeCamera := activeCamera s;
     activeCameras := activeCameras s;
     spritesEnabled := b;
     meshes := meshes s;
     renderId := renderId s;
     cachedMaterial := cachedMaterial s |}.

Definition set_meshes (l : list MeshId) (s : Scene) : Scene :=
  {| activeCamera := activeCamera s;
     activeCameras := activeCameras s;
     spritesEnabled := spritesEnabled s;
     meshes := l;
     renderId := renderId s;
     cachedMaterial := cachedMaterial s |}.

(** Modelled from the spec: scene.incrementRenderId and
    scene.resetCachedMaterial (scene.ts is not among the sources) increment
    the render generation counter and clear the cached material state. *)
Definition incrementRenderId (s : Scene) : Scene :=
  {| activeCamera := activeCamera s;
     activeCameras := activeCameras s;
     spritesEnabled := spritesEnabled s;
     meshes := meshes s;
     renderId := S (renderId s);
     cachedMaterial := cachedMaterial s |}.

(** Modelled from the spec: scene.resetCachedMaterial, see above. *)
Definition resetCachedMaterial (s : Scene) : Scene :=
  {| activeCamera := activeCamera s;
     activeCameras := activeCameras s;
     spritesEnabled := spritesEnabled s;
     meshes := meshes s;
     renderId := renderId s;
     cachedMaterial := None |}.

Definition with_engine (f : AbstractEngine -> AbstractEngine) (w : World) : World :=
  {| engine := f (engine w); scene := scene w;
     outputRenderTarget := outputRenderTarget w |}.

Definition with_scene (f : Scene -> Scene) (w : World) : World :=
  {| engine := engine w; scene := f (scene w);
     outputRenderTarget := outputRenderTarget w |}.

(** [camera.outputRenderTarget = t], with [None] for [null]. *)
Definition set_outputRenderTarget (camera : CameraId) (t : option TextureId)
    (w : World) : World :=
  {| engine := engine w; scene := scene w;
     outputRenderTarget := partial_alter (fun _ => t) camera (outputRenderTarget w) |}.

(** ** The capture: its options, its texture, the calls it makes, the
    callbacks it registers and the events that call them back *)

(** Parameters of the function after [size] that the capture depends on. *)
Record CaptureOptions : Type := {
  mimeType : string;
  samples : nat;
  antialiasing : bool;
  fileName : option string;
  renderSprites : bool;
  enableStencilBuffer : bool;
  useLayerMask : bool;
  quality : option number;
}.

(** The properties of the render target texture that the function assigns
    and that [customizeTexture] may change. *)
Record RenderTargetTexture : Type := {
  tex_renderList : option (list MeshId);
  tex_samples : nat;
  tex_renderSprites : bool;
  tex_activeCamera : option CameraId;
  tex_forceLayerMaskCheck : bool;
  tex_postProcesses : list string;
}.

Definition addPostProcess (name : string) (t : RenderTargetTexture) : RenderTargetTexture :=
  {| tex_renderList := tex_renderList t;
     tex_samples := tex_samples t;
     tex_renderSprites := tex_renderSprites t;
     tex_activeCamera := tex_activeCamera t;
     tex_forceLayerMaskCheck := tex_forceLayerMaskCheck t;
     tex_postProcesses := tex_postProcesses t ++ [name] |}.

(** Calls that leave this file, recorded in the order they are made.  A
    render target texture is named by the identity of the object; the
    texture which ApplyPostProcess resolves to is an internal texture, named
    apart. *)
Inductive Call : Type :=
  | LoggerError (msg : string)
  | NotifyResizeObservers
  | NewRenderTargetTexture (texture : TextureId) (width height : Z)
      (enableStencilBuffer : bool) (samples : nat)
  | NewFxaaPostProcess (camera : option CameraId)
  | RetryWithInterval
  | AddOnceEndFrame
  | SceneRender
  | GetProjectionMatrix (camera : CameraId) (force : bool)
  | ReadPixels (texture : TextureId)
  | ImportPassFragment (wgsl : bool)
  | ApplyPostProcess (ofTexture : TextureId) (width height : Z)
  | ReadTexturePixels (internalTexture : TextureId) (width height : Z)
  | DumpData (width height : Z) (data : ArrayBufferView) (mimeType : string)
      (fileName : option string) (invertY : bool) (quality : option number)
  | DisposeRenderTarget (texture : TextureId)
  | DisposeInternalTexture (internalTexture : TextureId).

(** The variables that the callbacks of one capture close over. *)
Record Capture : Type := {
  cap_camera : CameraId;
  cap_size : ScreenshotSize;
  cap_textureId : TextureId;
  cap_texture : RenderTargetTexture;
  originalGetRenderWidth : RenderSizeFn;
  originalGetRenderHeight : RenderSizeFn;
  cap_options : CaptureOptions;
}.

(** A callback of the capture that is registered and waits to be called,
    or what is left of one that has run. *)
Inductive Pending : Type :=
  | AwaitEffectCreated      (* fxaaPostProcess.onEffectCreatedObservable.addOnce *)
  | AwaitCompiled           (* the function assigned to e.onCompiled *)
  | Retrying                (* a polling started by _RetryWithInterval *)
  | AwaitEndFrame           (* engine.onEndFrameObservable.addOnce *)
  | AwaitReadPixels         (* texture.readPixels(...).then *)
  | AwaitImport             (* importPromise.then *)
  | AwaitApplyPostProcess   (* ApplyPostProcess(...).then *)
  | AwaitReadTexturePixels (internalTexture : TextureId)
                            (* engine._readTexturePixels(...).then *)
  | Idle.                   (* the callback has run and left nothing registered *)

(** What happens outside and calls a callback back. *)
Inductive ConditionResult : Type :=
  | ConditionHolds | ConditionFails | ConditionThrows.

(** A notification of an observable reaches every observer; the completion
    of a compilation reaches the function held by [e.onCompiled]; a tick of
    a timer and the settling of a promise reach the one callback they
    belong to, named by its position [k] among the registrations of the
    capture. *)
Inductive Event : Type :=
  | EffectCreated (isReady : bool)
  | EffectCompiled
  | RetryTick (k : nat) (condition : ConditionResult)
  | EndFrame
  | ReadPixelsSettled (k : nat) (data : option ArrayBufferView)
  | ImportSettled (k : nat) (fulfilled : bool)
  | ApplyPostProcessSettled (k : nat) (internalTexture : option TextureId)
  | ReadTexturePixelsSettled (k : nat) (data : option ArrayBufferView).


(** ** The glTF loader extension registry *)
Module GLTF.

Section Registry.

(** [GLTFExtensionFactory]: a function from a loader to an extension, kept
    abstract. *)
Context {GLTFExtensionFactory : Type}.

Record IRegisteredGLTFExtension : Type := {
  isGLTFExtension : bool;
  factory : GLTFExtensionFactory;
}.

(** The module state: the map [RegisteredGLTFExtensions], and the warnings
    passed to [Logger.Warn]. *)
Record Registry : Type := {
  RegisteredGLTFExtensions : gmap string IRegisteredGLTFExtension;
  warnings : list string;
}.

(** [RegisteredGLTFExtensions.delete(name)]: whether the key was present,
    and the map without it. *)
Definition unregisterGLTFExtension (name : string) (r : Registry) : bool * Registry :=
  (bool_decide (is_Some (RegisteredGLTFExtensions r !! name)),
   {| RegisteredGLTFExtensions := delete name (RegisteredGLTFExtensions r);
      warnings := warnings r |}).

Definition alreadyExists (name : string) : string :=
  "Extension with the name '" +:+ name +:+ "' already exists".

Definition registerGLTFExtension (name : string) (isGLTFExtension : bool)
    (factory : GLTFExtensionFactory) (r : Registry) : Registry :=
  let '(existed, r) := unregisterGLTFExtension name r in
  let warnings := if existed then warnings r ++ [alreadyExists name] else warnings r in
  {| RegisteredGLTFExtensions :=
       <[name := {| isGLTFExtension := isGLTFExtension; factory := factory |}]>
         (RegisteredGLTFExtensions r);
     warnings := warnings |}.

End Registry.

Arguments IRegisteredGLTFExtension : clear implicits.
Arguments Registry : clear implicits.

End GLTF.

(** ** CreateScreenshot: further operations on numbers, the canvas and the
    calls of the canvas path *)

(** [x <= y] on numbers; false when either is NaN. *)
Definition number_le (x y : number) : bool :=
  match x, y with
  | NaN, _ | _, NaN => false
  | Infinity true, _ => true
  | _, Infinity false => true
  | Infinity false, _ => false
  | _, Infinity true => false
  | Fin p, Fin q => Qle_bool p q
  end.

(** Math.max and Math.min of two numbers: NaN when either is NaN. *)
Definition Math_max (x y : number) : number :=
  match x, y with
  | NaN, _ | _, NaN => NaN
  | _, _ => if number_le x y then y else x
  end.

Definition Math_min (x y : number) : number :=
  match x, y with
  | NaN, _ | _, NaN => NaN
  | _, _ => if number_le x y then x else y
  end.

(** [x - y]. *)
Definition number_sub (x y : number) : number :=
  match x, y with
  | NaN, _ | _, NaN => NaN
  | Infinity s, Infinity t => if Bool.eqb s t then NaN else Infinity s
  | Infinity s, Fin _ => Infinity s
  | Fin _, Infinity t => Infinity (negb t)
  | Fin p, Fin q => round64 (p - q)
  end.

(** The parameters of CreateScreenshot after [size]; [successCallback]
    says whether a callback was passed. *)
Record ScreenshotOptions : Type := {
  successCallback : bool;
  cs_mimeType : string;
  forceDownload : bool;
  cs_quality : option number;
  useFill : bool;
}.

(** What the observer of the end of the frame finds: whether
    [getContext("2d")] gives a context, and the rendering canvas of the
    engine with its width and height, if there is one. *)
Record Page : Type := {
  renderContext : bool;
  renderingCanvas : option (number * number);
}.

(** The module variable [screenshotCanvas]: [None] for [null], else the
    canvas with the width and height last assigned to it. *)
Definition ScreenshotCanvas := option (Z * Z).

(** Calls made by the canvas path. *)
Inductive CanvasCall : Type :=
  | CanvasLoggerError (msg : string)
  | CreateCanvasElement
  | DrawImage (sx sy sWidth sHeight dx dy dWidth dHeight : number)
  | EncodeScreenshotCanvasData (successCallback : bool) (mimeType : string)
      (quality : option number)
  | CallSuccessCallback (data : string).

(** Where the image of the rendering canvas is drawn in the screenshot
    canvas. *)
Record Placement : Type := {
  offsetX : number;
  offsetY : number;
  newWidth : number;
  newHeight : number;
}.

(** The observer of the end of the frame, from the scale factors to the
    offsets. *)
Definition placeImage (srcWidth srcHeight destWidth destHeight : number)
    (useFill : bool) : Placement :=
  let scaleX := div destWidth srcWidth in
  let scaleY := div destHeight srcHeight in
  let scale := if useFill then Math_max scaleX scaleY else Math_min scaleX scaleY in
  let newWidth := mul srcWidth scale in
  let newHeight := mul srcHeight scale in
  let offsetX := div (number_sub destWidth newWidth) (of_Z 2) in
  let offsetY := div (number_sub destHeight newHeight) (of_Z 2) in
  {| offsetX := offsetX; offsetY := offsetY;
     newWidth := newWidth; newHeight := newHeight |}.

(** ** Inputs on which the properties are evaluated *)
Module Sample.

Definition engine0 : AbstractEngine :=
  {| skipFrameRender := false;
     getRenderWidth := EngineGetRenderWidth;
     getRenderHeight := EngineGetRenderHeight;
     _currentRenderTarget := None;
     onResizeObservers := 1;
     isWebGPU := false |}.

Definition scene0 : Scene :=
  {| activeCamera := Some 1%nat;
     activeCameras := Some [1%nat; 2%nat];
     spritesEnabled := true;
     meshes := [10%nat; 11%nat];
     renderId := 0;
     cachedMaterial := Some 3%nat |}.

Definition world0 : World :=
  {| engine := engine0; scene := scene0; outputRenderTarget := {[ 2%nat := 5%nat ]} |}.

(** The same world with frame rendering already skipped by its owner. *)
Definition worldSkipping : World := with_engine (set_skipFrameRender true) world0.

Definition options0 : CaptureOptions :=
  {| mimeType := "image/png"; samples := 1; antialiasing := false;
     fileName := None; renderSprites := false; enableStencilBuffer := false;
     useLayerMask := true; quality := None |}.

Definition optionsFxaa : CaptureOptions :=
  {| mimeType := "image/png"; samples := 1; antialiasing := true;
     fileName := None; renderSprites := false; enableStencilBuffer := false;
     useLayerMask := true; quality := None |}.

(** A canvas of 800x400 seen by a camera of aspect ratio 2. *)
Definition aspectRatio2 (_ : AbstractEngine) (_ : CameraId) : number := of_Z 2.
Definition renderWidth800 (_ : AbstractEngine) (_ : bool) : number := of_Z 800.
Definition renderHeight400 (_ : AbstractEngine) (_ : bool) : number := of_Z 400.

(** A render pass that returns, and one that overwrites the scene setup and
    throws. *)
Definition renderReturns (w : World) : World * bool := (w, true).
Definition renderThrows (w : World) : World * bool :=
  (with_scene (set_meshes []) (with_scene (set_activeCamera None) w), false).

Definition dumpReturns (_ _ : Z) (_ : ArrayBufferView) : bool := true.

(** A browser that keeps the gain of a gain node in single precision. *)
Definition gainFloat32 (v : number) : number :=
  match v with
  | Fin q => round32 q
  | _ => v
  end.

Definition widthObject (w : Z) : ScreenshotSizeArg :=
  SizeObject {| size_precision := None; size_width := Some (of_Z w);
                size_height := None; size_finalWidth := None;
                size_finalHeight := None |}.

End Sample.

Section Screenshot.

(** Code of the engine that is not part of these sources, taken as
    parameters: [engine.getAspectRatio(camera)], the engine's own
    [getRenderWidth] and [getRenderHeight] methods, [scene.render()], the
    encoder and the hook of the caller. *)
Variable getAspectRatio : AbstractEngine -> CameraId -> number.
Variable engineGetRenderWidth : AbstractEngine -> bool -> number.
Variable engineGetRenderHeight : AbstractEngine -> bool -> number.

(** [scene.render()]: the world it leaves, and whether it returned ([true])
    or threw ([false]).  Nothing is assumed about it. *)
Variable scene_render : World -> World * bool.

(** The encoder [customDumpData || DumpData]: whether it returns ([true]) or
    throws ([false]) on a width, a height and the pixels. *)
Variable dumpDataFunc : Z -> Z -> ArrayBufferView -> bool.

(** The hook [customizeTexture?.(texture)]. *)
Variable customizeTexture : option (RenderTargetTexture -> RenderTargetTexture).

(** Calling the function held by [engine.getRenderWidth] or
    [engine.getRenderHeight] with argument [useScreen].  The closures of
    the capture read [engine._currentRenderTarget] when they are called. *)
Definition callRenderSize (f : RenderSizeFn) (engine : AbstractEngine)
    (useScreen : bool) : number :=
  match f with
  | EngineGetRenderWidth => engineGetRenderWidth engine useScreen
  | EngineGetRenderHeight => engineGetRenderHeight engine useScreen
  | CaptureGetRenderWidth width =>
      match negb useScreen, _currentRenderTarget engine with
      | true, Some rt => rt_width rt
      | _, _ => of_Z width
      end
  | CaptureGetRenderHeight height =>
      match negb useScreen, _currentRenderTarget engine with
      | true, Some rt => rt_height rt
      | _, _ => of_Z height
      end
  end.

(** *** GetScreenshotSize

    [resolveSize] is the function up to the comment on truncation; the
    floors and the [| 0] of the return statement follow in
    [GetScreenshotSize]. *)
Definition resolveSize (engine : AbstractEngine) (camera : CameraId)
    (size : ScreenshotSizeArg) : RawSize :=
  match size with
  | SizeObject size =>
      let precision :=
        if truthy_opt (size_precision size)
        then Math_abs (to_number (size_precision size))
        else of_Z 1 in
      let '(width, height) :=
        if truthy_opt (size_width size) && truthy_opt (size_height size) then
          let height := mul (to_number (size_height size)) precision in
          let width := mul (to_number (size_width size)) precision in
          (width, height)
        else if truthy_opt (size_width size) && negb (truthy_opt (size_height size)) then
          let width := mul (to_number (size_width size)) precision in
          let height := Math_round (div width (getAspectRatio engine camera)) in
          (width, height)
        else if truthy_opt (size_height size) && negb (truthy_opt (size_width size)) then
          let height := mul (to_number (size_height size)) precision in
          let width := Math_round (mul height (getAspectRatio engine camera)) in
          (width, height)
        else
          let width :=
            Math_round (mul (callRenderSize (getRenderWidth engine) engine false) precision) in
          let height := Math_round (div width (getAspectRatio engine camera)) in
          (width, height) in
      let '(finalWidth, finalHeight) :=
        if truthy_opt (size_finalWidth size) && truthy_opt (size_finalHeight size) then
          (to_number (size_finalWidth size), to_number (size_finalHeight size))
        else if truthy_opt (size_finalWidth size) && negb (truthy_opt (size_finalHeight size)) then
          let finalWidth := to_number (size_finalWidth size) in
          let finalHeight := Math_round (div finalWidth (getAspectRatio engine camera)) in
          (finalWidth, finalHeight)
        else if truthy_opt (size_finalHeight size) && negb (truthy_opt (size_finalWidth size)) then
          let finalHeight := to_number (size_finalHeight size) in
          let finalWidth := Math_round (mul finalHeight (getAspectRatio engine camera)) in
          (finalWidth, finalHeight)
        else
          (width, height) in
      {| raw_height := height; raw_width := width;
         raw_finalWidth := finalWidth; raw_finalHeight := finalHeight |}
  | SizeNumber size =>
      if negb (isNaN size)
      then {| raw_height := size; raw_width := size;
              raw_finalWidth := size; raw_finalHeight := size |}
      else {| raw_height := of_Z 0; raw_width := of_Z 0;
              raw_finalWidth := of_Z 0; raw_finalHeight := of_Z 0 |}
  end.

(** [if (x) { x = Math.floor(x); }] *)
Definition floorIfSet (x : number) : number :=
  if truthy x then Math_floor x else x.

Definition GetScreenshotSize (engine : AbstractEngine) (camera : CameraId)
    (size : ScreenshotSizeArg) : ScreenshotSize :=
  let r := resolveSize engine camera size in
  let width := floorIfSet (raw_width r) in
  let height := floorIfSet (raw_height r) in
  let finalWidth := floorIfSet (raw_finalWidth r) in
  let finalHeight := floorIfSet (raw_finalHeight r) in
  {| height := ToInt32 height; width := ToInt32 width;
     finalWidth := ToInt32 finalWidth; finalHeight := ToInt32 finalHeight |}.

(** *** CreateScreenshotUsingRenderTarget *)

(** [if (engine.onResizeObservable.hasObservers()) notifyObservers(engine)] *)
Definition notifyResize (engine : AbstractEngine) : list Call :=
  if (0 <? onResizeObservers engine)%nat then [NotifyResizeObservers] else [].

(** The scene setup recorded before the swap. *)
Record SceneSetup : Type := {
  originalCamera : option CameraId;
  originalCameras : option (list CameraId);
  originalOutputRenderTarget : option TextureId;
  originalSpritesEnabled : bool;
  currentMeshList : list MeshId;
}.

(** onSuccess, from [scene.incrementRenderId()] to the assignment of
    [scene.meshes]. *)
Definition swapSceneSetup (c : Capture) (w : World) : SceneSetup * World :=
  let camera := cap_camera c in
  let w := with_scene incrementRenderId w in
  let w := with_scene resetCachedMaterial w in
  let originalCamera := activeCamera (scene w) in
  let originalCameras := activeCameras (scene w) in
  let originalOutputRenderTarget := outputRenderTarget w !! camera in
  let originalSpritesEnabled := spritesEnabled (scene w) in
  let w := with_scene (set_activeCamera (Some camera)) w in
  let w := with_scene (set_activeCameras None) w in
  let w := set_outputRenderTarget camera (Some (cap_textureId c)) w in
  let w := with_scene (set_spritesEnabled (renderSprites (cap_options c))) w in
  let currentMeshList := meshes (scene w) in
  let w :=
    with_scene (set_meshes match tex_renderList (cap_texture c) with
                           | Some renderList => renderList
                           | None => meshes (scene w)
                           end) w in
  ({| originalCamera := originalCamera;
      originalCameras := originalCameras;
      originalOutputRenderTarget := originalOutputRenderTarget;
      originalSpritesEnabled := originalSpritesEnabled;
      currentMeshList := currentMeshList |}, w).

(** onSuccess, the [finally] block. *)
Definition restoreSceneSetup (c : Capture) (o : SceneSetup) (w : World)
    : World * list Call :=
  let camera := cap_camera c in
  let w := with_scene (set_activeCamera (originalCamera o)) w in
  let w := with_scene (set_activeCameras (originalCameras o)) w in
  let w := set_outputRenderTarget camera (originalOutputRenderTarget o) w in
  let w := with_scene (set_spritesEnabled (originalSpritesEnabled o)) w in
  let w := with_scene (set_meshes (currentMeshList o)) w in
  let w := with_engine (set_getRenderWidth (originalGetRenderWidth c)) w in
  let w := with_engine (set_getRenderHeight (originalGetRenderHeight c)) w in
  let calls := notifyResize (engine w) ++ [GetProjectionMatrix camera true] in
  let w := with_engine (set_skipFrameRender false) w in
  (w, calls).

(** The second argument of _RetryWithInterval: the new world, the calls, and
    whether it returned ([true]) or [scene.render()] threw ([false]). *)
Definition onSuccess (c : Capture) (w : World) : World * list Call * bool :=
  let '(o, w) := swapSceneSetup c w in
  let '(w, returned) := scene_render w in
  let '(w, calls) := restoreSceneSetup c o w in
  (w, [AddOnceEndFrame; SceneRender] ++ calls, returned).

(** The third argument of _RetryWithInterval. *)
Definition onError (c : Capture) (w : World) : World :=
  let w := with_engine (set_skipFrameRender false) w in
  let w := with_engine (set_getRenderWidth (originalGetRenderWidth c)) w in
  with_engine (set_getRenderHeight (originalGetRenderHeight c)) w.

(** Modelled from the spec: _RetryWithInterval (timingTools.ts is not among
    the sources) polls the condition at a fixed interval, with no deadline,
    until it holds, and then runs [onSuccess] once.  [onError] is the
    callback for an error: it runs when the condition throws, and when
    [onSuccess] throws.  This is one evaluation of the condition: the new
    world, the calls, and the callback left registered. *)
Definition retryWithInterval_tick (condition : ConditionResult)
    (onSuccess : World -> World * list Call * bool) (onError : World -> World)
    (w : World) : World * list Call * Pending :=
  match condition with
  | ConditionFails => (w, [], Retrying)
  | ConditionHolds =>
      let '(w, calls, returned) := onSuccess w in
      (if returned then w else onError w, calls, AwaitEndFrame)
  | ConditionThrows => (onError w, [], Idle)
  end.

Definition renderWhenReady (w : World) : World * list Call * Pending :=
  (w, [RetryWithInterval], Retrying).

Definition renderToTexture (w : World) : World * list Call * Pending :=
  let w := with_scene incrementRenderId w in
  let w := with_scene resetCachedMaterial w in
  renderWhenReady w.

(** The observer added once to engine.onEndFrameObservable. *)
Definition onEndFrame (c : Capture) (w : World) : World * list Call * Pending :=
  let sz := cap_size c in
  if (finalWidth sz =? width sz) && (finalHeight sz =? height sz)
  then (w, [ReadPixels (cap_textureId c)], AwaitReadPixels)
  else (w, [ImportPassFragment (isWebGPU (engine w))], AwaitImport).

(** The call of the encoder followed by [texture.dispose()], which is
    reached when the encoder returns. *)
Definition dumpAndDispose (c : Capture) (width height : Z) (data : ArrayBufferView)
    (dispose : Call) : list Call :=
  let o := cap_options c in
  DumpData width height data (mimeType o) (fileName o) true (quality o)
    :: (if dumpDataFunc width height data then [dispose] else []).

(** Modelled from the spec: an observer added with [addOnce] is called at
    the next notification and then removed; a promise settles once, and
    [then] with one callback does nothing when it is rejected
    (observable.ts is not among the sources).  This is one callback [p]
    offered the event [ev]: the new world, the calls, and what is registered
    in its place.  A callback that is offered an event it does not wait for
    stays as it is.  The function held by [e.onCompiled] is called by
    [deliver] below. *)
Definition step (c : Capture) (p : Pending) (ev : Event) (w : World)
    : World * list Call * Pending :=
  let sz := cap_size c in
  match p, ev with
  | AwaitEffectCreated, EffectCreated isReady =>
      if negb isReady then (w, [], AwaitCompiled) else renderToTexture w
  | Retrying, RetryTick _ condition =>
      retryWithInterval_tick condition (onSuccess c) (onError c) w
  | AwaitEndFrame, EndFrame => onEndFrame c w
  | AwaitReadPixels, ReadPixelsSettled _ (Some data) =>
      (w, dumpAndDispose c (width sz) (height sz) data
            (DisposeRenderTarget (cap_textureId c)), Idle)
  | AwaitReadPixels, ReadPixelsSettled _ None => (w, [], Idle)
  | AwaitImport, ImportSettled _ true =>
      (w, [ApplyPostProcess (cap_textureId c) (finalWidth sz) (finalHeight sz)],
       AwaitApplyPostProcess)
  | AwaitImport, ImportSettled _ false => (w, [], Idle)
  | AwaitApplyPostProcess, ApplyPostProcessSettled _ (Some texture) =>
      (w, [ReadTexturePixels texture (finalWidth sz) (finalHeight sz)],
       AwaitReadTexturePixels texture)
  | AwaitApplyPostProcess, ApplyPostProcessSettled _ None => (w, [], Idle)
  | AwaitReadTexturePixels texture, ReadTexturePixelsSettled _ (Some data) =>
      (w, dumpAndDispose c (finalWidth sz) (finalHeight sz) data
            (DisposeInternalTexture texture), Idle)
  | AwaitReadTexturePixels _, ReadTexturePixelsSettled _ None => (w, [], Idle)
  | _, _ => (w, [], p)
  end.

(** A capture under way: the world, the callbacks registered so far, in the
    order of their registration, and the calls made so far.  A callback
    keeps its position: what it registers when it runs takes its place.
    Between two events the world is left as it is: it changes only when a
    callback of the capture runs. *)
Record Running : Type := {
  world : World;
  pending : list Pending;
  trace : list Call;
}.

(** The callback at position [k] is called back. *)
Definition callBack (c : Capture) (ev : Event) (k : nat) (s : Running) : Running :=
  match pending s !! k with
  | Some p =>
      let '(w, calls, p) := step c p ev (world s) in
      {| world := w; pending := <[k := p]> (pending s); trace := trace s ++ calls |}
  | None => s
  end.

(** A notification: the callbacks are offered the event one after the
    other, in the order of their registration. *)
Fixpoint notifyAll (c : Capture) (ev : Event) (ps : list Pending) (w : World)
    : World * list Call * list Pending :=
  match ps with
  | [] => (w, [], [])
  | p :: ps =>
      let '(w, calls, p) := step c p ev w in
      let '(w, calls', ps) := notifyAll c ev ps w in
      (w, calls ++ calls', p :: ps)
  end.

Definition notify (c : Capture) (ev : Event) (s : Running) : Running :=
  let '(w, calls, ps) := notifyAll c ev (pending s) (world s) in
  {| world := w; pending := ps; trace := trace s ++ calls |}.

Definition isAwaitCompiled (p : Pending) : bool :=
  match p with AwaitCompiled => true | _ => false end.

(** [e.onCompiled] holds the function of the capture. *)
Definition handlerAssigned (ps : list Pending) : bool := existsb isAwaitCompiled ps.

(** Modelled from the spec: [e.onCompiled] is a property of the effect that
    holds one function, which the effect calls when a compilation of its
    program completes (effect.ts is not among the sources).  The function
    assigns it and nothing clears it, so it stays where it is and is called
    at every completion; each call is a call of [renderToTexture], which
    starts a polling of its own. *)
Definition onCompiled (s : Running) : Running :=
  let '(w, calls, p) := renderToTexture (world s) in
  {| world := w; pending := pending s ++ [p]; trace := trace s ++ calls |}.

Definition deliver (c : Capture) (s : Running) (ev : Event) : Running :=
  match ev with
  | EffectCreated _ | EndFrame => notify c ev s
  | EffectCompiled => if handlerAssigned (pending s) then onCompiled s else s
  | RetryTick k _ | ReadPixelsSettled k _ | ImportSettled k _
  | ApplyPostProcessSettled k _ | ReadTexturePixelsSettled k _ => callBack c ev k s
  end.

Definition run (c : Capture) (s : Running) (evs : list Event) : Running :=
  fold_left (deliver c) evs s.

(** The function itself, up to its return.  [texture] is the identity of the
    object that [new RenderTargetTexture] creates.  The result is the
    closure of the capture ([None] when the size is refused) and the world,
    the registered callbacks and the calls at the return. *)
Definition CreateScreenshotUsingRenderTarget (w : World) (camera : CameraId)
    (size : ScreenshotSizeArg) (o : CaptureOptions) (texture : TextureId)
    : option Capture * Running :=
  let sz := GetScreenshotSize (engine w) camera size in
  if negb (negb (height sz =? 0) && negb (width sz =? 0)) then
    (None, {| world := w; pending := [];
              trace := [LoggerError "Invalid 'size' parameter !"] |})
  else
    let w := with_engine (set_skipFrameRender true) w in
    let originalGetRenderWidth := getRenderWidth (engine w) in
    let originalGetRenderHeight := getRenderHeight (engine w) in
    let w := with_engine (set_getRenderWidth (CaptureGetRenderWidth (width sz))) w in
    let w := with_engine (set_getRenderHeight (CaptureGetRenderHeight (height sz))) w in
    let calls := notifyResize (engine w) in
    let calls :=
      calls ++ [NewRenderTargetTexture texture (width sz) (height sz)
                  (enableStencilBuffer o) (samples o)] in
    let t :=
      {| tex_renderList := Some (meshes (scene w));
         tex_samples := samples o;
         tex_renderSprites := renderSprites o;
         tex_activeCamera := Some camera;
         tex_forceLayerMaskCheck := useLayerMask o;
         tex_postProcesses := [] |} in
    let t := match customizeTexture with Some f => f t | None => t end in
    let capture (t : RenderTargetTexture) :=
      {| cap_camera := camera; cap_size := sz;
         cap_textureId := texture; cap_texture := t;
         originalGetRenderWidth := originalGetRenderWidth;
         originalGetRenderHeight := originalGetRenderHeight;
         cap_options := o |} in
    if antialiasing o then
      let calls := calls ++ [NewFxaaPostProcess (activeCamera (scene w))] in
      let t := addPostProcess "antialiasing" t in
      (Some (capture t),
       {| world := w; pending := [AwaitEffectCreated]; trace := calls |})
    else
      let '(w, calls', p) := renderToTexture w in
      (Some (capture t), {| world := w; pending := [p]; trace := calls ++ calls' |}).

(** The capture from its call on, through the events that follow. *)
Definition capture_run (r : option Capture * Running) (evs : list Event) : Running :=
  match fst r with
  | Some c => run c (snd r) evs
  | None => snd r
  end.


(** *** Notions used to state the properties *)

(** The dimension that is returned for a computed number. *)
Definition floor32 (x : number) : Z :=
  match x with
  | Fin q => wrap32 (Qfloor q)
  | _ => 0
  end.

(** A number that is computed is not negative: a finite value that is not
    negative, or the positive infinity. *)
Definition notNegative (x : number) : Prop :=
  match x with
  | NaN => False
  | Infinity negative => negative = false
  | Fin q => (0 <= q)%Q
  end.

(** The size object [size] with its precision set to [p]. *)
Definition with_precision (p : option number) (size : IScreenshotSize) : IScreenshotSize :=
  {| size_precision := p;
     size_width := size_width size;
     size_height := size_height size;
     size_finalWidth := size_finalWidth size;
     size_finalHeight := size_finalHeight size |}.

(** The size object [{width: w}]. *)
Definition onlyWidth (w : number) : IScreenshotSize :=
  {| size_precision := None; size_width := Some w; size_height := None;
     size_finalWidth := None; size_finalHeight := None |}.

(** How many calls of a kind a trace holds. *)
Definition count (f : Call -> bool) (tr : list Call) : nat :=
  length (List.filter f tr).

(** The kinds of calls that are counted. *)
Definition isSceneRender (x : Call) : bool :=
  match x with SceneRender => true | _ => false end.
Definition isRetryWithInterval (x : Call) : bool :=
  match x with RetryWithInterval => true | _ => false end.
Definition isNewRenderTargetTexture (x : Call) : bool :=
  match x with NewRenderTargetTexture _ _ _ _ _ => true | _ => false end.
Definition isDisposeRenderTarget (x : Call) : bool :=
  match x with DisposeRenderTarget _ => true | _ => false end.
Definition isDumpData (x : Call) : bool :=
  match x with DumpData _ _ _ _ _ _ _ => true | _ => false end.
Definition isReadPixels (x : Call) : bool :=
  match x with ReadPixels _ => true | _ => false end.
Definition isResizeCall (x : Call) : bool :=
  match x with
  | ImportPassFragment _ | ApplyPostProcess _ _ _ | ReadTexturePixels _ _ _ => true
  | _ => false
  end.
Definition isDisposeInternalTexture (x : Call) : bool :=
  match x with DisposeInternalTexture _ => true | _ => false end.

(** How many compilations complete in a sequence of events. *)
Definition isEffectCompiled (ev : Event) : bool :=
  match ev with EffectCompiled => true | _ => false end.
Definition compilations (evs : list Event) : nat :=
  length (List.filter isEffectCompiled evs).

(** The size passes the test [height && width]. *)
Definition validSize (sz : ScreenshotSize) : bool :=
  negb (height sz =? 0) && negb (width sz =? 0).

(** The callback belongs to the part of the capture that comes before a
    render pass.  When this holds of every callback registered so far, no
    polling of the capture has ended yet, neither by a render pass nor by
    an error. *)
Definition beforeRender (p : Pending) : bool :=
  match p with
  | AwaitEffectCreated | AwaitCompiled | Retrying => true
  | _ => false
  end.

(** The observers of the end of the frame. *)
Definition isAwaitEndFrame (p : Pending) : bool :=
  match p with AwaitEndFrame => true | _ => false end.

(** The engine holds the accessors which the capture installs. *)
Definition overrideInstalled (c : Capture) (e : AbstractEngine) : Prop :=
  getRenderWidth e = CaptureGetRenderWidth (width (cap_size c))
  /\ getRenderHeight e = CaptureGetRenderHeight (height (cap_size c)).

(** The scene setup of [w'] is the one of [w]: the five values which the
    capture swaps. *)
Definition sameSceneSetup (camera : CameraId) (w w' : World) : Prop :=
  activeCamera (scene w') = activeCamera (scene w)
  /\ activeCameras (scene w') = activeCameras (scene w)
  /\ outputRenderTarget w' !! camera = outputRenderTarget w !! camera
  /\ spritesEnabled (scene w') = spritesEnabled (scene w)
  /\ meshes (scene w') = meshes (scene w).

(** The engine holds the accessors recorded by the capture, and renders
    frames again. *)
Definition engineRestored (c : Capture) (w : World) : Prop :=
  getRenderWidth (engine w) = originalGetRenderWidth c
  /\ getRenderHeight (engine w) = originalGetRenderHeight c
  /\ skipFrameRender (engine w) = false.

(** The scene setup is the one of [w0], and once a render pass has run
    the engine is restored. *)
Definition restoredOnceRendered (c : Capture) (w0 : World) (s : Running) : Prop :=
  sameSceneSetup (cap_camera c) w0 (world s)
  /\ (In SceneRender (trace s) -> engineRestored c (world s)).

(** For a callback: whether a polling has been started for it, whether it
    is that polling, and whether it stands between the render pass and the
    encoder. *)
Definition started (p : Pending) : nat :=
  match p with AwaitEffectCreated | AwaitCompiled => 0 | _ => 1 end.
Definition polling (p : Pending) : nat :=
  match p with Retrying => 1 | _ => 0 end.
Definition reading (p : Pending) : nat :=
  match p with
  | AwaitEndFrame | AwaitReadPixels | AwaitImport | AwaitApplyPostProcess
  | AwaitReadTexturePixels _ => 1
  | _ => 0
  end.

Definition total (f : Pending -> nat) (ps : list Pending) : nat :=
  list_sum (map f ps).

(** What the trace holds for the callbacks registered: one texture has been
    allocated; every polling was started by one call of _RetryWithInterval;
    a render pass has run for no more than the pollings that have ended;
    the texture has been disposed, and the encoder called, only for render
    passes whose pixels are not waited for any more; and as long as
    [e.onCompiled] has not been assigned there is one callback. *)
Definition counted (s : Running) : Prop :=
  count isNewRenderTargetTexture (trace s) = 1%nat
  /\ count isRetryWithInterval (trace s) = total started (pending s)
  /\ (count isSceneRender (trace s) + total polling (pending s)
      <= total started (pending s))%nat
  /\ (total reading (pending s) + count isDisposeRenderTarget (trace s)
      <= count isSceneRender (trace s))%nat
  /\ (total reading (pending s) + count isDumpData (trace s)
      <= count isSceneRender (trace s))%nat
  /\ (handlerAssigned (pending s) = false -> length (pending s) = 1%nat).

(** One callback is registered, and a polling has been started for it:
    the capture without antialiasing, or once the effect was found ready. *)
Definition singleChain (s : Running) : Prop :=
  exists p : Pending, pending s = [p] /\ started p = 1%nat.

(** The observer of the creation of the effect has run. *)
Definition effectSeen (s : Running) : Prop :=
  Forall (fun p => p <> AwaitEffectCreated) (pending s).

(** The size object [{width: 100, height: 50, finalWidth: 400,
    finalHeight: 200}]. *)
Definition size100x50to400x200 : IScreenshotSize :=
  {| size_precision := None;
     size_width := Some (of_Z 100); size_height := Some (of_Z 50);
     size_finalWidth := Some (of_Z 400); size_finalHeight := Some (of_Z 200) |}.

(** The size is a number, or an object with neither final dimension set. *)
Definition noFinalSize (size : ScreenshotSizeArg) : bool :=
  match size with
  | SizeNumber _ => true
  | SizeObject o =>
      negb (truthy_opt (size_finalWidth o)) && negb (truthy_opt (size_finalHeight o))
  end.

(** The size object without its properties that are zero or NaN. *)
Definition keepTruthy (x : option number) : option number :=
  if truthy_opt x then x else None.

Definition dropFalsy (size : IScreenshotSize) : IScreenshotSize :=
  {| size_precision := keepTruthy (size_precision size);
     size_width := keepTruthy (size_width size);
     size_height := keepTruthy (size_height size);
     size_finalWidth := keepTruthy (size_finalWidth size);
     size_finalHeight := keepTruthy (size_finalHeight size) |}.

(** The size object [{height: h}]. *)
Definition onlyHeight (h : number) : IScreenshotSize :=
  {| size_precision := None; size_width := None; size_height := Some h;
     size_finalWidth := None; size_finalHeight := None |}.

(** The final size of the capture is its raw size: the test of the
    end-of-frame observer. *)
Definition sameFinalSize (c : Capture) : bool :=
  (finalWidth (cap_size c) =? width (cap_size c))
  && (finalHeight (cap_size c) =? height (cap_size c)).

(** The callbacks and calls of the path that reads the texture itself do
    not occur when the final size differs, and those of the resize path do
    not occur when it is the same. *)
Definition onPath (c : Capture) (p : Pending) : Prop :=
  if sameFinalSize c
  then match p with
       | AwaitImport | AwaitApplyPostProcess | AwaitReadTexturePixels _ => False
       | _ => True
       end
  else p <> AwaitReadPixels.

Definition callsOnPath (c : Capture) (tr : list Call) : Prop :=
  if sameFinalSize c
  then count isResizeCall tr = 0%nat /\ count isDisposeInternalTexture tr = 0%nat
  else count isReadPixels tr = 0%nat /\ count isDisposeRenderTarget tr = 0%nat.

(** A capture whose callback runs in the world that something else, such
    as another capture, has left. *)
Definition resumeIn (w : World) (s : Running) : Running :=
  {| world := w; pending := pending s; trace := trace s |}.

(** The observers of the end of the frame that are registered, what each of
    them calls, and what each of them leaves registered. *)
Definition endFrameObservers (ps : list Pending) : nat :=
  length (List.filter isAwaitEndFrame ps).

Definition endFrameCall (c : Capture) (w : World) : Call :=
  if sameFinalSize c
  then ReadPixels (cap_textureId c)
  else ImportPassFragment (isWebGPU (engine w)).

Definition afterEndFrame (c : Capture) (p : Pending) : Pending :=
  if isAwaitEndFrame p
  then if sameFinalSize c then AwaitReadPixels else AwaitImport
  else p.

(** The events that tell that the effect was created. *)
Definition isEffectCreated (ev : Event) : bool :=
  match ev with EffectCreated _ => true | _ => false end.

(** A callback that has run and has left nothing registered. *)
Definition finished (p : Pending) : nat :=
  match p with Idle => 1 | _ => 0 end.

(** The encoder has been called only by callbacks that have left nothing
    registered. *)
Definition dumpCounted (s : Running) : Prop :=
  (count isDumpData (trace s) <= total finished (pending s))%nat.

(** The callbacks and the calls are those of the path of the capture. *)
Definition onOnePath (c : Capture) (s : Running) : Prop :=
  Forall (onPath c) (pending s) /\ callsOnPath c (trace s).

(** ** Properties of GetScreenshotSize *)

Lemma wrap32_small (z : Z) : - 2 ^ 31 <= z < 2 ^ 31 -> wrap32 z = z.
Proof.
  intros Hz. unfold wrap32. rewrite Z.mod_small; lia.
Qed.

Lemma Qeq_bool_zero_num (q : Q) : Qeq_bool q 0 = true -> Qnum q = 0.
Proof.
  intros H. apply Qeq_bool_eq in H. unfold Qeq in H. simpl in H. lia.
Qed.

Lemma ToInt32_floorIfSet (x : number) : ToInt32 (floorIfSet x) = floor32 x.
Proof.
  destruct x as [| s | q]; try reflexivity.
  unfold floorIfSet, truthy.
  destruct (Qeq_bool q 0) eqn:Hq; simpl.
  - apply Qeq_bool_zero_num in Hq. destruct q as [n d]. simpl in *. subst n.
    reflexivity.
  - now rewrite Z.quot_1_r.
Qed.

Lemma truthy_Fin_opp (p : Q) : truthy (Fin (- p)) = truthy (Fin p).
Proof.
  destruct p as [n d]. unfold truthy, Qeq_bool, Qopp. simpl.
  f_equal. destruct n; reflexivity.
Qed.

Lemma Math_abs_Fin_opp (p : Q) : Math_abs (Fin (- p)) = Math_abs (Fin p).
Proof.
  destruct p as [n d]. unfold Math_abs, Qabs, Qopp. simpl.
  now rewrite Z.abs_opp.
Qed.

Lemma Qlt_0_Qeq_bool (q : Q) : (0 < q)%Q -> Qeq_bool q 0 = false.
Proof.
  intros Hq. destruct (Qeq_bool q 0) eqn:E; [| reflexivity].
  apply Qeq_bool_eq in E. rewrite E in Hq. discriminate Hq.
Qed.

Lemma resolveSize_precision_opp (engine : AbstractEngine) (camera : CameraId)
    (size : IScreenshotSize) (p : Q) :
  resolveSize engine camera (SizeObject (with_precision (Some (Fin (- p))) size))
    = resolveSize engine camera (SizeObject (with_precision (Some (Fin p)) size)).
Proof.
  unfold resolveSize, with_precision.
  cbn [size_precision size_width size_height size_finalWidth size_finalHeight
       truthy_opt to_number].
  now rewrite truthy_Fin_opp, Math_abs_Fin_opp.
Qed.

(** Rounding depends on the value of the rational only. *)
Lemma roundBinary_comp (prec emin emax : Z) (q q' : Q) :
  (q == q')%Q -> roundBinary prec emin emax q = roundBinary prec emin emax q'.
Proof.
  intros H. unfold roundBinary. now rewrite (Qred_complete q q' H).
Qed.

Lemma roundHalfEven_nonneg (n d : Z) : 0 <= n -> 0 < d -> 0 <= roundHalfEven n d.
Proof.
  intros Hn Hd. unfold roundHalfEven. pose proof (Z.div_pos n d Hn Hd) as Hdiv.
  destruct (2 * (n mod d) ?= d); [destruct (Z.even (n / d)) | |]; lia.
Qed.

Lemma shiftUp_nonneg (x e : Z) : 0 <= x -> 0 <= shiftUp x e.
Proof.
  intros Hx. unfold shiftUp. destruct (0 <=? e) eqn:He; [| exact Hx].
  apply Z.leb_le in He. apply Z.mul_nonneg_nonneg; [exact Hx |].
  apply Z.pow_nonneg. lia.
Qed.

Lemma shiftUp_pos (x e : Z) : 0 < x -> 0 < shiftUp x e.
Proof.
  intros Hx. unfold shiftUp. destruct (0 <=? e) eqn:He; [| exact Hx].
  apply Z.leb_le in He. apply Z.mul_pos_pos; [exact Hx |].
  apply Z.pow_pos_nonneg; lia.
Qed.

(** Rounding keeps the sign: what is not negative is rounded to a value
    that is not negative, or to the positive infinity. *)
Lemma roundBinary_notNegative (prec emin emax : Z) (q : Q) :
  (0 <= q)%Q -> notNegative (roundBinary prec emin emax q).
Proof.
  intros Hq. unfold roundBinary. cbv zeta.
  assert (Hn : 0 <= Qnum (Qred q)).
  { assert (H : (0 <= Qred q)%Q) by (now rewrite Qred_correct).
    unfold Qle in H. cbn in H. lia. }
  destruct (Z.abs (Qnum (Qred q)) =? 0); [apply Qle_refl |].
  match goal with |- context [if ?b then _ else _] => destruct b end.
  - cbn. apply Z.ltb_ge. exact Hn.
  - cbn [notNegative]. rewrite Qred_correct. unfold Qle. cbn [Qnum Qden].
    rewrite Z.mul_0_l, Z.mul_1_r.
    apply Z.mul_nonneg_nonneg; [lia |].
    apply shiftUp_nonneg, roundHalfEven_nonneg.
    + apply shiftUp_nonneg. lia.
    + apply shiftUp_pos. reflexivity.
Qed.

Lemma mul_notNegative (p q : Q) :
  (0 <= p)%Q -> (0 <= q)%Q -> notNegative (mul (Fin p) (Fin q)).
Proof.
  intros Hp Hq. cbn [mul]. apply roundBinary_notNegative.
  now apply Qmult_le_0_compat.
Qed.

Lemma resolveSize_explicit (engine : AbstractEngine) (camera : CameraId)
    (size : IScreenshotSize) (p w h : Q) :
  size_width size = Some (Fin w) -> size_height size = Some (Fin h) ->
  (0 < w)%Q -> (0 < h)%Q -> truthy (Fin p) = true ->
  let r := resolveSize engine camera (SizeObject (with_precision (Some (Fin p)) size)) in
  raw_width r = mul (Fin w) (Fin (Qabs p))
  /\ raw_height r = mul (Fin h) (Fin (Qabs p)).
Proof.
  intros Hw Hh Hw0 Hh0 Hp.
  unfold resolveSize, with_precision.
  cbn [size_precision size_width size_height size_finalWidth size_finalHeight
       truthy_opt to_number].
  rewrite Hw, Hh, Hp.
  cbn [truthy_opt to_number truthy].
  rewrite (Qlt_0_Qeq_bool w Hw0), (Qlt_0_Qeq_bool h Hh0).
  cbn [negb andb Math_abs].
  destruct (truthy_opt (size_finalWidth size) && truthy_opt (size_finalHeight size))%bool,
    (truthy_opt (size_finalWidth size) && negb (truthy_opt (size_finalHeight size)))%bool,
    (truthy_opt (size_finalHeight size) && negb (truthy_opt (size_finalWidth size)))%bool;
    cbn [raw_width raw_height]; split; reflexivity.
Qed.

(** C6: the number 256 resolves to 256 in all four dimensions, and
    [{width: 300}] with a camera aspect ratio of 2.0 resolves to a height of
    round(300 / 2.0) = 150, with finalWidth 300 and finalHeight 150. *)
Theorem GetScreenshotSize_examples (engine : AbstractEngine) (camera : CameraId) :
  GetScreenshotSize engine camera (SizeNumber (of_Z 256))
    = {| height := 256; width := 256; finalWidth := 256; finalHeight := 256 |}
  /\ (forall ratio : Q,
        getAspectRatio engine camera = Fin ratio -> (ratio == 2)%Q ->
        GetScreenshotSize engine camera (SizeObject (onlyWidth (of_Z 300)))
          = {| height := 150; width := 300; finalWidth := 300; finalHeight := 150 |}).
Proof.
  split; [reflexivity |].
  intros ratio Hratio H2.
  unfold GetScreenshotSize. rewrite !ToInt32_floorIfSet.
  assert (Hnz : Qeq_bool ratio 0 = false).
  { destruct (Qeq_bool ratio 0) eqn:E; [| reflexivity].
    apply Qeq_bool_eq in E. rewrite E in H2. discriminate H2. }
  assert (Hmul : mul (of_Z 300) (of_Z 1) = Fin 300) by reflexivity.
  assert (Hdiv : div (Fin 300) (Fin ratio) = Fin 150).
  { cbn [div]. rewrite Hnz.
    transitivity (round64 150); [| reflexivity].
    apply roundBinary_comp. rewrite H2. reflexivity. }
  unfold resolveSize, onlyWidth.
  cbn [size_precision size_width size_height size_finalWidth size_finalHeight
       truthy_opt to_number andb negb].
  change (truthy (of_Z 300)) with true. cbn [andb negb].
  rewrite Hmul, Hratio, Hdiv. reflexivity.
Qed.

(** C10, amended: the four dimensions returned are integers, each the floor
    of the number computed for it, brought into the signed 32-bit range by
    [| 0], which leaves a floor inside that range as it is.  A negative
    precision acts as its absolute value: it gives the same dimensions as
    the positive one.  With a positive width and height the numbers computed
    for them, the binary64 products with the absolute value of the
    precision, are not negative, and the width and height returned are not
    negative as long as those floors are below 2^31. *)
Theorem GetScreenshotSize_floor_abs_precision (engine : AbstractEngine)
    (camera : CameraId) :
  (forall size : ScreenshotSizeArg,
     let r := resolveSize engine camera size in
     GetScreenshotSize engine camera size
       = {| height := floor32 (raw_height r); width := floor32 (raw_width r);
            finalWidth := floor32 (raw_finalWidth r);
            finalHeight := floor32 (raw_finalHeight r) |})
  /\ (forall q : Q, - 2 ^ 31 <= Qfloor q < 2 ^ 31 -> floor32 (Fin q) = Qfloor q)
  /\ (forall (size : IScreenshotSize) (p : Q),
        GetScreenshotSize engine camera (SizeObject (with_precision (Some (Fin (- p))) size))
          = GetScreenshotSize engine camera (SizeObject (with_precision (Some (Fin p)) size)))
  /\ (forall (size : IScreenshotSize) (p w h : Q),
        size_width size = Some (Fin w) -> size_height size = Some (Fin h) ->
        (0 < w)%Q -> (0 < h)%Q -> truthy (Fin p) = true ->
        let r := resolveSize engine camera (SizeObject (with_precision (Some (Fin p)) size)) in
        let sz :=
          GetScreenshotSize engine camera
            (SizeObject (with_precision (Some (Fin p)) size)) in
        raw_width r = mul (Fin w) (Fin (Qabs p))
        /\ raw_height r = mul (Fin h) (Fin (Qabs p))
        /\ notNegative (raw_width r) /\ notNegative (raw_height r)
        /\ (forall x : Q,
              raw_width r = Fin x -> Qfloor x < 2 ^ 31 ->
              width sz = Qfloor x /\ 0 <= width sz)
        /\ (forall x : Q,
              raw_height r = Fin x -> Qfloor x < 2 ^ 31 ->
              height sz = Qfloor x /\ 0 <= height sz)).
Proof.
  assert (Hfloor : forall size : ScreenshotSizeArg,
            GetScreenshotSize engine camera size
            = {| height := floor32 (raw_height (resolveSize engine camera size));
                 width := floor32 (raw_width (resolveSize engine camera size));
                 finalWidth := floor32 (raw_finalWidth (resolveSize engine camera size));
                 finalHeight :=
                   floor32 (raw_finalHeight (resolveSize engine camera size)) |}).
  { intros size. unfold GetScreenshotSize. now rewrite !ToInt32_floorIfSet. }
  assert (Hpos : forall x : Q, (0 <= x)%Q -> Qfloor x < 2 ^ 31 ->
            floor32 (Fin x) = Qfloor x /\ 0 <= floor32 (Fin x)).
  { intros x Hx Hlt.
    assert (H0 : 0 <= Qfloor x).
    { change 0 with (Qfloor 0). now apply Qfloor_resp_le. }
    cbn [floor32]. rewrite wrap32_small by lia. split; [reflexivity | exact H0]. }
  split; [exact Hfloor |]. split; [| split].
  - intros q Hq. simpl. now apply wrap32_small.
  - intros size p. unfold GetScreenshotSize.
    now rewrite resolveSize_precision_opp.
  - intros size p w h Hw Hh Hw0 Hh0 Hp r sz.
    destruct (resolveSize_explicit engine camera size p w h Hw Hh Hw0 Hh0 Hp)
      as [Ew Eh].
    fold r in Ew, Eh.
    assert (Nw : notNegative (raw_width r)).
    { rewrite Ew. apply mul_notNegative; [now apply Qlt_le_weak | apply Qabs_nonneg]. }
    assert (Nh : notNegative (raw_height r)).
    { rewrite Eh. apply mul_notNegative; [now apply Qlt_le_weak | apply Qabs_nonneg]. }
    split; [exact Ew |]. split; [exact Eh |].
    split; [exact Nw |]. split; [exact Nh |].
    subst sz. rewrite Hfloor. fold r. cbn [width height]. split.
    + intros x Hx Hlt. rewrite Hx in Nw |- *. now apply Hpos.
    + intros x Hx Hlt. rewrite Hx in Nh |- *. now apply Hpos.
Qed.

(** ** Properties of the capture *)

Lemma count_app (f : Call -> bool) (l1 l2 : list Call) :
  count f (l1 ++ l2) = (count f l1 + count f l2)%nat.
Proof. unfold count. now rewrite List.filter_app, length_app. Qed.

Lemma count_nil (f : Call -> bool) : count f [] = 0%nat.
Proof. reflexivity. Qed.

Lemma run_app (c : Capture) (s : Running) (evs evs' : list Event) :
  run c s (evs ++ evs') = run c (run c s evs) evs'.
Proof. unfold run. apply fold_left_app. Qed.

Lemma run_cons (c : Capture) (s : Running) (ev : Event) (evs : list Event) :
  run c s (ev :: evs) = run c (deliver c s ev) evs.
Proof. reflexivity. Qed.

(** A property kept by every delivery holds along every run. *)
Lemma run_invariant (c : Capture) (P : Running -> Prop) :
  (forall s ev, P s -> P (deliver c s ev)) ->
  forall evs s, P s -> P (run c s evs).
Proof.
  intros Hstep evs. induction evs as [| ev evs IH]; intros s Hs.
  - exact Hs.
  - rewrite run_cons. apply IH, Hstep, Hs.
Qed.

Lemma notifyResize_count (f : Call -> bool) (e : AbstractEngine) :
  f NotifyResizeObservers = false -> count f (notifyResize e) = 0%nat.
Proof.
  intros Hf. unfold notifyResize.
  destruct (0 <? onResizeObservers e)%nat; [| reflexivity].
  unfold count. simpl. now rewrite Hf.
Qed.

(** *** onSuccess: one render pass, and the scene setup is put back *)

Lemma onSuccess_calls (c : Capture) (w : World) :
  exists e : AbstractEngine,
    snd (fst (onSuccess c w))
      = [AddOnceEndFrame; SceneRender] ++ notifyResize e
          ++ [GetProjectionMatrix (cap_camera c) true].
Proof.
  unfold onSuccess.
  destruct (swapSceneSetup c w) as [o w1].
  destruct (scene_render w1) as [w2 returned].
  unfold restoreSceneSetup. cbn [fst snd]. eexists. reflexivity.
Qed.

Lemma onSuccess_restores (c : Capture) (w : World) :
  let w' := fst (fst (onSuccess c w)) in
  sameSceneSetup (cap_camera c) w w' /\ engineRestored c w'.
Proof.
  unfold onSuccess, swapSceneSetup.
  match goal with |- context [scene_render ?x] => destruct (scene_render x) as [w2 returned] end.
  unfold restoreSceneSetup, sameSceneSetup, engineRestored.
  cbn. rewrite lookup_partial_alter_eq. repeat split; reflexivity.
Qed.

Lemma onError_keeps_scene (c : Capture) (w : World) :
  sameSceneSetup (cap_camera c) w (onError c w).
Proof. unfold sameSceneSetup, onError. cbn. repeat split; reflexivity. Qed.

Lemma onError_restores (c : Capture) (w : World) : engineRestored c (onError c w).
Proof. unfold engineRestored, onError. cbn. repeat split; reflexivity. Qed.

(** After the [finally] block, [onError] changes nothing. *)
Lemma onError_after_restore (c : Capture) (w : World) :
  engineRestored c w -> onError c w = w.
Proof.
  intros (Hw & Hh & Hs). unfold onError, with_engine. cbn.
  destruct w as [e sc out]. cbn in *. f_equal.
  destruct e. cbn in *. subst. reflexivity.
Qed.

Lemma sameSceneSetup_refl (camera : CameraId) (w : World) : sameSceneSetup camera w w.
Proof. unfold sameSceneSetup. repeat split; reflexivity. Qed.

Lemma sameSceneSetup_trans (camera : CameraId) (w1 w2 w3 : World) :
  sameSceneSetup camera w1 w2 -> sameSceneSetup camera w2 w3 ->
  sameSceneSetup camera w1 w3.
Proof.
  unfold sameSceneSetup. intros (A1 & A2 & A3 & A4 & A5) (B1 & B2 & B3 & B4 & B5).
  repeat split; congruence.
Qed.
(** *** One callback offered one event *)

(** Case analysis on a callback and the event it is offered. *)
Ltac step_cases p ev :=
  destruct p;
  destruct ev as [[|] | | ? [| |] | | ? [?|] | ? [|] | ? [?|] | ? [?|]];
  cbn [step retryWithInterval_tick renderToTexture renderWhenReady negb].

Ltac split_onEndFrame :=
  unfold onEndFrame;
  match goal with
  | |- context [if ?b then _ else _] => destruct b eqn:?
  end.

Ltac split_onSuccess c w :=
  let w' := fresh "w'" in
  let calls := fresh "calls" in
  let returned := fresh "returned" in
  let E := fresh "E" in
  pose proof (onSuccess_calls c w) as [? ?];
  pose proof (onSuccess_restores c w) as [? ?];
  destruct (onSuccess c w) as [[w' calls] returned] eqn:E;
  cbn [fst snd] in *; subst calls.

Lemma in_trace_app (x : Call) (f : Call -> bool) (tr calls : list Call) :
  f x = true -> count f calls = 0%nat -> In x (tr ++ calls) -> In x tr.
Proof.
  intros Hx Hc Hin. apply in_app_iff in Hin. destruct Hin as [Hin | Hin]; [exact Hin |].
  exfalso. unfold count in Hc.
  assert (Hf : In x (List.filter f calls)) by (apply List.filter_In; split; assumption).
  destruct (List.filter f calls); [destruct Hf | discriminate Hc].
Qed.

Lemma dumpAndDispose_count (f : Call -> bool) (c : Capture) (width height : Z)
    (data : ArrayBufferView) (dispose : Call) :
  (forall w h d m n i q, f (DumpData w h d m n i q) = false) ->
  f dispose = false ->
  count f (dumpAndDispose c width height data dispose) = 0%nat.
Proof.
  intros Hdump Hdisp. unfold dumpAndDispose, count. cbn [List.filter].
  rewrite Hdump. destruct (dumpDataFunc width height data); cbn [List.filter].
  - now rewrite Hdisp.
  - reflexivity.
Qed.

Lemma dumpAndDispose_disposals (c : Capture) (width height : Z)
    (data : ArrayBufferView) (texture : TextureId) :
  count isDisposeRenderTarget
    (dumpAndDispose c width height data (DisposeRenderTarget texture))
  = if dumpDataFunc width height data then 1%nat else 0%nat.
Proof.
  unfold dumpAndDispose, count. cbn [List.filter isDisposeRenderTarget].
  destruct (dumpDataFunc width height data); reflexivity.
Qed.

Ltac count_calls :=
  rewrite ?count_app;
  rewrite ?notifyResize_count by reflexivity;
  unfold dumpAndDispose;
  cbn [count List.filter length app isSceneRender isRetryWithInterval
       isNewRenderTargetTexture isDisposeRenderTarget isDumpData isReadPixels
       isResizeCall isDisposeInternalTexture].

(** The scene setup and, once a render pass has run, the engine. *)
Lemma step_restoredOnceRendered (c : Capture) (w0 : World) (p : Pending) (ev : Event)
    (w : World) (tr : list Call) :
  sameSceneSetup (cap_camera c) w0 w ->
  (In SceneRender tr -> engineRestored c w) ->
  let '(w', calls, _) := step c p ev w in
  sameSceneSetup (cap_camera c) w0 w'
  /\ (In SceneRender (tr ++ calls) -> engineRestored c w').
Proof.
  intros Hsc Hen. step_cases p ev.
  all: try split_onEndFrame.
  all: try (split;
            [ exact Hsc
            | intros Hin;
              apply (in_trace_app SceneRender isSceneRender) in Hin;
              [ exact (Hen Hin) | reflexivity
              | first [ reflexivity | now apply dumpAndDispose_count ] ] ]).
  - split_onSuccess c w. split.
    + apply (sameSceneSetup_trans _ _ w _ Hsc).
      destruct returned; [assumption |].
      eapply sameSceneSetup_trans; [eassumption | apply onError_keeps_scene].
    + intros _. destruct returned; [assumption | apply onError_restores].
  - split.
    + eapply sameSceneSetup_trans; [exact Hsc | apply onError_keeps_scene].
    + intros _. apply onError_restores.
Qed.

(** A callback that is before its render pass was so before it ran, and
    has left the engine as it was. *)
Lemma step_before (c : Capture) (p : Pending) (ev : Event) (w : World) :
  let '(w', _, p') := step c p ev w in
  beforeRender p' = true -> beforeRender p = true /\ engine w' = engine w.
Proof.
  step_cases p ev.
  all: try split_onEndFrame.
  all: try split_onSuccess c w.
  all: cbn [beforeRender]; intros Hb;
    first [discriminate Hb | split; reflexivity].
Qed.

(** What one callback adds to the counts. *)
Lemma step_counts (c : Capture) (p : Pending) (ev : Event) (w : World) :
  let '(_, calls, p') := step c p ev w in
  count isNewRenderTargetTexture calls = 0%nat
  /\ (count isRetryWithInterval calls + started p = started p')%nat
  /\ (count isSceneRender calls + polling p' + started p
      <= polling p + started p')%nat
  /\ (reading p' + count isDisposeRenderTarget calls
      <= reading p + count isSceneRender calls)%nat
  /\ (reading p' + count isDumpData calls
      <= reading p + count isSceneRender calls)%nat.
Proof.
  step_cases p ev.
  all: try split_onEndFrame.
  all: try split_onSuccess c w.
  all: cbn [started polling reading]; count_calls.
  all: try match goal with
       | |- context [if ?b then _ else _] => destruct b
       end.
  all: cbn [count List.filter length app isSceneRender isRetryWithInterval
            isNewRenderTargetTexture isDisposeRenderTarget isDumpData];
    lia.
Qed.

(** The paths of the end-of-frame observer. *)
Lemma callsOnPath_app (c : Capture) (tr calls : list Call) :
  callsOnPath c tr -> callsOnPath c calls -> callsOnPath c (tr ++ calls).
Proof.
  unfold callsOnPath. destruct (sameFinalSize c); intros [A B] [C D];
    rewrite !count_app; lia.
Qed.

Lemma step_onPath (c : Capture) (p : Pending) (ev : Event) (w : World) :
  onPath c p ->
  let '(_, calls, p') := step c p ev w in
  onPath c p' /\ callsOnPath c calls.
Proof.
  unfold onPath, callsOnPath.
  destruct (sameFinalSize c) eqn:Hsame; intros Hp.
  - step_cases p ev; try contradiction.
    all: try (unfold onEndFrame;
              change ((finalWidth (cap_size c) =? width (cap_size c))
                && (finalHeight (cap_size c) =? height (cap_size c)))%bool
                with (sameFinalSize c); rewrite Hsame).
    all: try split_onSuccess c w.
    all: count_calls.
    all: try match goal with
         | |- context [if ?b then _ else _] => destruct b
         end.
    all: cbn [count List.filter length app isResizeCall isDisposeInternalTexture];
      repeat split; first [lia | exact I].
  - step_cases p ev; try (now contradiction Hp).
    all: try (unfold onEndFrame;
              change ((finalWidth (cap_size c) =? width (cap_size c))
                && (finalHeight (cap_size c) =? height (cap_size c)))%bool
                with (sameFinalSize c); rewrite Hsame).
    all: try split_onSuccess c w.
    all: count_calls.
    all: try match goal with
         | |- context [if ?b then _ else _] => destruct b
         end.
    all: cbn [count List.filter length app isReadPixels isDisposeRenderTarget];
      repeat split; first [lia | discriminate].
Qed.

(** The function held by [e.onCompiled] stays, and only the observer of
    the creation of the effect assigns it or starts a polling. *)
Lemma step_handler (c : Capture) (p : Pending) (ev : Event) (w : World) :
  let '(_, calls, p') := step c p ev w in
  (isAwaitCompiled p = true -> isAwaitCompiled p' = true)
  /\ (p <> AwaitEffectCreated ->
      p' <> AwaitEffectCreated /\ started p' = started p
      /\ isAwaitCompiled p' = isAwaitCompiled p).
Proof.
  step_cases p ev.
  all: try split_onEndFrame.
  all: try split_onSuccess c w.
  all: cbn [isAwaitCompiled started]; split;
    [ intros H; first [exact H | discriminate H | reflexivity]
    | intros H; first [now contradiction H | repeat split; discriminate] ].
Qed.

(** *** The callbacks registered *)

Lemma total_insert (f : Pending -> nat) (ps : list Pending) (k : nat) (p p' : Pending) :
  ps !! k = Some p ->
  (total f (<[k := p']> ps) + f p = total f ps + f p')%nat.
Proof.
  unfold total. revert k. induction ps as [| x ps IH]; intros [| k] Hk;
    try discriminate Hk; simpl in *.
  - injection Hk as ->. lia.
  - specialize (IH k Hk). lia.
Qed.

Lemma total_app (f : Pending -> nat) (ps qs : list Pending) :
  total f (ps ++ qs) = (total f ps + total f qs)%nat.
Proof. unfold total. now rewrite map_app, list_sum_app. Qed.

Lemma forallb_insert (f : Pending -> bool) (ps : list Pending) (k : nat)
    (p p' : Pending) :
  ps !! k = Some p ->
  forallb f (<[k := p']> ps) = true ->
  f p' = true /\ (f p = true -> forallb f ps = true).
Proof.
  revert k. induction ps as [| x ps IH]; intros [| k] Hk H;
    try discriminate Hk; simpl in *.
  - injection Hk as ->. apply andb_true_iff in H. destruct H as [H1 H2].
    split; [exact H1 |]. intros ->. exact H2.
  - apply andb_true_iff in H. destruct H as [H1 H2].
    destruct (IH k Hk H2) as [A B]. split; [exact A |].
    intros Hp. rewrite H1. exact (B Hp).
Qed.

Lemma existsb_insert (f : Pending -> bool) (ps : list Pending) (k : nat)
    (p p' : Pending) :
  ps !! k = Some p ->
  (f p = true -> f p' = true) ->
  existsb f ps = true -> existsb f (<[k := p']> ps) = true.
Proof.
  revert k. induction ps as [| x ps IH]; intros [| k] Hk Hf H;
    try discriminate Hk; simpl in *.
  - injection Hk as ->. apply orb_true_iff in H. apply orb_true_iff.
    destruct H as [H | H]; [left; exact (Hf H) | right; exact H].
  - apply orb_true_iff in H. apply orb_true_iff.
    destruct H as [H | H]; [left; exact H | right; exact (IH k Hk Hf H)].
Qed.

Lemma existsb_insert_same (f : Pending -> bool) (ps : list Pending) (k : nat)
    (p p' : Pending) :
  ps !! k = Some p -> f p' = f p ->
  existsb f (<[k := p']> ps) = existsb f ps.
Proof.
  revert k. induction ps as [| x ps IH]; intros [| k] Hk Hf;
    try discriminate Hk; simpl in *.
  - injection Hk as ->. now rewrite Hf.
  - now rewrite (IH k Hk Hf).
Qed.

Lemma lookup_map (f : Pending -> Pending) (ps : list Pending) (k : nat) (p : Pending) :
  ps !! k = Some p -> map f ps !! k = Some (f p).
Proof.
  revert k. induction ps as [| x ps IH]; intros [| k] Hk;
    try discriminate Hk; simpl in *.
  - now injection Hk as ->.
  - exact (IH k Hk).
Qed.

(** The callback at a position that is called back. *)
Lemma callBack_at (c : Capture) (ev : Event) (k : nat) (s : Running) (p : Pending) :
  pending s !! k = Some p ->
  callBack c ev k s
  = let '(w, calls, p') := step c p ev (world s) in
    {| world := w; pending := <[k := p']> (pending s); trace := trace s ++ calls |}.
Proof. intros Hk. unfold callBack. now rewrite Hk. Qed.

(** A notification calls back the callbacks one after the other. *)
Lemma notifyAll_callBack (c : Capture) (ev : Event) (ps : list Pending) :
  forall (pre : list Pending) (w : World) (tr : list Call),
    fold_left (fun s k => callBack c ev k s) (seq (length pre) (length ps))
      {| world := w; pending := pre ++ ps; trace := tr |}
    = let '(w', calls, ps') := notifyAll c ev ps w in
      {| world := w'; pending := pre ++ ps'; trace := tr ++ calls |}.
Proof.
  induction ps as [| p ps IH]; intros pre w tr.
  - cbn. now rewrite !app_nil_r.
  - cbn [length seq fold_left notifyAll].
    rewrite (callBack_at c ev (length pre) _ p)
      by (cbn [pending]; now apply list_lookup_middle).
    cbn [world pending trace].
    destruct (step c p ev w) as [[w1 calls1] p1].
    rewrite insert_app_r_alt by lia. rewrite Nat.sub_diag. cbn [insert list_insert].
    specialize (IH (pre ++ [p1]) w1 (tr ++ calls1)).
    rewrite length_app in IH. cbn [length] in IH.
    rewrite Nat.add_1_r, <- app_assoc in IH. cbn [app] in IH.
    rewrite IH. destruct (notifyAll c ev ps w1) as [[w2 calls2] ps2].
    now rewrite <- !app_assoc.
Qed.

Lemma notify_callBack (c : Capture) (ev : Event) (s : Running) :
  notify c ev s
  = fold_left (fun s k => callBack c ev k s) (seq 0 (length (pending s))) s.
Proof.
  pose proof (notifyAll_callBack c ev (pending s) [] (world s) (trace s)) as H.
  cbn [length app] in H. unfold notify. destruct s as [w ps tr].
  cbn [world pending trace] in *. rewrite H.
  now destruct (notifyAll c ev ps w) as [[w' calls] ps'].
Qed.

(** What every callback keeps, every event but the completion of a
    compilation keeps. *)
Lemma deliver_callBacks (c : Capture) (P : Running -> Prop) (ev : Event) :
  isEffectCompiled ev = false ->
  (forall s k, P s -> P (callBack c ev k s)) ->
  forall s, P s -> P (deliver c s ev).
Proof.
  intros Hev Hcb s Hs.
  assert (Hn : P (notify c ev s)).
  { rewrite notify_callBack. generalize (seq 0 (length (pending s))).
    intros ks. revert s Hs. induction ks as [| k ks IH]; intros s Hs; [exact Hs |].
    cbn [fold_left]. apply IH, Hcb, Hs. }
  destruct ev; cbn [deliver]; first [exact Hn | discriminate Hev | apply Hcb, Hs].
Qed.

Lemma deliver_EffectCompiled (c : Capture) (s : Running) :
  deliver c s EffectCompiled
  = if handlerAssigned (pending s) then onCompiled s else s.
Proof. reflexivity. Qed.

(** What every callback and the function held by [e.onCompiled] keep,
    every event keeps. *)
Lemma deliver_invariant (c : Capture) (P : Running -> Prop) :
  (forall s ev k, P s -> P (callBack c ev k s)) ->
  (forall s, P s -> handlerAssigned (pending s) = true -> P (onCompiled s)) ->
  forall s ev, P s -> P (deliver c s ev).
Proof.
  intros Hcb Hon s ev Hs. destruct (isEffectCompiled ev) eqn:Hev.
  - destruct ev; try discriminate Hev. rewrite deliver_EffectCompiled.
    destruct (handlerAssigned (pending s)) eqn:Hh; [now apply Hon | exact Hs].
  - apply deliver_callBacks; [exact Hev | intros s' k; apply Hcb | exact Hs].
Qed.

Lemma handlerAssigned_snoc (ps : list Pending) (p : Pending) :
  handlerAssigned ps = true -> handlerAssigned (ps ++ [p]) = true.
Proof.
  unfold handlerAssigned. rewrite existsb_app. intros ->. reflexivity.
Qed.

(** *** The scene setup along a run *)

Lemma deliver_restoredOnceRendered (c : Capture) (w0 : World) (s : Running) (ev : Event) :
  restoredOnceRendered c w0 s -> restoredOnceRendered c w0 (deliver c s ev).
Proof.
  revert s ev. apply (deliver_invariant c (restoredOnceRendered c w0)).
  - intros s ev k [Hsc Hen]. unfold callBack.
    destruct (pending s !! k) as [p |]; [| now split].
    pose proof (step_restoredOnceRendered c w0 p ev (world s) (trace s) Hsc Hen) as H.
    destruct (step c p ev (world s)) as [[w' calls] p']. exact H.
  - intros s [Hsc Hen] _. split; [exact Hsc |].
    intros Hin. cbn [onCompiled renderToTexture renderWhenReady trace] in Hin.
    apply (in_trace_app SceneRender isSceneRender) in Hin;
      [exact (Hen Hin) | reflexivity | reflexivity].
Qed.

Lemma run_restoredOnceRendered (c : Capture) (w0 : World) (s : Running)
    (evs : list Event) :
  restoredOnceRendered c w0 s -> restoredOnceRendered c w0 (run c s evs).
Proof.
  apply (run_invariant c (restoredOnceRendered c w0)).
  intros s' ev. apply deliver_restoredOnceRendered.
Qed.

(** *** The function up to its return *)

Lemma Create_refused (w : World) (camera : CameraId) (size : ScreenshotSizeArg)
    (o : CaptureOptions) (texture : TextureId) :
  validSize (GetScreenshotSize (engine w) camera size) = false ->
  CreateScreenshotUsingRenderTarget w camera size o texture
    = (None, {| world := w; pending := [];
                trace := [LoggerError "Invalid 'size' parameter !"] |}).
Proof.
  intros Hv. unfold CreateScreenshotUsingRenderTarget.
  unfold validSize in Hv. now rewrite Hv.
Qed.

Lemma Create_started (w : World) (camera : CameraId) (size : ScreenshotSizeArg)
    (o : CaptureOptions) (texture : TextureId) (c : Capture) (s : Running) :
  CreateScreenshotUsingRenderTarget w camera size o texture = (Some c, s) ->
  let sz := GetScreenshotSize (engine w) camera size in
  validSize sz = true
  /\ cap_size c = sz /\ cap_camera c = camera /\ cap_textureId c = texture
  /\ cap_options c = o
  /\ originalGetRenderWidth c = getRenderWidth (engine w)
  /\ originalGetRenderHeight c = getRenderHeight (engine w)
  /\ overrideInstalled c (engine (world s))
  /\ skipFrameRender (engine (world s)) = true
  /\ sameSceneSetup camera w (world s)
  /\ pending s = [if antialiasing o then AwaitEffectCreated else Retrying]
  /\ trace s
     = notifyResize (engine w)
         ++ [NewRenderTargetTexture texture (width sz) (height sz)
               (enableStencilBuffer o) (samples o)]
         ++ (if antialiasing o
             then [NewFxaaPostProcess (activeCamera (scene w))]
             else [RetryWithInterval]).
Proof.
  intros H sz. unfold CreateScreenshotUsingRenderTarget in H. fold sz in H.
  change (negb (negb (height sz =? 0) && negb (width sz =? 0)))
    with (negb (validSize sz)) in H.
  destruct (validSize sz) eqn:Hv; cbn [negb] in H; [| discriminate H].
  destruct (antialiasing o) eqn:Haa; cbn [renderToTexture renderWhenReady] in H;
    injection H as Hc Hs; subst c s;
    unfold overrideInstalled, sameSceneSetup, notifyResize;
    cbn; rewrite <- ?app_assoc; repeat split; reflexivity.
Qed.

(** *** Counting along a run *)

Lemma deliver_counted (c : Capture) (s : Running) (ev : Event) :
  counted s -> counted (deliver c s ev).
Proof.
  revert s ev. apply (deliver_invariant c counted).
  - intros s ev k Hc. unfold callBack.
    destruct (pending s !! k) as [p |] eqn:Hk; [| exact Hc].
    destruct Hc as (H1 & H2 & H3 & H4 & H5 & H6).
    pose proof (step_counts c p ev (world s)) as Hs.
    pose proof (step_handler c p ev (world s)) as Hh.
    destruct (step c p ev (world s)) as [[w' calls] p'].
    destruct Hs as (S1 & S2 & S3 & S4 & S5). destruct Hh as [Hh _].
    unfold counted. cbn [pending trace]. rewrite !count_app.
    pose proof (total_insert started _ _ _ p' Hk).
    pose proof (total_insert polling _ _ _ p' Hk).
    pose proof (total_insert reading _ _ _ p' Hk).
    repeat split; try lia.
    intros Hf. rewrite length_insert. apply H6.
    destruct (handlerAssigned (pending s)) eqn:E; [| reflexivity].
    unfold handlerAssigned in *.
    now rewrite (existsb_insert isAwaitCompiled _ _ _ p' Hk Hh E) in Hf.
  - intros s (H1 & H2 & H3 & H4 & H5 & H6) Hh.
    unfold counted. cbn [onCompiled renderToTexture renderWhenReady pending trace].
    rewrite !count_app, !total_app. cbn.
    repeat split; try lia.
    intros Hf. now rewrite (handlerAssigned_snoc _ Retrying Hh) in Hf.
Qed.

Lemma run_counted (c : Capture) (s : Running) (evs : list Event) :
  counted s -> counted (run c s evs).
Proof. apply (run_invariant c counted). intros s' ev. apply deliver_counted. Qed.

(** The trace only grows. *)
Lemma deliver_trace (c : Capture) (s : Running) (ev : Event) :
  exists calls, trace (deliver c s ev) = trace s ++ calls.
Proof.
  apply (deliver_invariant c (fun s' => exists calls, trace s' = trace s ++ calls)).
  - intros s' ev' k [calls H]. unfold callBack.
    destruct (pending s' !! k) as [p |]; [| now exists calls].
    destruct (step c p ev' (world s')) as [[w' calls'] p']. cbn [trace].
    exists (calls ++ calls'). now rewrite H, <- app_assoc.
  - intros s' [calls H] _.
    cbn [onCompiled renderToTexture renderWhenReady trace].
    exists (calls ++ [RetryWithInterval]). now rewrite H, <- app_assoc.
  - exists []. now rewrite app_nil_r.
Qed.

Lemma run_trace (c : Capture) (evs : list Event) (s : Running) :
  exists calls, trace (run c s evs) = trace s ++ calls.
Proof.
  revert s. induction evs as [| ev evs IH]; intros s.
  - exists []. now rewrite app_nil_r.
  - rewrite run_cons. destruct (IH (deliver c s ev)) as [l2 H2].
    destruct (deliver_trace c s ev) as [l1 H1].
    exists (l1 ++ l2). now rewrite H2, H1, <- app_assoc.
Qed.

Lemma run_count_le (c : Capture) (f : Call -> bool) (evs : list Event) (s : Running) :
  (count f (trace s) <= count f (trace (run c s evs)))%nat.
Proof.
  destruct (run_trace c evs s) as [calls H]. rewrite H, count_app. lia.
Qed.

(** When the one callback has run and has left nothing registered, no
    event changes anything. *)
Lemma run_Idle (c : Capture) (evs : list Event) (s : Running) :
  pending s = [Idle] -> run c s evs = s.
Proof.
  induction evs as [| ev evs IH]; intros Hs; [reflexivity |].
  rewrite run_cons.
  assert (Hd : deliver c s ev = s).
  { destruct s as [w p tr]. cbn in Hs. subst p.
    destruct ev as [? | | [| k] ? | | [| k] ? | [| k] ? | [| k] ? | [| k] ?];
      cbn; rewrite ?app_nil_r; reflexivity. }
  rewrite Hd. now apply IH.
Qed.

(** The state at the return of the function satisfies the counts. *)
Lemma Create_counted (w : World) (camera : CameraId) (size : ScreenshotSizeArg)
    (o : CaptureOptions) (texture : TextureId) (c : Capture) (s : Running) :
  CreateScreenshotUsingRenderTarget w camera size o texture = (Some c, s) ->
  counted s.
Proof.
  intros H. apply Create_started in H.
  destruct H as (_ & _ & _ & _ & _ & _ & _ & _ & _ & _ & Hp & Htr).
  unfold counted. rewrite Hp, Htr.
  unfold total.
  destruct (antialiasing o); count_calls; simpl; repeat split; intros; lia.
Qed.

(** With one callback for which a polling was started, [e.onCompiled] is
    not assigned, and this stays so. *)
Lemma singleChain_handler (s : Running) :
  singleChain s -> handlerAssigned (pending s) = false.
Proof. intros (p & -> & Hp). destruct p; try discriminate Hp; reflexivity. Qed.

Lemma deliver_singleChain (c : Capture) (s : Running) (ev : Event) :
  singleChain s -> singleChain (deliver c s ev).
Proof.
  revert s ev. apply (deliver_invariant c singleChain).
  - intros s ev k (p & Hps & Hp). unfold callBack. rewrite Hps.
    destruct k as [| k]; [| now exists p].
    cbn [lookup list_lookup].
    pose proof (step_counts c p ev (world s)) as Hs.
    destruct (step c p ev (world s)) as [[w' calls] p'].
    destruct Hs as (_ & S2 & _).
    assert (started p' <= 1)%nat by (destruct p'; cbn; lia).
    exists p'. cbn [pending]. split; [reflexivity | lia].
  - intros s Hs Hh. now rewrite (singleChain_handler s Hs) in Hh.
Qed.

Lemma run_singleChain (c : Capture) (s : Running) (evs : list Event) :
  singleChain s -> singleChain (run c s evs).
Proof. apply (run_invariant c singleChain). intros s' ev. apply deliver_singleChain. Qed.

(** As long as [e.onCompiled] is not assigned there is one callback. *)
Lemma counted_single (s : Running) (k : nat) (p : Pending) :
  counted s -> handlerAssigned (pending s) = false -> pending s !! k = Some p ->
  pending s = [p] /\ k = 0%nat.
Proof.
  intros (_ & _ & _ & _ & _ & H6) Hh Hk. specialize (H6 Hh).
  destruct (pending s) as [| x [| y ps]]; try discriminate H6.
  destruct k as [| k]; [| discriminate Hk]. cbn in Hk. injection Hk as ->.
  now split.
Qed.

Lemma counted_le (s : Running) :
  counted s -> handlerAssigned (pending s) = false ->
  (count isRetryWithInterval (trace s) <= 1)%nat
  /\ (count isSceneRender (trace s) <= 1)%nat
  /\ (count isDisposeRenderTarget (trace s) <= 1)%nat
  /\ (count isDumpData (trace s) <= 1)%nat.
Proof.
  intros (_ & H2 & H3 & H4 & H5 & H6) Hh. specialize (H6 Hh).
  destruct (pending s) as [| x [| y ps]]; try discriminate H6.
  unfold total in *. simpl in H2, H3, H4, H5.
  assert (started x <= 1)%nat by (destruct x; cbn; lia).
  lia.
Qed.

Lemma counted_order (s : Running) :
  counted s ->
  (count isSceneRender (trace s) <= count isRetryWithInterval (trace s))%nat
  /\ (count isDisposeRenderTarget (trace s) <= count isSceneRender (trace s))%nat
  /\ (count isDumpData (trace s) <= count isSceneRender (trace s))%nat.
Proof. intros (_ & H2 & H3 & H4 & H5 & _). lia. Qed.

(** *** The accessors before the render pass *)

(** What holds of the engine as long as every callback is before its
    render pass. *)
Lemma deliver_whileBefore (c : Capture) (Q : AbstractEngine -> Prop) (s : Running)
    (ev : Event) :
  (forallb beforeRender (pending s) = true -> Q (engine (world s))) ->
  forallb beforeRender (pending (deliver c s ev)) = true ->
  Q (engine (world (deliver c s ev))).
Proof.
  revert s ev.
  apply (deliver_invariant c
           (fun s => forallb beforeRender (pending s) = true -> Q (engine (world s)))).
  - intros s ev k H. unfold callBack.
    destruct (pending s !! k) as [p |] eqn:Hk; [| exact H].
    pose proof (step_before c p ev (world s)) as Hs.
    destruct (step c p ev (world s)) as [[w' calls] p']. cbn [world pending].
    intros Hb. apply (forallb_insert _ _ _ _ _ Hk) in Hb. destruct Hb as [A B].
    destruct (Hs A) as [Hp He]. rewrite He. apply H, B, Hp.
  - intros s H _. cbn [onCompiled renderToTexture renderWhenReady world pending].
    intros Hb. rewrite forallb_app in Hb. apply andb_true_iff in Hb.
    destruct Hb as [Hb _]. exact (H Hb).
Qed.

Lemma run_whileBefore (c : Capture) (Q : AbstractEngine -> Prop) (s : Running)
    (evs : list Event) :
  Q (engine (world s)) ->
  forallb beforeRender (pending (run c s evs)) = true ->
  Q (engine (world (run c s evs))).
Proof.
  intros H.
  apply (run_invariant c
           (fun s => forallb beforeRender (pending s) = true -> Q (engine (world s)))).
  - intros s' ev. apply deliver_whileBefore.
  - intros _. exact H.
Qed.

(** C4: from the return of the function until a render pass or an error of
    the readiness check, and in the world handed to the render pass, the
    engine holds the accessors of the capture; called by anyone, they return
    the width and the height of the capture, except that with a render
    target bound on the engine and [useScreen] not set they return the width
    and the height of that target. *)
Theorem capture_render_size_override (w : World) (camera : CameraId)
    (size : ScreenshotSizeArg) (o : CaptureOptions) (texture : TextureId)
    (c : Capture) (s : Running) :
  CreateScreenshotUsingRenderTarget w camera size o texture = (Some c, s) ->
  cap_size c = GetScreenshotSize (engine w) camera size
  /\ (forall evs : list Event,
        forallb beforeRender (pending (run c s evs)) = true ->
        overrideInstalled c (engine (world (run c s evs)))
        /\ overrideInstalled c
             (engine (snd (swapSceneSetup c (world (run c s evs))))))
  /\ (forall (e : AbstractEngine) (useScreen : bool),
        overrideInstalled c e ->
        callRenderSize (getRenderWidth e) e useScreen
          = match _currentRenderTarget e, useScreen with
            | Some rt, false => rt_width rt
            | _, _ => of_Z (width (cap_size c))
            end
        /\ callRenderSize (getRenderHeight e) e useScreen
          = match _currentRenderTarget e, useScreen with
            | Some rt, false => rt_height rt
            | _, _ => of_Z (height (cap_size c))
            end).
Proof.
  intros H. pose proof (Create_started _ _ _ _ _ _ _ H) as Hs.
  cbv zeta in Hs.
  destruct Hs as (_ & Hsz & _ & _ & _ & _ & _ & Hov & _).
  split; [exact Hsz |]. split.
  - intros evs Hb.
    pose proof (run_whileBefore c (overrideInstalled c) s evs Hov Hb) as Hinv.
    split; exact Hinv.
  - intros e useScreen [Hw Hh]. rewrite Hw, Hh. unfold callRenderSize.
    destruct useScreen, (_currentRenderTarget e); split; reflexivity.
Qed.

(** C3, amended: when the size resolves to zero in either dimension, the
    function logs the error "Invalid 'size' parameter !" and returns: no
    capture is started, no callback is registered, the world is the one
    before the call, and no later event changes that. *)
Theorem zero_size_is_refused (w : World) (camera : CameraId)
    (size : ScreenshotSizeArg) (o : CaptureOptions) (texture : TextureId) :
  let sz := GetScreenshotSize (engine w) camera size in
  height sz = 0 \/ width sz = 0 ->
  let r := CreateScreenshotUsingRenderTarget w camera size o texture in
  fst r = None
  /\ forall evs : list Event,
       capture_run r evs
       = {| world := w; pending := [];
            trace := [LoggerError "Invalid 'size' parameter !"] |}.
Proof.
  intros sz Hz r.
  assert (Hv : validSize sz = false).
  { unfold validSize. destruct Hz as [Hz | Hz]; rewrite Hz; cbn.
    - reflexivity.
    - now rewrite andb_false_r. }
  unfold r. rewrite (Create_refused w camera size o texture Hv).
  split; [reflexivity | intros evs; reflexivity].
Qed.

(** C1, amended: once the render pass of a capture has run, whether
    scene.render() returned or threw, the scene's activeCamera and
    activeCameras, the camera's outputRenderTarget, the scene's
    spritesEnabled flag and mesh list and the engine's getRenderWidth and
    getRenderHeight are the ones from before the capture, and the engine's
    skipFrameRender flag is false. *)
Theorem scene_and_accessors_restored (w0 : World) (camera : CameraId)
    (size : ScreenshotSizeArg) (o : CaptureOptions) (texture : TextureId)
    (c : Capture) (s : Running) (evs : list Event) :
  CreateScreenshotUsingRenderTarget w0 camera size o texture = (Some c, s) ->
  In SceneRender (trace (run c s evs)) ->
  let w := world (run c s evs) in
  activeCamera (scene w) = activeCamera (scene w0)
  /\ activeCameras (scene w) = activeCameras (scene w0)
  /\ outputRenderTarget w !! camera = outputRenderTarget w0 !! camera
  /\ spritesEnabled (scene w) = spritesEnabled (scene w0)
  /\ meshes (scene w) = meshes (scene w0)
  /\ getRenderWidth (engine w) = getRenderWidth (engine w0)
  /\ getRenderHeight (engine w) = getRenderHeight (engine w0)
  /\ skipFrameRender (engine w) = false.
Proof.
  intros H Hin w. pose proof (Create_started _ _ _ _ _ _ _ H) as Hs.
  cbv zeta in Hs.
  destruct Hs as (_ & _ & Hcam & _ & _ & Hgw & Hgh & _ & _ & Hsc & _ & Htr).
  assert (Hinv : restoredOnceRendered c w0 (run c s evs)).
  { apply run_restoredOnceRendered. split.
    - now rewrite Hcam.
    - intros Hr. exfalso. rewrite Htr in Hr.
      apply in_app_iff in Hr. destruct Hr as [Hr | Hr].
      + unfold notifyResize in Hr.
        destruct (0 <? onResizeObservers (engine w0))%nat; cbn in Hr;
          intuition discriminate.
      + destruct (antialiasing o); cbn in Hr; intuition discriminate. }
  destruct Hinv as [Hscene Heng]. specialize (Heng Hin).
  rewrite Hcam in Hscene.
  destruct Hscene as (A1 & A2 & A3 & A4 & A5). destruct Heng as (B1 & B2 & B3).
  fold w in A1, A2, A3, A4, A5, B1, B2, B3.
  repeat split; congruence.
Qed.

(** *** Single deliveries *)

(** The callback at position [k] runs: the world it leaves, the calls it
    makes, and what it leaves registered at its position. *)
Lemma callBack_step (c : Capture) (ev : Event) (k : nat) (s : Running) (p p' : Pending)
    (w' : World) (calls : list Call) :
  pending s !! k = Some p ->
  step c p ev (world s) = (w', calls, p') ->
  world (callBack c ev k s) = w'
  /\ trace (callBack c ev k s) = trace s ++ calls
  /\ pending (callBack c ev k s) = <[k := p']> (pending s)
  /\ pending (callBack c ev k s) !! k = Some p'.
Proof.
  intros Hk Hs. rewrite (callBack_at c ev k s p Hk), Hs. cbn [world trace pending].
  repeat split. apply list_lookup_insert_eq. now apply lookup_lt_Some in Hk.
Qed.

Lemma step_ConditionHolds (c : Capture) (k : nat) (w : World) :
  exists (w' : World) (e : AbstractEngine),
    step c Retrying (RetryTick k ConditionHolds) w
    = (w', [AddOnceEndFrame; SceneRender] ++ notifyResize e
             ++ [GetProjectionMatrix (cap_camera c) true], AwaitEndFrame)
    /\ engineRestored c w'.
Proof.
  cbn [step retryWithInterval_tick]. split_onSuccess c w.
  exists (if returned then w' else onError c w'). eexists. split; [reflexivity |].
  destruct returned; [assumption | apply onError_restores].
Qed.

Lemma deliver_ConditionHolds (c : Capture) (k : nat) (s : Running) :
  pending s !! k = Some Retrying ->
  let s' := deliver c s (RetryTick k ConditionHolds) in
  pending s' !! k = Some AwaitEndFrame
  /\ pending s' = <[k := AwaitEndFrame]> (pending s)
  /\ engineRestored c (world s')
  /\ count isSceneRender (trace s') = S (count isSceneRender (trace s))
  /\ count isDumpData (trace s') = count isDumpData (trace s).
Proof.
  intros Hk s'. subst s'. cbn [deliver].
  destruct (step_ConditionHolds c k (world s)) as (w' & e & Hs & Hr).
  destruct (callBack_step c _ k s _ _ _ _ Hk Hs) as (A & B & C & D).
  split; [exact D |]. split; [exact C |]. split; [rewrite A; exact Hr |].
  rewrite B. split; count_calls; lia.
Qed.

Lemma deliver_ConditionThrows (c : Capture) (k : nat) (s : Running) :
  pending s !! k = Some Retrying ->
  deliver c s (RetryTick k ConditionThrows)
  = {| world := onError c (world s); pending := <[k := Idle]> (pending s);
       trace := trace s |}.
Proof.
  intros Hk. cbn [deliver]. rewrite (callBack_at c _ k s _ Hk).
  cbn [step retryWithInterval_tick]. now rewrite app_nil_r.
Qed.

Lemma deliver_ReadPixels_fulfilled (c : Capture) (k : nat) (s : Running)
    (data : ArrayBufferView) :
  pending s !! k = Some AwaitReadPixels ->
  deliver c s (ReadPixelsSettled k (Some data))
  = {| world := world s; pending := <[k := Idle]> (pending s);
       trace := trace s
                  ++ dumpAndDispose c (width (cap_size c)) (height (cap_size c)) data
                       (DisposeRenderTarget (cap_textureId c)) |}.
Proof.
  intros Hk. cbn [deliver]. now rewrite (callBack_at c _ k s _ Hk).
Qed.

Lemma deliver_ReadPixels_rejected (c : Capture) (k : nat) (s : Running) :
  pending s !! k = Some AwaitReadPixels ->
  deliver c s (ReadPixelsSettled k None)
  = {| world := world s; pending := <[k := Idle]> (pending s); trace := trace s |}.
Proof.
  intros Hk. cbn [deliver]. rewrite (callBack_at c _ k s _ Hk).
  cbn [step]. now rewrite app_nil_r.
Qed.

(** At the end of a frame every observer of the capture runs. *)
Lemma notifyAll_EndFrame (c : Capture) (ps : list Pending) (w : World) :
  notifyAll c EndFrame ps w
  = (w, repeat (endFrameCall c w) (endFrameObservers ps), map (afterEndFrame c) ps).
Proof.
  unfold endFrameObservers, endFrameCall, afterEndFrame.
  induction ps as [| p ps IH]; [reflexivity |].
  cbn [notifyAll]. destruct p; cbn [step isAwaitEndFrame List.filter map length repeat];
    try (rewrite IH; reflexivity).
  unfold onEndFrame.
  change ((finalWidth (cap_size c) =? width (cap_size c))
          && (finalHeight (cap_size c) =? height (cap_size c)))%bool
    with (sameFinalSize c).
  destruct (sameFinalSize c); rewrite IH; reflexivity.
Qed.

Lemma deliver_EndFrame (c : Capture) (s : Running) :
  deliver c s EndFrame
  = {| world := world s; pending := map (afterEndFrame c) (pending s);
       trace := trace s
                  ++ repeat (endFrameCall c (world s)) (endFrameObservers (pending s)) |}.
Proof. cbn [deliver]. unfold notify. now rewrite notifyAll_EndFrame. Qed.

Lemma sameFinalSize_true (c : Capture) :
  finalWidth (cap_size c) = width (cap_size c)
  /\ finalHeight (cap_size c) = height (cap_size c) ->
  sameFinalSize c = true.
Proof. intros [Hw Hh]. unfold sameFinalSize. now rewrite Hw, Hh, !Z.eqb_refl. Qed.

Lemma sameFinalSize_false (c : Capture) :
  ~ (finalWidth (cap_size c) = width (cap_size c)
     /\ finalHeight (cap_size c) = height (cap_size c)) ->
  sameFinalSize c = false.
Proof.
  intros Hne. destruct (sameFinalSize c) eqn:E; [| reflexivity]. exfalso. apply Hne.
  unfold sameFinalSize in E. apply andb_true_iff in E. destruct E as [E1 E2].
  split; now apply Z.eqb_eq.
Qed.

(** An observer of the end of the frame is registered by a render pass. *)
Lemma count_pos_In (tr : list Call) :
  (0 < count isSceneRender tr)%nat -> In SceneRender tr.
Proof.
  unfold count. induction tr as [| x tr IH]; cbn [List.filter length]; [lia |].
  destruct x; cbn [isSceneRender length]; intros H;
    solve [now left | right; apply IH; exact H].
Qed.

Lemma total_lookup (f : Pending -> nat) (ps : list Pending) (k : nat) (p : Pending) :
  ps !! k = Some p -> (f p <= total f ps)%nat.
Proof.
  unfold total. revert k. induction ps as [| x ps IH]; intros [| k] Hk;
    try discriminate Hk; simpl in *.
  - injection Hk as ->. lia.
  - specialize (IH k Hk). lia.
Qed.

Lemma counted_rendered (s : Running) (k : nat) (p : Pending) :
  counted s -> pending s !! k = Some p -> reading p = 1%nat ->
  In SceneRender (trace s).
Proof.
  intros (_ & _ & _ & H4 & _) Hk Hp. apply count_pos_In.
  pose proof (total_lookup reading _ _ _ Hk). lia.
Qed.

Lemma endFrameObservers_lookup (ps : list Pending) (k : nat) :
  ps !! k = Some AwaitEndFrame -> (1 <= endFrameObservers ps)%nat.
Proof.
  unfold endFrameObservers. revert k. induction ps as [| x ps IH]; intros [| k] Hk;
    try discriminate Hk; simpl in *.
  - injection Hk as ->. cbn. lia.
  - specialize (IH k Hk). destruct (isAwaitEndFrame x); cbn [length]; lia.
Qed.

(** *** Render passes and disposals *)

(** C2, amended: a capture allocates exactly one render target texture, of
    the width and height of the capture.  Every render pass belongs to a
    polling started by _RetryWithInterval, and a polling runs one render
    pass when its readiness condition holds.  Where the pixels are read
    from the texture itself, the texture is disposed when the read has
    resolved and the encoder has returned, no more often than a render pass
    has run; it is not disposed when the read is rejected or the encoder
    throws.  As long as [e.onCompiled] has not been assigned, which without
    antialiasing is never, there is one polling: at most one render pass
    executes, exactly one has executed from the moment the readiness
    condition has held, and the texture is disposed at most once. *)
Theorem one_texture_one_render (w : World) (camera : CameraId)
    (size : ScreenshotSizeArg) (o : CaptureOptions) (texture : TextureId)
    (c : Capture) (s : Running) :
  CreateScreenshotUsingRenderTarget w camera size o texture = (Some c, s) ->
  let sz := cap_size c in
  (forall evs : list Event,
     let s1 := run c s evs in
     count isNewRenderTargetTexture (trace s1) = 1%nat
     /\ In (NewRenderTargetTexture texture (width sz) (height sz)
              (enableStencilBuffer o) (samples o)) (trace s1)
     /\ (count isSceneRender (trace s1) <= count isRetryWithInterval (trace s1))%nat
     /\ (count isDisposeRenderTarget (trace s1) <= count isSceneRender (trace s1))%nat
     /\ (handlerAssigned (pending s1) = false ->
         (count isRetryWithInterval (trace s1) <= 1)%nat
         /\ (count isSceneRender (trace s1) <= 1)%nat
         /\ (count isDisposeRenderTarget (trace s1) <= 1)%nat)
     /\ (antialiasing o = false -> handlerAssigned (pending s1) = false))
  /\ (forall (evs : list Event) (k : nat),
        let s1 := run c s evs in
        pending s1 !! k = Some Retrying ->
        count isSceneRender (trace (deliver c s1 (RetryTick k ConditionHolds)))
        = S (count isSceneRender (trace s1))
        /\ (handlerAssigned (pending s1) = false ->
            forall evs' : list Event,
              count isSceneRender
                (trace (run c s (evs ++ RetryTick k ConditionHolds :: evs'))) = 1%nat))
  /\ (forall (evs : list Event) (k : nat) (data : ArrayBufferView),
        let s1 := run c s evs in
        pending s1 !! k = Some AwaitReadPixels ->
        let s2 := deliver c s1 (ReadPixelsSettled k (Some data)) in
        (if dumpDataFunc (width sz) (height sz) data
         then In (DisposeRenderTarget texture) (trace s2)
              /\ count isDisposeRenderTarget (trace s2)
                 = S (count isDisposeRenderTarget (trace s1))
         else count isDisposeRenderTarget (trace s2)
              = count isDisposeRenderTarget (trace s1))
        /\ (handlerAssigned (pending s1) = false ->
            forall evs' : list Event,
              count isDisposeRenderTarget
                (trace (run c s (evs ++ ReadPixelsSettled k (Some data) :: evs')))
              = if dumpDataFunc (width sz) (height sz) data then 1%nat else 0%nat))
  /\ (forall (evs : list Event) (k : nat),
        let s1 := run c s evs in
        pending s1 !! k = Some AwaitReadPixels ->
        trace (deliver c s1 (ReadPixelsSettled k None)) = trace s1
        /\ (handlerAssigned (pending s1) = false ->
            forall evs' : list Event,
              count isDisposeRenderTarget
                (trace (run c s (evs ++ ReadPixelsSettled k None :: evs'))) = 0%nat)).
Proof.
  intros H sz. pose proof (Create_counted _ _ _ _ _ _ _ H) as Hc0.
  pose proof (Create_started _ _ _ _ _ _ _ H) as Hs. cbv zeta in Hs.
  destruct Hs as (_ & Hsz & _ & Htex & _ & _ & _ & _ & _ & _ & Hp & Htr).
  assert (Hc : forall evs, counted (run c s evs))
    by (intros evs; now apply run_counted).
  split; [| split; [| split]].
  - intros evs s1. subst s1.
    pose proof (counted_order _ (Hc evs)) as (O1 & O2 & _).
    split; [apply (Hc evs) |]. split; [| split; [exact O1 | split; [exact O2 | split]]].
    + destruct (run_trace c evs s) as [calls Hcalls]. rewrite Hcalls, Htr.
      unfold sz. rewrite Hsz.
      apply in_app_iff. left. apply in_app_iff. right. now left.
    + intros Hh. destruct (counted_le _ (Hc evs) Hh) as (A & B & C & _).
      repeat split; assumption.
    + intros Haa. apply singleChain_handler, run_singleChain.
      rewrite Haa in Hp. exists Retrying. now split.
  - intros evs k s1 Hk.
    destruct (deliver_ConditionHolds c k s1 Hk) as (_ & Hps & _ & Hr & _).
    split; [exact Hr |]. intros Hh evs'.
    destruct (counted_single s1 k _ (Hc evs) Hh Hk) as [Hp1 ->].
    rewrite run_app, run_cons. fold s1.
    set (s2 := deliver c s1 (RetryTick 0 ConditionHolds)) in *.
    assert (Hs2 : singleChain s2).
    { exists AwaitEndFrame. rewrite Hps, Hp1. now split. }
    pose proof (run_singleChain c s2 evs' Hs2) as Hs3.
    assert (Hc3 : counted (run c s2 evs')).
    { apply run_counted. apply deliver_counted, Hc. }
    destruct (counted_le _ Hc3 (singleChain_handler _ Hs3)) as (_ & B & _).
    pose proof (run_count_le c isSceneRender evs' s2). lia.
  - intros evs k data s1 Hk s2. subst s2.
    rewrite (deliver_ReadPixels_fulfilled c k s1 data Hk). cbn [trace].
    rewrite count_app, dumpAndDispose_disposals. rewrite Htex. fold sz. split.
    + unfold dumpAndDispose.
      destruct (dumpDataFunc (width sz) (height sz) data); [| lia].
      split; [| lia]. apply in_app_iff. right. right. now left.
    + intros Hh evs'.
      destruct (counted_single s1 k _ (Hc evs) Hh Hk) as [Hp1 ->].
      rewrite run_app, run_cons. fold s1.
      rewrite (deliver_ReadPixels_fulfilled c 0 s1 data)
        by (rewrite Hp1; reflexivity).
      rewrite run_Idle by (cbn [pending]; rewrite Hp1; reflexivity).
      cbn [trace]. rewrite count_app, dumpAndDispose_disposals. fold sz.
      destruct (counted_le _ (Hc evs) Hh) as (_ & B & _).
      destruct (Hc evs) as (_ & _ & _ & H4 & _). fold s1 in B, H4.
      rewrite Hp1 in H4. unfold total in H4. simpl in H4.
      destruct (dumpDataFunc (width sz) (height sz) data); lia.
  - intros evs k s1 Hk.
    rewrite (deliver_ReadPixels_rejected c k s1 Hk). cbn [trace].
    split; [reflexivity |]. intros Hh evs'.
    destruct (counted_single s1 k _ (Hc evs) Hh Hk) as [Hp1 ->].
    rewrite run_app, run_cons. fold s1.
    rewrite (deliver_ReadPixels_rejected c 0 s1) by (rewrite Hp1; reflexivity).
    rewrite run_Idle by (cbn [pending]; rewrite Hp1; reflexivity).
    cbn [trace].
    destruct (counted_le _ (Hc evs) Hh) as (_ & B & _).
    destruct (Hc evs) as (_ & _ & _ & H4 & _). fold s1 in B, H4.
    rewrite Hp1 in H4. unfold total in H4. simpl in H4. lia.
Qed.

(** *** After the render pass *)

(** C5: when the end of the frame is signalled after a render pass, every
    observer that a render pass has added runs.  The pixels are read from
    the texture itself and handed to the encoder with the width and height
    of the capture if the final width and height equal them; otherwise the
    pass fragment is imported, ApplyPostProcess brings the texture to the
    final width and height, and the pixels read from its result are handed
    to the encoder with the final width and height.  As long as
    [e.onCompiled] has not been assigned there is one observer.  The size
    [{width: 100, height: 50, finalWidth: 400, finalHeight: 200}] allocates
    a texture of 100x50 and has the final size 400x200. *)
Theorem readback_direct_or_resized (w : World) (camera : CameraId)
    (size : ScreenshotSizeArg) (o : CaptureOptions) (texture : TextureId)
    (c : Capture) (s : Running) :
  CreateScreenshotUsingRenderTarget w camera size o texture = (Some c, s) ->
  let sz := cap_size c in
  (forall (evs : list Event) (k : nat),
     let s1 := run c s evs in
     let n := endFrameObservers (pending s1) in
     pending s1 !! k = Some AwaitEndFrame ->
     In SceneRender (trace s1)
     /\ (1 <= n)%nat
     /\ (handlerAssigned (pending s1) = false -> n = 1%nat)
     /\ (finalWidth sz = width sz /\ finalHeight sz = height sz ->
         forall data : ArrayBufferView,
           trace (run c s1 [EndFrame; ReadPixelsSettled k (Some data)])
           = trace s1
               ++ repeat (ReadPixels texture) n
               ++ [DumpData (width sz) (height sz) data (mimeType o) (fileName o)
                     true (quality o)]
               ++ (if dumpDataFunc (width sz) (height sz) data
                   then [DisposeRenderTarget texture] else []))
     /\ (~ (finalWidth sz = width sz /\ finalHeight sz = height sz) ->
         forall (t : TextureId) (data : ArrayBufferView),
           trace (run c s1 [EndFrame; ImportSettled k true;
                            ApplyPostProcessSettled k (Some t);
                            ReadTexturePixelsSettled k (Some data)])
           = trace s1
               ++ repeat (ImportPassFragment (isWebGPU (engine (world s1)))) n
               ++ [ApplyPostProcess texture (finalWidth sz) (finalHeight sz);
                   ReadTexturePixels t (finalWidth sz) (finalHeight sz);
                   DumpData (finalWidth sz) (finalHeight sz) data (mimeType o)
                     (fileName o) true (quality o)]
               ++ (if dumpDataFunc (finalWidth sz) (finalHeight sz) data
                   then [DisposeInternalTexture t] else [])))
  /\ (size = SizeObject size100x50to400x200 ->
      sz = {| height := 50; width := 100; finalWidth := 400; finalHeight := 200 |}
      /\ In (NewRenderTargetTexture texture 100 50 (enableStencilBuffer o) (samples o))
           (trace s)).
Proof.
  intros H sz. pose proof (Create_counted _ _ _ _ _ _ _ H) as Hc0.
  pose proof (Create_started _ _ _ _ _ _ _ H) as Hs. cbv zeta in Hs.
  destruct Hs as (_ & Hsz & _ & Htex & Hopt & _ & _ & _ & _ & _ & _ & Htr).
  subst sz. split.
  - intros evs k s1 n Hk.
    assert (Hc : counted s1) by (now apply run_counted).
    split; [now apply (counted_rendered s1 k AwaitEndFrame) |].
    split; [now apply (endFrameObservers_lookup _ k) |].
    split.
    { intros Hh. destruct (counted_single s1 k _ Hc Hh Hk) as [Hp1 _].
      unfold n. now rewrite Hp1. }
    subst n. clearbody s1. split.
    + intros Hsame data. apply sameFinalSize_true in Hsame.
      unfold run. cbn [fold_left]. rewrite deliver_EndFrame.
      rewrite (deliver_ReadPixels_fulfilled c k _ data)
        by (cbn [pending]; rewrite (lookup_map _ _ _ _ Hk);
            unfold afterEndFrame; cbn [isAwaitEndFrame]; now rewrite Hsame).
      cbn [trace]. unfold endFrameCall, dumpAndDispose.
      rewrite Hsame, Htex, Hopt, <- app_assoc. reflexivity.
    + intros Hne t data. apply sameFinalSize_false in Hne.
      unfold run. cbn [fold_left]. rewrite deliver_EndFrame.
      set (s2 := {| world := world s1; pending := map (afterEndFrame c) (pending s1);
                    trace := trace s1
                      ++ repeat (endFrameCall c (world s1))
                           (endFrameObservers (pending s1)) |}).
      assert (Hk2 : pending s2 !! k = Some AwaitImport).
      { cbn [s2 pending]. rewrite (lookup_map _ _ _ _ Hk).
        unfold afterEndFrame. cbn [isAwaitEndFrame]. now rewrite Hne. }
      cbn [deliver].
      destruct (callBack_step c (ImportSettled k true) k s2 _ _ _ _ Hk2 eq_refl)
        as (_ & T3 & _ & Hk3).
      set (s3 := callBack c (ImportSettled k true) k s2) in *.
      destruct (callBack_step c (ApplyPostProcessSettled k (Some t)) k s3 _ _ _ _
                  Hk3 eq_refl) as (_ & T4 & _ & Hk4).
      set (s4 := callBack c (ApplyPostProcessSettled k (Some t)) k s3) in *.
      destruct (callBack_step c (ReadTexturePixelsSettled k (Some data)) k s4 _ _ _ _
                  Hk4 eq_refl) as (_ & T5 & _).
      rewrite T5, T4, T3. cbn [s2 trace]. unfold endFrameCall, dumpAndDispose.
      rewrite Hne, Htex, Hopt, <- !app_assoc. reflexivity.
  - intros ->. rewrite Hsz. split; [reflexivity |].
    rewrite Htr. apply in_app_iff. right. left. reflexivity.
Qed.

(** *** Antialiasing *)

Lemma compilations_cons (ev : Event) (evs : list Event) :
  compilations (ev :: evs)
  = ((if isEffectCompiled ev then 1 else 0) + compilations evs)%nat.
Proof.
  unfold compilations. cbn [List.filter]. destruct (isEffectCompiled ev); reflexivity.
Qed.

(** Once the observer of the creation of the effect has run and has assigned
    [e.onCompiled], a polling is started by every completion of a
    compilation and by nothing else. *)
Lemma deliver_afterEffect (c : Capture) (s : Running) (ev : Event) :
  effectSeen s -> handlerAssigned (pending s) = true ->
  effectSeen (deliver c s ev)
  /\ handlerAssigned (pending (deliver c s ev)) = true
  /\ total started (pending (deliver c s ev))
     = (total started (pending s) + (if isEffectCompiled ev then 1 else 0))%nat.
Proof.
  intros He Hh. destruct (isEffectCompiled ev) eqn:Hev.
  - destruct ev; try discriminate Hev. rewrite deliver_EffectCompiled, Hh.
    cbn [onCompiled renderToTexture renderWhenReady pending]. split; [| split].
    + unfold effectSeen. cbn [pending]. apply Forall_app. split; [exact He |].
      repeat constructor. discriminate.
    + now apply handlerAssigned_snoc.
    + rewrite total_app. reflexivity.
  - apply (deliver_callBacks c
             (fun s' => effectSeen s' /\ handlerAssigned (pending s') = true
                        /\ total started (pending s')
                           = (total started (pending s) + 0)%nat) ev Hev).
    + intros s' k (He' & Hh' & Ht'). unfold callBack.
      destruct (pending s' !! k) as [p |] eqn:Hk; [| now repeat split].
      pose proof (step_handler c p ev (world s')) as Hs.
      destruct (step c p ev (world s')) as [[w' calls] p'].
      destruct Hs as [_ Hs]. cbn [pending].
      destruct (Hs (Forall_lookup_1 _ _ _ _ He' Hk)) as (A & B & C).
      split; [| split].
      * unfold effectSeen. cbn [pending]. now apply Forall_insert.
      * unfold handlerAssigned in *.
        now rewrite (existsb_insert_same isAwaitCompiled _ _ _ p' Hk C).
      * pose proof (total_insert started _ _ _ p' Hk). lia.
    + repeat split; [exact He | exact Hh | lia].
Qed.

Lemma run_afterEffect (c : Capture) (evs : list Event) (s : Running) :
  effectSeen s -> handlerAssigned (pending s) = true ->
  handlerAssigned (pending (run c s evs)) = true
  /\ total started (pending (run c s evs))
     = (total started (pending s) + compilations evs)%nat.
Proof.
  revert s. induction evs as [| ev evs IH]; intros s He Hh.
  - cbn. split; [exact Hh | unfold compilations; cbn; lia].
  - rewrite run_cons, compilations_cons.
    destruct (deliver_afterEffect c s ev He Hh) as (A & B & C).
    destruct (IH _ A B) as [D E]. split; [exact D | lia].
Qed.

(** Until the effect is created, nothing happens. *)
Lemma run_AwaitEffectCreated (c : Capture) (evs : list Event) (s : Running) :
  pending s = [AwaitEffectCreated] -> existsb isEffectCreated evs = false ->
  run c s evs = s.
Proof.
  induction evs as [| ev evs IH]; intros Hs Hno; [reflexivity |].
  cbn [existsb] in Hno. apply orb_false_iff in Hno. destruct Hno as [Hev Hno].
  rewrite run_cons.
  assert (Hd : deliver c s ev = s).
  { destruct s as [w p tr]. cbn in Hs. subst p.
    destruct ev as [? | | [| k] ? | | [| k] ? | [| k] ? | [| k] ? | [| k] ?];
      try discriminate Hev; cbn; rewrite ?app_nil_r; reflexivity. }
  rewrite Hd. now apply IH.
Qed.

(** C7, amended: with antialiasing, nothing is rendered to the texture at
    the return of the function, nor before the effect is created.  If the
    effect is ready when it is created the render to the texture starts at
    once, and once only.  If it is not, [e.onCompiled] is assigned and the
    render to the texture waits for the compilation: no other event starts
    it, and every completion of a compilation starts it, so that it has
    started as many times as compilations have completed.  Without
    antialiasing it starts once, in the function itself.  No more render
    passes execute than renders to the texture have started. *)
Theorem antialiasing_defers_render_to_texture (w : World) (camera : CameraId)
    (size : ScreenshotSizeArg) (o : CaptureOptions) (texture : TextureId)
    (c : Capture) (s : Running) :
  CreateScreenshotUsingRenderTarget w camera size o texture = (Some c, s) ->
  (forall evs : list Event,
     (count isSceneRender (trace (run c s evs))
      <= count isRetryWithInterval (trace (run c s evs)))%nat)
  /\ (antialiasing o = false ->
      forall evs : list Event,
        count isRetryWithInterval (trace (run c s evs)) = 1%nat)
  /\ (antialiasing o = true ->
      count isRetryWithInterval (trace s) = 0%nat
      /\ (forall evs : list Event,
            existsb isEffectCreated evs = false -> run c s evs = s)
      /\ (forall evs : list Event,
            let s1 := run c s (EffectCreated false :: evs) in
            handlerAssigned (pending s1) = true
            /\ count isRetryWithInterval (trace s1) = compilations evs
            /\ (count isSceneRender (trace s1) <= compilations evs)%nat)
      /\ pending (run c s [EffectCreated false; EffectCompiled])
         = [AwaitCompiled; Retrying]
      /\ pending (run c s [EffectCreated true]) = [Retrying]
      /\ (forall evs' : list Event,
            count isRetryWithInterval (trace (run c s (EffectCreated true :: evs')))
            = 1%nat)).
Proof.
  intros H. pose proof (Create_counted _ _ _ _ _ _ _ H) as Hc0.
  pose proof (Create_started _ _ _ _ _ _ _ H) as Hs. cbv zeta in Hs.
  destruct Hs as (_ & _ & _ & _ & _ & _ & _ & _ & _ & _ & Hp & Htr).
  assert (Hc : forall evs, counted (run c s evs))
    by (intros evs; now apply run_counted).
  assert (Hone : forall s1 evs, counted s1 -> singleChain s1 ->
            count isRetryWithInterval (trace (run c s1 evs)) = 1%nat).
  { intros s1 evs Hc1 Hs1.
    destruct (run_singleChain c s1 evs Hs1) as (p & Hps & Hst).
    destruct (run_counted c s1 evs Hc1) as (_ & H2 & _).
    rewrite H2, Hps. unfold total. simpl. lia. }
  split; [| split].
  { intros evs. apply (counted_order _ (Hc evs)). }
  { intros Haa evs. rewrite Haa in Hp. apply Hone; [exact Hc0 |].
    exists Retrying. now split. }
  intros Haa. rewrite Haa in Hp, Htr.
  assert (Hd : deliver c s (EffectCreated false)
               = {| world := world s; pending := [AwaitCompiled]; trace := trace s |}).
  { destruct s as [w1 p1 tr1]. cbn [pending] in Hp. subst p1.
    cbn. now rewrite app_nil_r. }
  assert (Hr : deliver c s (EffectCreated true)
               = {| world := with_scene resetCachedMaterial
                               (with_scene incrementRenderId (world s));
                    pending := [Retrying];
                    trace := trace s ++ [RetryWithInterval] |}).
  { destruct s as [w1 p1 tr1]. cbn [pending] in Hp. subst p1. reflexivity. }
  assert (H0 : count isRetryWithInterval (trace s) = 0%nat).
  { destruct Hc0 as (_ & H2 & _). rewrite H2, Hp. reflexivity. }
  split; [exact H0 |]. split; [| split; [| split; [| split]]].
  - intros evs Hno. now apply run_AwaitEffectCreated.
  - intros evs s1. subst s1. rewrite run_cons, Hd.
    set (s1 := {| world := world s; pending := [AwaitCompiled]; trace := trace s |}).
    assert (Hc1 : counted s1) by (unfold s1; rewrite <- Hd; apply deliver_counted, Hc0).
    assert (He : effectSeen s1) by (repeat constructor; discriminate).
    destruct (run_afterEffect c evs s1 He eq_refl) as [A B].
    pose proof (run_counted c s1 evs Hc1) as Hc2.
    pose proof (counted_order _ Hc2) as (O1 & _).
    destruct Hc2 as (_ & H2 & _).
    split; [exact A |].
    assert (E : count isRetryWithInterval (trace (run c s1 evs)) = compilations evs).
    { rewrite H2, B. reflexivity. }
    split; [exact E | lia].
  - rewrite run_cons, Hd. reflexivity.
  - unfold run. cbn [fold_left]. now rewrite Hr.
  - intros evs'. rewrite run_cons. apply Hone.
    + apply deliver_counted, Hc0.
    + rewrite Hr. exists Retrying. now split.
Qed.

(** ** Further properties of GetScreenshotSize *)

Lemma Qfloor_zero_iff (q : Q) : Qfloor q = 0 <-> (0 <= q /\ q < 1)%Q.
Proof.
  split.
  - intros H. pose proof (Qfloor_le q) as Hle. pose proof (Qlt_floor q) as Hlt.
    rewrite H in Hle, Hlt. split; [exact Hle | exact Hlt].
  - intros [H0 H1].
    assert (A : 0 <= Qfloor q).
    { change 0 with (Qfloor 0). now apply Qfloor_resp_le. }
    assert (B : Qfloor q < 1).
    { rewrite Zlt_Qlt. eapply Qle_lt_trans; [apply Qfloor_le | exact H1]. }
    lia.
Qed.

Lemma round_within_half (x : Q) :
  (Qabs (inject_Z (Qfloor (x + (1 # 2))) - x) <= 1 # 2)%Q.
Proof.
  pose proof (Qfloor_le (x + (1 # 2))) as Hle.
  pose proof (Qlt_floor (x + (1 # 2))) as Hlt.
  rewrite inject_Z_plus in Hlt. change (inject_Z 1) with 1%Q in Hlt.
  apply Qabs_Qle_condition. split; lra.
Qed.

(** X1: A property of the size object that is zero or NaN counts as absent:
    the dimensions returned are those of the object without it.  In
    particular a precision of 0 acts as the precision 1, and a width or
    height of 0 is computed from the other one or from the engine. *)
Theorem GetScreenshotSize_falsy_is_absent (engine : AbstractEngine)
    (camera : CameraId) (size : IScreenshotSize) :
  GetScreenshotSize engine camera (SizeObject (dropFalsy size))
  = GetScreenshotSize engine camera (SizeObject size).
Proof.
  unfold GetScreenshotSize, resolveSize, dropFalsy, keepTruthy.
  cbn [size_precision size_width size_height size_finalWidth size_finalHeight].
  destruct (truthy_opt (size_precision size)) eqn:Hp,
    (truthy_opt (size_width size)) eqn:Hw,
    (truthy_opt (size_height size)) eqn:Hh,
    (truthy_opt (size_finalWidth size)) eqn:Hfw,
    (truthy_opt (size_finalHeight size)) eqn:Hfh;
    cbn [truthy_opt andb negb]; rewrite ?Hp, ?Hw, ?Hh, ?Hfw, ?Hfh;
    cbn [truthy_opt andb negb]; reflexivity.
Qed.

(** X2: For a number, and for a size object in which neither finalWidth nor
    finalHeight is set, the final width and height returned are the width
    and height returned. *)
Theorem GetScreenshotSize_final_defaults (engine : AbstractEngine)
    (camera : CameraId) (size : ScreenshotSizeArg) :
  noFinalSize size = true ->
  let sz := GetScreenshotSize engine camera size in
  finalWidth sz = width sz /\ finalHeight sz = height sz.
Proof.
  intros H sz. subst sz. destruct size as [n | o]; cbn [noFinalSize] in H.
  - unfold GetScreenshotSize, resolveSize. destruct (negb (isNaN n)); split; reflexivity.
  - apply andb_true_iff in H. destruct H as [Hw Hh].
    apply negb_true_iff in Hw. apply negb_true_iff in Hh.
    unfold GetScreenshotSize, resolveSize. rewrite Hw, Hh.
    cbn [andb negb].
    repeat match goal with
    | |- context [let '(_, _) := (if ?b then _ else _) in _] => destruct b
    end; split; reflexivity.
Qed.

(** X3: When finalWidth and finalHeight are both set, the final dimensions
    returned are their floors, whatever the precision, the width, the
    height and the aspect ratio are. *)
Theorem GetScreenshotSize_final_explicit (engine : AbstractEngine)
    (camera : CameraId) (o : IScreenshotSize) :
  truthy_opt (size_finalWidth o) = true ->
  truthy_opt (size_finalHeight o) = true ->
  let sz := GetScreenshotSize engine camera (SizeObject o) in
  finalWidth sz = floor32 (to_number (size_finalWidth o))
  /\ finalHeight sz = floor32 (to_number (size_finalHeight o)).
Proof.
  intros Hw Hh sz. subst sz.
  unfold GetScreenshotSize. rewrite !ToInt32_floorIfSet.
  unfold resolveSize. rewrite Hw, Hh. cbn [andb negb].
  repeat match goal with
  | |- context [let '(_, _) := (if ?b then _ else _) in _] => destruct b
  end; split; reflexivity.
Qed.

Lemma resolveSize_onlyWidth (engine : AbstractEngine) (camera : CameraId) (w : Q) :
  (0 < w)%Q ->
  let width := mul (Fin w) (of_Z 1) in
  let height := Math_round (div width (getAspectRatio engine camera)) in
  resolveSize engine camera (SizeObject (onlyWidth (Fin w)))
  = {| raw_height := height; raw_width := width;
       raw_finalWidth := width; raw_finalHeight := height |}.
Proof.
  intros Hw. unfold resolveSize, onlyWidth.
  cbn [size_precision size_width size_height size_finalWidth size_finalHeight
       truthy_opt to_number truthy].
  rewrite (Qlt_0_Qeq_bool w Hw). reflexivity.
Qed.

Lemma resolveSize_onlyHeight (engine : AbstractEngine) (camera : CameraId) (h : Q) :
  (0 < h)%Q ->
  let height := mul (Fin h) (of_Z 1) in
  let width := Math_round (mul height (getAspectRatio engine camera)) in
  resolveSize engine camera (SizeObject (onlyHeight (Fin h)))
  = {| raw_height := height; raw_width := width;
       raw_finalWidth := width; raw_finalHeight := height |}.
Proof.
  intros Hh. unfold resolveSize, onlyHeight.
  cbn [size_precision size_width size_height size_finalWidth size_finalHeight
       truthy_opt to_number truthy].
  rewrite (Qlt_0_Qeq_bool h Hh). reflexivity.
Qed.

(** X4: With only a positive width set, the width computed is the binary64
    product [w'] of the width and the precision 1, and the height returned
    is [Math.round] of the binary64 quotient [x] of [w'] by the aspect ratio
    of the camera: the integer within half a pixel of [x], the upper one on
    a tie.  With only a positive height set, the width returned is
    [Math.round] of the binary64 product of the height and the aspect
    ratio.  The dimension that was set is returned floored, and the final
    dimensions are the same two.  The floors are taken to lie in the signed
    32-bit range. *)
Theorem GetScreenshotSize_single_dimension (engine : AbstractEngine)
    (camera : CameraId) :
  (forall w w' x : Q,
     (0 < w)%Q ->
     mul (Fin w) (of_Z 1) = Fin w' ->
     div (Fin w') (getAspectRatio engine camera) = Fin x ->
     - 2 ^ 31 <= Qfloor w' < 2 ^ 31 ->
     - 2 ^ 31 <= Qfloor (x + (1 # 2)) < 2 ^ 31 ->
     let sz := GetScreenshotSize engine camera (SizeObject (onlyWidth (Fin w))) in
     width sz = Qfloor w'
     /\ height sz = Qfloor (x + (1 # 2))
     /\ (Qabs (inject_Z (height sz) - x) <= 1 # 2)%Q
     /\ finalWidth sz = width sz /\ finalHeight sz = height sz)
  /\ (forall h h' x : Q,
        (0 < h)%Q ->
        mul (Fin h) (of_Z 1) = Fin h' ->
        mul (Fin h') (getAspectRatio engine camera) = Fin x ->
        - 2 ^ 31 <= Qfloor h' < 2 ^ 31 ->
        - 2 ^ 31 <= Qfloor (x + (1 # 2)) < 2 ^ 31 ->
        let sz := GetScreenshotSize engine camera (SizeObject (onlyHeight (Fin h))) in
        height sz = Qfloor h'
        /\ width sz = Qfloor (x + (1 # 2))
        /\ (Qabs (inject_Z (width sz) - x) <= 1 # 2)%Q
        /\ finalWidth sz = width sz /\ finalHeight sz = height sz).
Proof.
  split.
  - intros w w' x Hw Ew Ex Hrw Hrh sz. subst sz.
    unfold GetScreenshotSize. rewrite !ToInt32_floorIfSet.
    rewrite (resolveSize_onlyWidth engine camera w Hw). cbv zeta.
    rewrite Ew, Ex.
    cbn [raw_height raw_width raw_finalWidth raw_finalHeight
         height width finalWidth finalHeight floor32 Math_round].
    rewrite Qfloor_Z, !wrap32_small by assumption.
    split; [reflexivity |]. split; [reflexivity |].
    split; [apply round_within_half |]. split; reflexivity.
  - intros h h' x Hh Eh Ex Hrh Hrw sz. subst sz.
    unfold GetScreenshotSize. rewrite !ToInt32_floorIfSet.
    rewrite (resolveSize_onlyHeight engine camera h Hh). cbv zeta.
    rewrite Eh, Ex.
    cbn [raw_height raw_width raw_finalWidth raw_finalHeight
         height width finalWidth finalHeight floor32 Math_round].
    rewrite Qfloor_Z, !wrap32_small by assumption.
    split; [reflexivity |]. split; [reflexivity |].
    split; [apply round_within_half |]. split; reflexivity.
Qed.

(** X5: A finite number is refused as a size exactly when it lies in [0, 1):
    every dimension returned is its floor (within the signed 32-bit range),
    so a fraction below 1 gives zero and a negative number gives negative
    dimensions that pass the test of the size.  NaN and the infinities give
    zero and are refused. *)
Theorem number_size_validity (engine : AbstractEngine) (camera : CameraId) :
  (forall q : Q,
     - 2 ^ 31 <= Qfloor q < 2 ^ 31 ->
     let sz := GetScreenshotSize engine camera (SizeNumber (Fin q)) in
     sz = {| height := Qfloor q; width := Qfloor q;
             finalWidth := Qfloor q; finalHeight := Qfloor q |}
     /\ (validSize sz = false <-> (0 <= q /\ q < 1)%Q)
     /\ ((q < 0)%Q -> validSize sz = true /\ width sz < 0 /\ height sz < 0))
  /\ validSize (GetScreenshotSize engine camera (SizeNumber NaN)) = false
  /\ (forall negative : bool,
        validSize (GetScreenshotSize engine camera (SizeNumber (Infinity negative)))
        = false).
Proof.
  split; [| split; [reflexivity | intros b; reflexivity]].
  intros q Hq sz.
  assert (Hsz : sz = {| height := Qfloor q; width := Qfloor q;
                        finalWidth := Qfloor q; finalHeight := Qfloor q |}).
  { subst sz. unfold GetScreenshotSize. rewrite !ToInt32_floorIfSet.
    cbn [resolveSize isNaN negb raw_height raw_width raw_finalWidth raw_finalHeight
         floor32].
    now rewrite wrap32_small by assumption. }
  split; [exact Hsz |]. rewrite Hsz. unfold validSize. cbn [height width].
  split.
  - rewrite <- Qfloor_zero_iff. destruct (Qfloor q =? 0) eqn:E.
    + apply Z.eqb_eq in E. split; [intros _; exact E | reflexivity].
    + apply Z.eqb_neq in E. cbn. split; [discriminate | intros H; contradiction].
  - intros Hneg.
    assert (Hf : Qfloor q < 0).
    { rewrite Zlt_Qlt. eapply Qle_lt_trans; [apply Qfloor_le | exact Hneg]. }
    destruct (Qfloor q =? 0) eqn:E; [apply Z.eqb_eq in E; lia |].
    cbn. repeat split; exact Hf.
Qed.

(** ** Further properties of the capture *)

Lemma started_before (ps : list Pending) :
  forallb beforeRender ps = true -> total started ps = total polling ps.
Proof.
  unfold total. induction ps as [| p ps IH]; [reflexivity |].
  cbn [forallb]. intros H. apply andb_true_iff in H. destruct H as [Hp H].
  simpl. rewrite (IH H). destruct p; try discriminate Hp; reflexivity.
Qed.

(** X6: from the return of the function until a polling of the capture ends,
    by its render pass or by the error of its readiness check, the engine
    skips the rendering of frames, and no render pass of the capture has
    run. *)
Theorem frames_skipped_until_render (w : World) (camera : CameraId)
    (size : ScreenshotSizeArg) (o : CaptureOptions) (texture : TextureId)
    (c : Capture) (s : Running) (evs : list Event) :
  CreateScreenshotUsingRenderTarget w camera size o texture = (Some c, s) ->
  forallb beforeRender (pending (run c s evs)) = true ->
  skipFrameRender (engine (world (run c s evs))) = true
  /\ count isSceneRender (trace (run c s evs)) = 0%nat.
Proof.
  intros H Hb. pose proof (Create_counted _ _ _ _ _ _ _ H) as Hc0.
  pose proof (Create_started _ _ _ _ _ _ _ H) as Hs. cbv zeta in Hs.
  destruct Hs as (_ & _ & _ & _ & _ & _ & _ & _ & Hskip & _).
  split.
  - exact (run_whileBefore c (fun e => skipFrameRender e = true) s evs Hskip Hb).
  - destruct (run_counted c s evs Hc0) as (_ & _ & H3 & _).
    rewrite (started_before _ Hb) in H3. lia.
Qed.

Lemma step_dumpCounted (c : Capture) (p : Pending) (ev : Event) (w : World) :
  let '(_, calls, p') := step c p ev w in
  (count isDumpData calls + finished p <= finished p')%nat.
Proof.
  step_cases p ev.
  all: try split_onEndFrame.
  all: try split_onSuccess c w.
  all: cbn [finished]; count_calls.
  all: try match goal with
       | |- context [if ?b then _ else _] => destruct b
       end.
  all: cbn [count List.filter length app isDumpData]; lia.
Qed.

Lemma deliver_dumpCounted (c : Capture) (s : Running) (ev : Event) :
  dumpCounted s -> dumpCounted (deliver c s ev).
Proof.
  revert s ev. apply (deliver_invariant c dumpCounted).
  - intros s ev k Hd. unfold callBack.
    destruct (pending s !! k) as [p |] eqn:Hk; [| exact Hd].
    pose proof (step_dumpCounted c p ev (world s)) as Hs.
    destruct (step c p ev (world s)) as [[w' calls] p'].
    unfold dumpCounted in *. cbn [pending trace]. rewrite count_app.
    pose proof (total_insert finished _ _ _ p' Hk). lia.
  - intros s Hd _. unfold dumpCounted in *.
    cbn [onCompiled renderToTexture renderWhenReady pending trace].
    rewrite count_app, total_app. cbn. lia.
Qed.

Lemma Create_dumpCounted (w : World) (camera : CameraId) (size : ScreenshotSizeArg)
    (o : CaptureOptions) (texture : TextureId) (c : Capture) (s : Running) :
  CreateScreenshotUsingRenderTarget w camera size o texture = (Some c, s) ->
  dumpCounted s.
Proof.
  intros H. apply Create_started in H.
  destruct H as (_ & _ & _ & _ & _ & _ & _ & _ & _ & _ & Hp & Htr).
  unfold dumpCounted. rewrite Hp, Htr.
  destruct (antialiasing o); count_calls; lia.
Qed.

(** X7: the encoder is called no more often than a render pass has run, and
    each time by a callback that then leaves nothing registered.  As long as
    [e.onCompiled] has not been assigned, the encoder is called at most once
    over any sequence of events, so the success callback is handed over at
    most once, and it is called only once no callback of the capture is left
    registered. *)
Theorem encoder_called_once_per_render_pass (w : World) (camera : CameraId)
    (size : ScreenshotSizeArg) (o : CaptureOptions) (texture : TextureId)
    (c : Capture) (s : Running) (evs : list Event) :
  CreateScreenshotUsingRenderTarget w camera size o texture = (Some c, s) ->
  let s1 := run c s evs in
  (count isDumpData (trace s1) <= count isSceneRender (trace s1))%nat
  /\ (count isSceneRender (trace s1) <= count isRetryWithInterval (trace s1))%nat
  /\ (count isDumpData (trace s1) <= total finished (pending s1))%nat
  /\ (handlerAssigned (pending s1) = false ->
      (count isDumpData (trace s1) <= 1)%nat
      /\ (pending s1 <> [Idle] -> count isDumpData (trace s1) = 0%nat)).
Proof.
  intros H s1.
  assert (Hc : counted s1) by (apply run_counted, (Create_counted _ _ _ _ _ _ _ H)).
  assert (Hd : dumpCounted s1).
  { apply (run_invariant c dumpCounted).
    - intros s' ev. apply deliver_dumpCounted.
    - exact (Create_dumpCounted _ _ _ _ _ _ _ H). }
  pose proof (counted_order _ Hc) as (O1 & _ & O3).
  split; [exact O3 |]. split; [exact O1 |]. split; [exact Hd |].
  intros Hh. destruct (counted_le _ Hc Hh) as (_ & _ & _ & L).
  split; [exact L |]. intros Hne.
  destruct Hc as (_ & _ & _ & _ & _ & H6). specialize (H6 Hh).
  unfold dumpCounted in Hd.
  destruct (pending s1) as [| p [| q ps]]; try discriminate H6.
  unfold total in Hd. simpl in Hd.
  destruct p; cbn [finished] in Hd; try lia. now contradiction Hne.
Qed.

(** X8: when the readiness check of a polling throws, the error callback
    gives the engine its accessors back and lets it render frames again,
    and that polling is over: its callback makes no call and leaves nothing
    registered.  As long as [e.onCompiled] has not been assigned the capture
    is then over: no render pass runs and the encoder is never called,
    whatever happens later; the texture that was allocated is not
    disposed. *)
Theorem readiness_error_gives_engine_back (w : World) (camera : CameraId)
    (size : ScreenshotSizeArg) (o : CaptureOptions) (texture : TextureId)
    (c : Capture) (s : Running) (evs : list Event) (k : nat) :
  CreateScreenshotUsingRenderTarget w camera size o texture = (Some c, s) ->
  let s1 := run c s evs in
  pending s1 !! k = Some Retrying ->
  let s' := deliver c s1 (RetryTick k ConditionThrows) in
  pending s' = <[k := Idle]> (pending s1)
  /\ getRenderWidth (engine (world s')) = getRenderWidth (engine w)
  /\ getRenderHeight (engine (world s')) = getRenderHeight (engine w)
  /\ skipFrameRender (engine (world s')) = false
  /\ trace s' = trace s1
  /\ (handlerAssigned (pending s1) = false ->
      forall evs' : list Event,
        let s2 := run c s (evs ++ RetryTick k ConditionThrows :: evs') in
        s2 = s'
        /\ pending s2 = [Idle]
        /\ count isSceneRender (trace s2) = 0%nat
        /\ count isDumpData (trace s2) = 0%nat
        /\ count isNewRenderTargetTexture (trace s2) = 1%nat
        /\ count isDisposeRenderTarget (trace s2) = 0%nat).
Proof.
  intros H s1 Hk s'. subst s'.
  pose proof (Create_started _ _ _ _ _ _ _ H) as Hs. cbv zeta in Hs.
  destruct Hs as (_ & _ & _ & _ & _ & Hgw & Hgh & _).
  assert (Hc : counted s1) by (apply run_counted, (Create_counted _ _ _ _ _ _ _ H)).
  rewrite (deliver_ConditionThrows c k s1 Hk). cbn [pending world trace].
  destruct (onError_restores c (world s1)) as (A & B & C).
  split; [reflexivity |]. split; [congruence |]. split; [congruence |].
  split; [exact C |]. split; [reflexivity |].
  intros Hh evs'.
  destruct (counted_single s1 k _ Hc Hh Hk) as [Hp1 ->].
  rewrite run_app, run_cons. fold s1.
  rewrite (deliver_ConditionThrows c 0 s1) by (rewrite Hp1; reflexivity).
  rewrite run_Idle by (cbn [pending]; rewrite Hp1; reflexivity).
  cbn [pending trace]. rewrite Hp1.
  pose proof (counted_order _ Hc) as (_ & O2 & O3).
  destruct Hc as (H1 & _ & H3 & _). rewrite Hp1 in H3. unfold total in H3.
  simpl in H3.
  repeat split; first [exact H1 | lia].
Qed.

Lemma count_repeat (f : Call -> bool) (x : Call) (n : nat) :
  f x = false -> count f (repeat x n) = 0%nat.
Proof.
  intros Hf. unfold count. induction n as [| n IH]; [reflexivity |].
  cbn [repeat List.filter]. now rewrite Hf.
Qed.

(** X9: whether the render pass returns or throws, the capture goes on: the
    end-of-frame observer was added before the render pass, so after a
    render pass that threw the pixels are read at the next end of frame all
    the same and, when the read resolves, handed to the encoder with the
    success callback.  As long as [e.onCompiled] has not been assigned, this
    is the one render pass and the one call of the encoder. *)
Theorem readback_follows_any_render_outcome (w : World) (camera : CameraId)
    (size : ScreenshotSizeArg) (o : CaptureOptions) (texture : TextureId)
    (c : Capture) (s : Running) (evs : list Event) (k : nat) (data : ArrayBufferView) :
  CreateScreenshotUsingRenderTarget w camera size o texture = (Some c, s) ->
  pending (run c s evs) !! k = Some Retrying ->
  sameFinalSize c = true ->
  let s0 := run c s evs in
  let s1 := run c s (evs ++ [RetryTick k ConditionHolds]) in
  let s2 := run c s1 [EndFrame; ReadPixelsSettled k (Some data)] in
  pending s1 !! k = Some AwaitEndFrame
  /\ count isSceneRender (trace s1) = S (count isSceneRender (trace s0))
  /\ skipFrameRender (engine (world s1)) = false
  /\ In (ReadPixels texture) (trace s2)
  /\ count isDumpData (trace s2) = S (count isDumpData (trace s1))
  /\ (handlerAssigned (pending s0) = false ->
      pending s1 = [AwaitEndFrame]
      /\ count isSceneRender (trace s1) = 1%nat
      /\ count isDumpData (trace s2) = 1%nat).
Proof.
  intros H Hk Hsame s0 s1 s2.
  pose proof (Create_started _ _ _ _ _ _ _ H) as Hs. cbv zeta in Hs.
  destruct Hs as (_ & _ & _ & Htex & _).
  assert (Hc0 : counted s0) by (apply run_counted, (Create_counted _ _ _ _ _ _ _ H)).
  assert (E1 : s1 = deliver c s0 (RetryTick k ConditionHolds)).
  { unfold s1. now rewrite run_app. }
  destruct (deliver_ConditionHolds c k s0 Hk) as (Hk1 & Hps & (_ & _ & Hskip) & Hr & Hd).
  rewrite <- E1 in Hk1, Hps, Hskip, Hr, Hd.
  assert (Hc1 : counted s1) by (rewrite E1; apply deliver_counted, Hc0).
  assert (E2 : trace s2
               = trace s1 ++ repeat (ReadPixels texture) (endFrameObservers (pending s1))
                   ++ dumpAndDispose c (width (cap_size c)) (height (cap_size c)) data
                        (DisposeRenderTarget texture)).
  { unfold s2, run. cbn [fold_left]. rewrite deliver_EndFrame.
    rewrite (deliver_ReadPixels_fulfilled c k _ data)
      by (cbn [pending]; rewrite (lookup_map _ _ _ _ Hk1);
          unfold afterEndFrame; cbn [isAwaitEndFrame]; now rewrite Hsame).
    cbn [trace]. unfold endFrameCall. now rewrite Hsame, Htex, <- app_assoc. }
  assert (D2 : count isDumpData (trace s2) = S (count isDumpData (trace s1))).
  { rewrite E2, !count_app, count_repeat by reflexivity.
    unfold dumpAndDispose. destruct (dumpDataFunc _ _ _); cbn; lia. }
  split; [exact Hk1 |]. split; [exact Hr |]. split; [exact Hskip |].
  split; [| split; [exact D2 |]].
  - rewrite E2. apply in_app_iff. right. apply in_app_iff. left.
    pose proof (endFrameObservers_lookup _ _ Hk1) as Hn.
    destruct (endFrameObservers (pending s1)); [lia | now left].
  - intros Hh. destruct (counted_single s0 k _ Hc0 Hh Hk) as [Hp0 ->].
    assert (Hp1 : pending s1 = [AwaitEndFrame]) by (rewrite Hps, Hp0; reflexivity).
    assert (Hh1 : handlerAssigned (pending s1) = false) by (now rewrite Hp1).
    destruct (counted_le _ Hc1 Hh1) as (_ & B & _).
    destruct Hc1 as (_ & _ & _ & _ & H5 & _). rewrite Hp1 in H5.
    unfold total in H5. simpl in H5.
    split; [exact Hp1 |]. split; lia.
Qed.

Lemma deliver_onOnePath (c : Capture) (s : Running) (ev : Event) :
  onOnePath c s -> onOnePath c (deliver c s ev).
Proof.
  revert s ev. apply (deliver_invariant c (onOnePath c)).
  - intros s ev k [Hps Htr]. unfold callBack.
    destruct (pending s !! k) as [p |] eqn:Hk; [| now split].
    pose proof (step_onPath c p ev (world s) (Forall_lookup_1 _ _ _ _ Hps Hk)) as Hs.
    destruct (step c p ev (world s)) as [[w' calls] p'].
    destruct Hs as [A B]. split; cbn [pending trace].
    + now apply Forall_insert.
    + now apply callsOnPath_app.
  - intros s [Hps Htr] _. split;
      cbn [onCompiled renderToTexture renderWhenReady pending trace].
    + apply Forall_app. split; [exact Hps |]. repeat constructor.
      unfold onPath. destruct (sameFinalSize c); [exact I | discriminate].
    + apply callsOnPath_app; [exact Htr |].
      unfold callsOnPath. destruct (sameFinalSize c); split; reflexivity.
Qed.

Lemma Create_onOnePath (w : World) (camera : CameraId) (size : ScreenshotSizeArg)
    (o : CaptureOptions) (texture : TextureId) (c : Capture) (s : Running) :
  CreateScreenshotUsingRenderTarget w camera size o texture = (Some c, s) ->
  onOnePath c s.
Proof.
  intros H. apply Create_started in H.
  destruct H as (_ & _ & _ & _ & _ & _ & _ & _ & _ & _ & Hp & Htr).
  unfold onOnePath, onPath, callsOnPath. rewrite Hp, Htr.
  destruct (sameFinalSize c), (antialiasing o); count_calls;
    repeat split; repeat constructor; first [exact I | discriminate].
Qed.

(** X10: The capture takes one of two paths and never mixes them.  When the
    final size is the raw size, the pass fragment is never imported,
    ApplyPostProcess and _readTexturePixels are never called and no internal
    texture is disposed.  When the final size differs, readPixels is never
    called on the render target texture and its dispose() is never called:
    the texture disposed at the end is the one ApplyPostProcess resolved
    to. *)
Theorem capture_takes_one_path (w : World) (camera : CameraId)
    (size : ScreenshotSizeArg) (o : CaptureOptions) (texture : TextureId)
    (c : Capture) (s : Running) (evs : list Event) :
  CreateScreenshotUsingRenderTarget w camera size o texture = (Some c, s) ->
  let sz := cap_size c in
  let tr := trace (run c s evs) in
  (finalWidth sz = width sz /\ finalHeight sz = height sz ->
   count isResizeCall tr = 0%nat /\ count isDisposeInternalTexture tr = 0%nat)
  /\ (~ (finalWidth sz = width sz /\ finalHeight sz = height sz) ->
      count isReadPixels tr = 0%nat /\ count isDisposeRenderTarget tr = 0%nat).
Proof.
  intros H sz tr. subst sz tr.
  assert (Hinv : onOnePath c (run c s evs)).
  { apply (run_invariant c (onOnePath c)).
    - intros s' ev. apply deliver_onOnePath.
    - now apply (Create_onOnePath w camera size o texture). }
  destruct Hinv as [_ Hinv]. unfold callsOnPath in Hinv. split.
  - intros Hsame. apply sameFinalSize_true in Hsame.
    now rewrite Hsame in Hinv.
  - intros Hne. apply sameFinalSize_false in Hne.
    now rewrite Hne in Hinv.
Qed.

(** X11: Two captures on one engine restore its accessors only when they finish
    in the reverse order of their start.  When a second capture is started
    before the render pass of the first and the first renders first, the
    engine is left, after both render passes, with the accessors of the
    first capture installed; when the second renders first, the engine gets
    the accessors from before both captures back. *)
Theorem overlapping_captures_need_nesting (w0 : World)
    (cameraA cameraB : CameraId) (sizeA sizeB : ScreenshotSizeArg)
    (oA oB : CaptureOptions) (textureA textureB : TextureId)
    (cA cB : Capture) (sA sB : Running) :
  CreateScreenshotUsingRenderTarget w0 cameraA sizeA oA textureA = (Some cA, sA) ->
  antialiasing oA = false ->
  CreateScreenshotUsingRenderTarget (world sA) cameraB sizeB oB textureB = (Some cB, sB) ->
  antialiasing oB = false ->
  (let sA1 := deliver cA (resumeIn (world sB) sA) (RetryTick 0 ConditionHolds) in
   let sB1 := deliver cB (resumeIn (world sA1) sB) (RetryTick 0 ConditionHolds) in
   getRenderWidth (engine (world sB1)) = CaptureGetRenderWidth (width (cap_size cA))
   /\ getRenderHeight (engine (world sB1)) = CaptureGetRenderHeight (height (cap_size cA)))
  /\ (let sB1 := deliver cB sB (RetryTick 0 ConditionHolds) in
      let sA1 := deliver cA (resumeIn (world sB1) sA) (RetryTick 0 ConditionHolds) in
      getRenderWidth (engine (world sA1)) = getRenderWidth (engine w0)
      /\ getRenderHeight (engine (world sA1)) = getRenderHeight (engine w0)).
Proof.
  intros HA HaaA HB HaaB.
  pose proof (Create_started _ _ _ _ _ _ _ HA) as HsA. cbv zeta in HsA.
  destruct HsA as (_ & _ & _ & _ & _ & HgwA & HghA & [HovW HovH] & _ & _ & HpA & _).
  pose proof (Create_started _ _ _ _ _ _ _ HB) as HsB. cbv zeta in HsB.
  destruct HsB as (_ & _ & _ & _ & _ & HgwB & HghB & _ & _ & _ & HpB & _).
  rewrite HaaA in HpA. rewrite HaaB in HpB.
  assert (HkA : forall w, pending (resumeIn w sA) !! 0%nat = Some Retrying)
    by (intros w'; cbn [resumeIn pending]; now rewrite HpA).
  assert (HkB : forall w, pending (resumeIn w sB) !! 0%nat = Some Retrying)
    by (intros w'; cbn [resumeIn pending]; now rewrite HpB).
  split.
  - intros sA1 sB1.
    destruct (deliver_ConditionHolds cB 0 (resumeIn (world sA1) sB) (HkB _))
      as (_ & _ & (Hw & Hh & _) & _).
    fold sB1 in Hw, Hh. split; congruence.
  - intros sB1 sA1.
    destruct (deliver_ConditionHolds cA 0 (resumeIn (world sB1) sA) (HkA _))
      as (_ & _ & (Hw & Hh & _) & _).
    fold sA1 in Hw, Hh. split; congruence.
Qed.

Lemma Create_valid_starts (w : World) (camera : CameraId) (size : ScreenshotSizeArg)
    (o : CaptureOptions) (texture : TextureId) :
  validSize (GetScreenshotSize (engine w) camera size) = true ->
  exists (c : Capture) (s : Running),
    CreateScreenshotUsingRenderTarget w camera size o texture = (Some c, s).
Proof.
  intros Hv. unfold CreateScreenshotUsingRenderTarget.
  change (negb (negb (height (GetScreenshotSize (engine w) camera size) =? 0)
                && negb (width (GetScreenshotSize (engine w) camera size) =? 0)))
    with (negb (validSize (GetScreenshotSize (engine w) camera size))).
  rewrite Hv. cbn [negb].
  destruct (antialiasing o); cbn [renderToTexture renderWhenReady];
    eexists _, _; reflexivity.
Qed.

End Screenshot.

(** ** Properties of the registry *)

(** C9: registering a name replaces what was registered under it: the name
    then maps to the new registration whatever was there before, the other
    names are untouched, and a name that was present adds one warning and
    nothing else; registration has no failing outcome.  Unregistering a name
    returns [true] exactly when the name was registered, and leaves the name
    out of the map, the other names untouched. *)
Theorem register_replaces_unregister_reports {Factory : Type} (name : string)
    (isGLTFExtension : bool) (factory : Factory) (r : GLTF.Registry Factory) :
  let r' := GLTF.registerGLTFExtension name isGLTFExtension factory r in
  let present := GLTF.RegisteredGLTFExtensions r !! name in
  GLTF.RegisteredGLTFExtensions r' !! name
    = Some {| GLTF.isGLTFExtension := isGLTFExtension; GLTF.factory := factory |}
  /\ (forall other : string, other <> name ->
        GLTF.RegisteredGLTFExtensions r' !! other
          = GLTF.RegisteredGLTFExtensions r !! other)
  /\ GLTF.warnings r'
       = match present with
         | Some _ => GLTF.warnings r ++ [GLTF.alreadyExists name]
         | None => GLTF.warnings r
         end
  /\ (forall (b : bool) (f : Factory),
        GLTF.RegisteredGLTFExtensions (GLTF.registerGLTFExtension name b f r') !! name
          = Some {| GLTF.isGLTFExtension := b; GLTF.factory := f |})
  /\ (fst (GLTF.unregisterGLTFExtension name r) = true <-> is_Some present)
  /\ GLTF.RegisteredGLTFExtensions (snd (GLTF.unregisterGLTFExtension name r)) !! name
       = None
  /\ (forall other : string, other <> name ->
        GLTF.RegisteredGLTFExtensions (snd (GLTF.unregisterGLTFExtension name r)) !! other
          = GLTF.RegisteredGLTFExtensions r !! other)
  /\ GLTF.warnings (snd (GLTF.unregisterGLTFExtension name r)) = GLTF.warnings r.
Proof.
  intros r' present. subst r' present.
  unfold GLTF.registerGLTFExtension, GLTF.unregisterGLTFExtension.
  cbn [fst snd GLTF.RegisteredGLTFExtensions GLTF.warnings].
  repeat split.
  - apply lookup_insert_eq.
  - intros other Hne.
    rewrite lookup_insert_ne, lookup_delete_ne by congruence. reflexivity.
  - destruct (GLTF.RegisteredGLTFExtensions r !! name) as [x |] eqn:E.
    + rewrite bool_decide_eq_true_2 by eauto. reflexivity.
    + rewrite bool_decide_eq_false_2 by (intros [x Hx]; discriminate Hx).
      reflexivity.
  - intros b f. apply lookup_insert_eq.
  - intros Hb. now apply bool_decide_eq_true_1 in Hb.
  - intros Hs. now apply bool_decide_eq_true_2.
  - apply lookup_delete_eq.
  - intros other Hne. apply lookup_delete_ne. congruence.
Qed.

(** ** The properties on the sample inputs *)

Local Abbreviation sampleSize :=
  (GetScreenshotSize Sample.aspectRatio2 Sample.renderWidth800 Sample.renderHeight400).
Local Abbreviation sampleCreate :=
  (CreateScreenshotUsingRenderTarget Sample.aspectRatio2 Sample.renderWidth800
     Sample.renderHeight400 None).

Lemma GetScreenshotSize_examples_witness :
  Sample.aspectRatio2 Sample.engine0 2%nat = Fin 2%Q
  /\ (2 == 2)%Q
  /\ sampleSize Sample.engine0 2%nat (SizeObject (onlyWidth (of_Z 300)))
     = {| height := 150; width := 300; finalWidth := 300; finalHeight := 150 |}.
Proof.
  split; [reflexivity |]. split; [reflexivity |].
  apply (proj2 (GetScreenshotSize_examples Sample.aspectRatio2 Sample.renderWidth800
                  Sample.renderHeight400 Sample.engine0 2%nat) 2%Q);
    reflexivity.
Defined.

(** The size object [{width: 10, height: 10}], and the double that the
    literal [0.7] denotes. *)
Local Abbreviation size10x10 :=
  {| size_precision := None;
     size_width := Some (of_Z 10); size_height := Some (of_Z 10);
     size_finalWidth := None; size_finalHeight := None |}.
Local Abbreviation double0_7 := (3152519739159347 # 4503599627370496)%Q.

Lemma GetScreenshotSize_floor_abs_precision_witness :
  let size := with_precision (Some (Fin (- double0_7)%Q)) size10x10 in
  let r := resolveSize Sample.aspectRatio2 Sample.renderWidth800
             Sample.renderHeight400 Sample.engine0 2%nat (SizeObject size) in
  (0 < 10)%Q /\ (0 < 10)%Q /\ truthy (Fin (- double0_7)%Q) = true
  /\ raw_width r = Fin 7%Q /\ Qfloor 7%Q < 2 ^ 31
  /\ raw_width r = mul (Fin 10%Q) (Fin (Qabs (- double0_7)))
  /\ notNegative (raw_width r)
  /\ width (sampleSize Sample.engine0 2%nat (SizeObject size)) = 7
  /\ 0 <= width (sampleSize Sample.engine0 2%nat (SizeObject size))
  /\ height (sampleSize Sample.engine0 2%nat (SizeObject size)) = 7.
Proof.
  intros size r.
  assert (Hw : raw_width r = Fin 7%Q) by (vm_compute; reflexivity).
  assert (Hh : raw_height r = Fin 7%Q) by (vm_compute; reflexivity).
  assert (Hlt : Qfloor 7%Q < 2 ^ 31) by (vm_compute; reflexivity).
  split; [reflexivity |]. split; [reflexivity |]. split; [reflexivity |].
  split; [exact Hw |]. split; [exact Hlt |].
  pose proof (proj2 (proj2 (proj2
    (GetScreenshotSize_floor_abs_precision Sample.aspectRatio2 Sample.renderWidth800
       Sample.renderHeight400 Sample.engine0 2%nat)))
    size10x10 (- double0_7)%Q 10%Q 10%Q eq_refl eq_refl eq_refl eq_refl eq_refl) as H.
  cbv zeta in H. destruct H as (H1 & _ & H3 & _ & H5 & H6).
  split; [exact H1 |]. split; [exact H3 |].
  destruct (H5 7%Q Hw Hlt) as [A B]. destruct (H6 7%Q Hh Hlt) as [C _].
  split; [exact A |]. split; [exact B | exact C].
Defined.

Lemma capture_render_size_override_witness :
  let r := sampleCreate Sample.world0 2%nat (SizeNumber (of_Z 256)) Sample.options0 7%nat in
  let s1 := capture_run Sample.renderReturns Sample.dumpReturns r
              [RetryTick 0 ConditionFails] in
  let bound :=
    set_currentRenderTarget (Some {| rt_width := of_Z 64; rt_height := of_Z 32 |})
      (engine (world s1)) in
  fst r <> None
  /\ forallb beforeRender (pending s1) = true
  /\ getRenderWidth (engine (world s1)) = CaptureGetRenderWidth 256
  /\ getRenderHeight (engine (world s1)) = CaptureGetRenderHeight 256
  /\ callRenderSize Sample.renderWidth800 Sample.renderHeight400
       (getRenderWidth bound) bound false = of_Z 64
  /\ callRenderSize Sample.renderWidth800 Sample.renderHeight400
       (getRenderHeight bound) bound true = of_Z 256.
Proof.
  intros r s1 bound.
  eassert (E : r = (Some _, _)) by reflexivity.
  destruct (capture_render_size_override Sample.aspectRatio2 Sample.renderWidth800
              Sample.renderHeight400 Sample.renderReturns Sample.dumpReturns None
              _ _ _ _ _ _ _ E) as (_ & Hbefore & Hcall).
  destruct (proj1 (Hbefore [RetryTick 0 ConditionFails] eq_refl)) as [Hw Hh].
  split; [discriminate |]. split; [reflexivity |].
  split; [exact Hw |]. split; [exact Hh |].
  split.
  - exact (proj1 (Hcall bound false (conj eq_refl eq_refl))).
  - exact (proj2 (Hcall bound true (conj eq_refl eq_refl))).
Defined.

Lemma zero_size_is_refused_witness :
  let r := sampleCreate Sample.world0 2%nat (SizeNumber (of_Z 0)) Sample.options0 7%nat in
  height (sampleSize (engine Sample.world0) 2%nat (SizeNumber (of_Z 0))) = 0
  /\ fst r = None
  /\ capture_run Sample.renderReturns Sample.dumpReturns r
       [RetryTick 0 ConditionHolds; EndFrame]
     = {| world := Sample.world0; pending := [];
          trace := [LoggerError "Invalid 'size' parameter !"] |}.
Proof.
  intros r. split; [reflexivity |].
  destruct (zero_size_is_refused Sample.aspectRatio2 Sample.renderWidth800
              Sample.renderHeight400 Sample.renderReturns Sample.dumpReturns None
              Sample.world0 2%nat (SizeNumber (of_Z 0)) Sample.options0 7%nat
              (or_introl eq_refl)) as [Hnone Hrun].
  split; [exact Hnone | exact (Hrun [RetryTick 0 ConditionHolds; EndFrame])].
Defined.

Lemma scene_and_accessors_restored_witness :
  let r := sampleCreate Sample.world0 2%nat (SizeNumber (of_Z 256)) Sample.options0 7%nat in
  let s' := capture_run Sample.renderThrows Sample.dumpReturns r
              [RetryTick 0 ConditionHolds] in
  fst r <> None
  /\ In SceneRender (trace s')
  /\ activeCamera (scene (world s')) = Some 1%nat
  /\ activeCameras (scene (world s')) = Some [1%nat; 2%nat]
  /\ outputRenderTarget (world s') !! 2%nat = Some 5%nat
  /\ spritesEnabled (scene (world s')) = true
  /\ meshes (scene (world s')) = [10%nat; 11%nat]
  /\ getRenderWidth (engine (world s')) = EngineGetRenderWidth
  /\ getRenderHeight (engine (world s')) = EngineGetRenderHeight
  /\ skipFrameRender (engine (world s')) = false.
Proof.
  intros r s'.
  eassert (E : r = (Some _, _)) by reflexivity.
  assert (Hin : In SceneRender (trace s')) by (vm_compute; tauto).
  split; [discriminate |]. split; [exact Hin |].
  exact (scene_and_accessors_restored Sample.aspectRatio2 Sample.renderWidth800
           Sample.renderHeight400 Sample.renderThrows Sample.dumpReturns None
           _ _ _ _ _ _ _ [RetryTick 0 ConditionHolds] E Hin).
Defined.

Lemma one_texture_one_render_witness :
  let r := sampleCreate Sample.world0 2%nat (SizeNumber (of_Z 256)) Sample.options0 7%nat in
  let evs := [RetryTick 0 ConditionFails; RetryTick 0 ConditionHolds; EndFrame] in
  let tr :=
    trace (capture_run Sample.renderReturns Sample.dumpReturns r
             (evs ++ ReadPixelsSettled 0 (Some [1; 2; 3]) :: [EndFrame; EffectCompiled])) in
  fst r <> None
  /\ antialiasing Sample.options0 = false
  /\ pending (capture_run Sample.renderReturns Sample.dumpReturns r evs) !! 0%nat
     = Some AwaitReadPixels
  /\ count isNewRenderTargetTexture tr = 1%nat
  /\ In (NewRenderTargetTexture 7%nat 256 256 false 1) tr
  /\ (count isSceneRender tr <= 1)%nat
  /\ count isDisposeRenderTarget tr = 1%nat.
Proof.
  intros r evs tr.
  eassert (E : r = (Some _, _)) by reflexivity.
  destruct (one_texture_one_render Sample.aspectRatio2 Sample.renderWidth800
              Sample.renderHeight400 Sample.renderReturns Sample.dumpReturns None
              _ _ _ _ _ _ _ E) as (Hall & _ & Hdisp & _).
  split; [discriminate |]. split; [reflexivity |]. split; [reflexivity |].
  destruct (Hall (evs ++ ReadPixelsSettled 0 (Some [1; 2; 3]) :: [EndFrame; EffectCompiled]))
    as (H1 & H2 & _ & _ & H5 & H6).
  destruct (H5 (H6 eq_refl)) as (_ & H7 & _).
  destruct (Hdisp evs 0%nat [1; 2; 3] eq_refl) as [_ H8].
  split; [exact H1 |]. split; [exact H2 |]. split; [exact H7 |].
  exact (H8 (proj2 (proj2 (proj2 (proj2 (proj2 (Hall evs))))) eq_refl)
            [EndFrame; EffectCompiled]).
Defined.

Lemma readback_direct_or_resized_witness :
  let r := sampleCreate Sample.world0 2%nat (SizeObject size100x50to400x200)
             Sample.options0 7%nat in
  let s1 := capture_run Sample.renderReturns Sample.dumpReturns r
              [RetryTick 0 ConditionHolds] in
  fst r <> None
  /\ pending s1 !! 0%nat = Some AwaitEndFrame
  /\ endFrameObservers (pending s1) = 1%nat
  /\ In (NewRenderTargetTexture 7%nat 100 50 false 1) (trace (snd r))
  /\ trace (capture_run Sample.renderReturns Sample.dumpReturns r
              [RetryTick 0 ConditionHolds; EndFrame; ImportSettled 0 true;
               ApplyPostProcessSettled 0 (Some 9%nat);
               ReadTexturePixelsSettled 0 (Some [1; 2; 3])])
     = trace s1
         ++ [ImportPassFragment false; ApplyPostProcess 7%nat 400 200;
             ReadTexturePixels 9%nat 400 200;
             DumpData 400 200 [1; 2; 3] "image/png" None true None]
         ++ [DisposeInternalTexture 9%nat].
Proof.
  intros r s1.
  eassert (E : r = (Some _, _)) by reflexivity.
  destruct (readback_direct_or_resized Sample.aspectRatio2 Sample.renderWidth800
              Sample.renderHeight400 Sample.renderReturns Sample.dumpReturns None
              _ _ _ _ _ _ _ E) as (Hread & Hex).
  destruct (Hex eq_refl) as [_ Hnew].
  destruct (Hread [RetryTick 0 ConditionHolds] 0%nat eq_refl)
    as (_ & _ & Hone & _ & Hresize).
  split; [vm_compute; discriminate |]. split; [reflexivity |].
  split; [exact (Hone eq_refl) |]. split; [exact Hnew |].
  apply (Hresize ltac:(intros [Hw _]; vm_compute in Hw; discriminate Hw)
           9%nat [1; 2; 3]).
Defined.

Lemma antialiasing_defers_render_to_texture_witness :
  let r := sampleCreate Sample.world0 2%nat (SizeNumber (of_Z 256)) Sample.optionsFxaa 7%nat in
  let run := capture_run Sample.renderReturns Sample.dumpReturns r in
  fst r <> None
  /\ antialiasing Sample.optionsFxaa = true
  /\ count isRetryWithInterval (trace (snd r)) = 0%nat
  /\ run [EndFrame; EffectCompiled; RetryTick 0 ConditionHolds] = snd r
  /\ count isRetryWithInterval
       (trace (run [EffectCreated false; EndFrame; RetryTick 0 ConditionHolds])) = 0%nat
  /\ count isRetryWithInterval
       (trace (run [EffectCreated false; EndFrame; EffectCompiled; EffectCreated true]))
     = 1%nat
  /\ count isRetryWithInterval
       (trace (run [EffectCreated true; EffectCompiled; EndFrame])) = 1%nat.
Proof.
  intros r run.
  eassert (E : r = (Some _, _)) by reflexivity.
  destruct (antialiasing_defers_render_to_texture Sample.aspectRatio2
              Sample.renderWidth800 Sample.renderHeight400 Sample.renderReturns
              Sample.dumpReturns None _ _ _ _ _ _ _ E) as (_ & _ & Haa).
  destruct (Haa eq_refl) as (H0 & Hwait & Hcomp & _ & _ & Hready).
  split; [discriminate |]. split; [reflexivity |]. split; [exact H0 |].
  split; [exact (Hwait [EndFrame; EffectCompiled; RetryTick 0 ConditionHolds] eq_refl) |].
  split; [exact (proj1 (proj2 (Hcomp [EndFrame; RetryTick 0 ConditionHolds]))) |].
  split; [exact (proj1 (proj2 (Hcomp [EndFrame; EffectCompiled; EffectCreated true]))) |].
  exact (Hready [EffectCompiled; EndFrame]).
Defined.

Lemma register_replaces_unregister_reports_witness :
  let r : GLTF.Registry nat :=
    {| GLTF.RegisteredGLTFExtensions :=
         {[ "KHR_draco_mesh_compression" :=
              {| GLTF.isGLTFExtension := true; GLTF.factory := 1%nat |} ]};
       GLTF.warnings := [] |} in
  let r' := GLTF.registerGLTFExtension "KHR_draco_mesh_compression" false 2%nat r in
  "KHR_lights_punctual" <> "KHR_draco_mesh_compression"
  /\ GLTF.RegisteredGLTFExtensions r' !! "KHR_draco_mesh_compression"
     = Some {| GLTF.isGLTFExtension := false; GLTF.factory := 2%nat |}
  /\ GLTF.RegisteredGLTFExtensions r' !! "KHR_lights_punctual" = None
  /\ GLTF.warnings r'
     = ["Extension with the name 'KHR_draco_mesh_compression' already exists"]
  /\ (fst (GLTF.unregisterGLTFExtension "KHR_draco_mesh_compression" r) = true
      <-> is_Some (GLTF.RegisteredGLTFExtensions r !! "KHR_draco_mesh_compression")).
Proof.
  intros r r'.
  destruct (register_replaces_unregister_reports "KHR_draco_mesh_compression"
              false 2%nat r) as (H1 & H2 & H3 & _ & H5 & _).
  assert (Hne : "KHR_lights_punctual" <> "KHR_draco_mesh_compression")
    by discriminate.
  split; [exact Hne |]. split; [exact H1 |].
  split; [exact (H2 "KHR_lights_punctual" Hne) |].
  split; [exact H3 | exact H5].
Defined.

(** ** Where the code departs from the claims as they are worded *)

(** C1 as worded fails: a capture started while the owner of the engine
    had set skipFrameRender leaves the flag false after the render pass;
    the flag is reset, not restored. *)
Lemma skipFrameRender_is_reset_not_restored :
  let r := sampleCreate Sample.worldSkipping 2%nat (SizeNumber (of_Z 256))
             Sample.options0 7%nat in
  let s' := capture_run Sample.renderReturns Sample.dumpReturns r
              [RetryTick 0 ConditionHolds] in
  fst r <> None
  /\ In SceneRender (trace s')
  /\ skipFrameRender (engine Sample.worldSkipping) = true
  /\ skipFrameRender (engine (world s')) = false
  /\ skipFrameRender (engine (world s')) <> skipFrameRender (engine Sample.worldSkipping).
Proof.
  intros r s'. split; [discriminate |]. split; [vm_compute; tauto |].
  split; [reflexivity |]. split; [reflexivity |]. discriminate.
Qed.

(** C2 as worded fails: when the promise of readPixels is rejected after
    the render pass, nothing is left registered and the one texture that
    was allocated has not been disposed. *)
Lemma rejected_read_leaves_texture_undisposed :
  let r := sampleCreate Sample.world0 2%nat (SizeNumber (of_Z 256)) Sample.options0 7%nat in
  let s' := capture_run Sample.renderReturns Sample.dumpReturns r
              [RetryTick 0 ConditionHolds; EndFrame; ReadPixelsSettled 0 None] in
  fst r <> None
  /\ pending s' = [Idle]
  /\ In (NewRenderTargetTexture 7%nat 256 256 false 1) (trace s')
  /\ count isSceneRender (trace s') = 1%nat
  /\ ~ In (DisposeRenderTarget 7%nat) (trace s')
  /\ count isDisposeRenderTarget (trace s') = 0%nat.
Proof.
  intros r s'. split; [discriminate |]. split; [reflexivity |].
  split; [vm_compute; tauto |]. split; [reflexivity |].
  split; [| reflexivity].
  vm_compute. intros H. repeat (destruct H as [H | H]; [discriminate H |]). exact H.
Qed.

(** C3 as worded fails: [{width: 0}] does not resolve to zero.  The width 0
    counts as absent, the size comes from the render width of the engine
    and the aspect ratio, no error is logged and the capture starts,
    changing the engine. *)
Lemma width_zero_starts_a_capture :
  let r := sampleCreate Sample.world0 2%nat (Sample.widthObject 0) Sample.options0 7%nat in
  sampleSize (engine Sample.world0) 2%nat (Sample.widthObject 0)
    = {| height := 400; width := 800; finalWidth := 800; finalHeight := 400 |}
  /\ fst r <> None
  /\ trace (snd r)
     = [NotifyResizeObservers; NewRenderTargetTexture 7%nat 800 400 false 1;
        RetryWithInterval]
  /\ skipFrameRender (engine Sample.world0) = false
  /\ skipFrameRender (engine (world (snd r))) = true
  /\ getRenderWidth (engine (world (snd r))) = CaptureGetRenderWidth 800
  /\ world (snd r) <> Sample.world0.
Proof.
  intros r. split; [vm_compute; reflexivity |].
  split; [vm_compute; discriminate |].
  split; [vm_compute; reflexivity |]. split; [reflexivity |].
  split; [vm_compute; reflexivity |]. split; [vm_compute; reflexivity |].
  intros H. apply (f_equal (fun w => skipFrameRender (engine w))) in H.
  vm_compute in H. discriminate H.
Qed.

(** C7 as worded fails: with antialiasing and an effect that is not ready
    when it is created, the render to the texture runs again at every
    later completion of a compilation of the effect.  After two
    completions _RetryWithInterval has been called twice, and when both
    readiness conditions have held two render passes have run. *)
Lemma second_compilation_renders_again :
  let r := sampleCreate Sample.world0 2%nat (SizeNumber (of_Z 256)) Sample.optionsFxaa 7%nat in
  let s' := capture_run Sample.renderReturns Sample.dumpReturns r
              [EffectCreated false; EffectCompiled; EffectCompiled;
               RetryTick 1 ConditionHolds; RetryTick 2 ConditionHolds] in
  fst r <> None
  /\ antialiasing Sample.optionsFxaa = true
  /\ pending s' = [AwaitCompiled; AwaitEndFrame; AwaitEndFrame]
  /\ count isNewRenderTargetTexture (trace s') = 1%nat
  /\ count isRetryWithInterval (trace s') = 2%nat
  /\ count isSceneRender (trace s') = 2%nat.
Proof.
  intros r s'. split; [discriminate |]. repeat split; reflexivity.
Qed.

(** C10 as worded fails: the dimensions are passed through [| 0], which
    wraps to 32 bits.  With the precision -2 the width 2000000000 computes
    4000000000, which is returned as -294967296. *)
Lemma large_width_wraps_to_negative :
  let size :=
    {| size_precision := Some (Fin (-2)%Q);
       size_width := Some (of_Z 2000000000); size_height := Some (of_Z 10);
       size_finalWidth := None; size_finalHeight := None |} in
  let sz := sampleSize Sample.engine0 2%nat (SizeObject size) in
  raw_width (resolveSize Sample.aspectRatio2 Sample.renderWidth800
               Sample.renderHeight400 Sample.engine0 2%nat (SizeObject size))
    = Fin 4000000000%Q
  /\ width sz = -294967296
  /\ height sz = 20
  /\ width sz < 0.
Proof.
  intros size sz. assert (Hw : width sz = -294967296) by (vm_compute; reflexivity).
  split; [vm_compute; reflexivity |]. split; [exact Hw |].
  split; [vm_compute; reflexivity |]. rewrite Hw. reflexivity.
Qed.

(** ** CreateScreenshot *)

Section CreateScreenshot.

Variable getAspectRatio : AbstractEngine -> CameraId -> number.
Variable engineGetRenderWidth : AbstractEngine -> bool -> number.
Variable engineGetRenderHeight : AbstractEngine -> bool -> number.

(** The width or height which a canvas reports once an integer has been
    assigned to it: the canvas is code of the browser. *)
Variable assigned : Z -> number.

(** How CreateScreenshot returns: the size was refused; or the camera is not
    the active camera of its scene and CreateScreenshotUsingRenderTarget was
    called; or an observer was added once to the end of the frame, with the
    width and height it closes over. *)
Inductive ScreenshotStart : Type :=
  | Refused
  | UsingRenderTarget (r : option Capture * Running)
  | AtEndFrame (width height : Z).

(** [antialias] is [engine.getCreationOptions().antialias], which may be
    [undefined]; [texture] names the render target texture that the
    delegate creates. *)
Definition CreateScreenshot (w : World) (camera : CameraId)
    (size : ScreenshotSizeArg) (o : ScreenshotOptions) (antialias : option bool)
    (texture : TextureId) : ScreenshotStart * list CanvasCall :=
  let sz := GetScreenshotSize getAspectRatio engineGetRenderWidth
              engineGetRenderHeight (engine w) camera size in
  if negb (negb (height sz =? 0) && negb (width sz =? 0)) then
    (Refused, [CanvasLoggerError "Invalid 'size' parameter !"])
  else if negb (bool_decide (activeCamera (scene w) = Some camera)) then
    (UsingRenderTarget
       (CreateScreenshotUsingRenderTarget getAspectRatio engineGetRenderWidth
          engineGetRenderHeight None w camera size
          {| mimeType := cs_mimeType o; samples := 1;
             antialiasing := match antialias with Some b => b | None => false end;
             fileName := None; renderSprites := false;
             enableStencilBuffer := false; useLayerMask := true;
             quality := cs_quality o |}
          texture), [])
  else (AtEndFrame (width sz) (height sz), []).

(** The observer of the end of the frame: the module variable
    [screenshotCanvas] after it, and the calls it makes. *)
Definition drawAtEndFrame (o : ScreenshotOptions) (width height : Z) (page : Page)
    (screenshotCanvas : ScreenshotCanvas) : ScreenshotCanvas * list CanvasCall :=
  let created :=
    match screenshotCanvas with
    | None => [CreateCanvasElement]
    | Some _ => []
    end in
  let screenshotCanvas := Some (width, height) in
  match renderContext page, renderingCanvas page with
  | true, Some (srcWidth, srcHeight) =>
      let destWidth := assigned width in
      let destHeight := assigned height in
      let p := placeImage srcWidth srcHeight destWidth destHeight (useFill o) in
      let draw :=
        DrawImage (of_Z 0) (of_Z 0) srcWidth srcHeight
          (offsetX p) (offsetY p) (newWidth p) (newHeight p) in
      let encode :=
        if forceDownload o
        then EncodeScreenshotCanvasData false (cs_mimeType o) (cs_quality o)
               :: (if successCallback o then [CallSuccessCallback EmptyString] else [])
        else [EncodeScreenshotCanvasData (successCallback o) (cs_mimeType o)
                (cs_quality o)] in
      (screenshotCanvas, created ++ draw :: encode)
  | _, _ =>
      (screenshotCanvas,
       created ++ [CanvasLoggerError
         "Failed to create screenshot. Rendering context or rendering canvas is not available."])
  end.

(** Screenshots taken one after the other: each is the observer of one end
    of frame, with its options, its size and the page it finds. *)
Definition Shot : Type := ScreenshotOptions * (Z * Z) * Page.

Fixpoint drawShots (shots : list Shot) (screenshotCanvas : ScreenshotCanvas)
    : ScreenshotCanvas * list CanvasCall :=
  match shots with
  | [] => (screenshotCanvas, [])
  | (o, (width, height), page) :: shots =>
      let '(screenshotCanvas, calls) :=
        drawAtEndFrame o width height page screenshotCanvas in
      let '(screenshotCanvas, calls') := drawShots shots screenshotCanvas in
      (screenshotCanvas, calls ++ calls')
  end.

(** The page has both a 2D context and a rendering canvas. *)
Definition complete (page : Page) : bool :=
  match renderingCanvas page with
  | Some _ => renderContext page
  | None => false
  end.

Definition countCanvas (f : CanvasCall -> bool) (calls : list CanvasCall) : nat :=
  length (List.filter f calls).

Definition isCreateCanvasElement (x : CanvasCall) : bool :=
  match x with CreateCanvasElement => true | _ => false end.
Definition isDrawImage (x : CanvasCall) : bool :=
  match x with DrawImage _ _ _ _ _ _ _ _ => true | _ => false end.
Definition isEncode (x : CanvasCall) : bool :=
  match x with EncodeScreenshotCanvasData _ _ _ => true | _ => false end.
Definition isCanvasLoggerError (x : CanvasCall) : bool :=
  match x with CanvasLoggerError _ => true | _ => false end.

(** The success callback is put to use: handed to the encoder, or called. *)
Definition usesCallback (x : CanvasCall) : bool :=
  match x with
  | EncodeScreenshotCanvasData true _ _ | CallSuccessCallback _ => true
  | _ => false
  end.

(** The shots that find a complete page, and those of them that were given
    a success callback. *)
Definition completeShots (shots : list Shot) : nat :=
  length (List.filter (fun s : Shot => complete (snd s)) shots).
Definition completeShotsWithCallback (shots : list Shot) : nat :=
  length (List.filter
            (fun s : Shot => complete (snd s) && successCallback (fst (fst s))) shots).

(** *** CreateScreenshotAsync and CreateScreenshotWithResizeAsync

    Both pass a success callback that settles the promise they return. *)

(** The arguments that CreateScreenshotAsync passes on: [forceDownload] is
    [undefined]. *)
Definition asyncOptions (mimeType : string) (quality : option number)
    (useFill : bool) : ScreenshotOptions :=
  {| successCallback := true; cs_mimeType := mimeType; forceDownload := false;
     cs_quality := quality; useFill := useFill |}.

Definition CreateScreenshotAsync (w : World) (camera : CameraId)
    (size : ScreenshotSizeArg) (mimeType : string) (quality : option number)
    (useFill : bool) (antialias : option bool) (texture : TextureId)
    : ScreenshotStart * list CanvasCall :=
  CreateScreenshot w camera size (asyncOptions mimeType quality useFill)
    antialias texture.

(** The arguments that CreateScreenshotWithResizeAsync passes on:
    [forceDownload] is [true] and the size is [{ width, height }]. *)
Definition resizeOptions (mimeType : string) (quality : option number)
    (useFill : bool) : ScreenshotOptions :=
  {| successCallback := true; cs_mimeType := mimeType; forceDownload := true;
     cs_quality := quality; useFill := useFill |}.

Definition widthAndHeight (width height : number) : IScreenshotSize :=
  {| size_precision := None; size_width := Some width; size_height := Some height;
     size_finalWidth := None; size_finalHeight := None |}.

Definition CreateScreenshotWithResizeAsync (w : World) (camera : CameraId)
    (width height : number) (mimeType : string) (quality : option number)
    (useFill : bool) (antialias : option bool) (texture : TextureId)
    : ScreenshotStart * list CanvasCall :=
  CreateScreenshot w camera (SizeObject (widthAndHeight width height))
    (resizeOptions mimeType quality useFill) antialias texture.

(** *** The observer of the end of the frame *)

Lemma countCanvas_app (f : CanvasCall -> bool) (l1 l2 : list CanvasCall) :
  countCanvas f (l1 ++ l2) = (countCanvas f l1 + countCanvas f l2)%nat.
Proof. unfold countCanvas. now rewrite List.filter_app, length_app. Qed.

Lemma drawAtEndFrame_counts (o : ScreenshotOptions) (width height : Z) (page : Page)
    (screenshotCanvas : ScreenshotCanvas) :
  let r := drawAtEndFrame o width height page screenshotCanvas in
  fst r = Some (width, height)
  /\ countCanvas isCreateCanvasElement (snd r)
     = (match screenshotCanvas with None => 1 | Some _ => 0 end)%nat
  /\ countCanvas isDrawImage (snd r) = (if complete page then 1 else 0)%nat
  /\ countCanvas isEncode (snd r) = (if complete page then 1 else 0)%nat
  /\ countCanvas isCanvasLoggerError (snd r) = (if complete page then 0 else 1)%nat
  /\ countCanvas usesCallback (snd r)
     = (if complete page && successCallback o then 1 else 0)%nat.
Proof.
  unfold drawAtEndFrame, complete.
  destruct page as [ctx [[sw sh] |]], screenshotCanvas as [cv |], o as [cb mt fd q uf];
    destruct ctx, cb, fd; cbn; repeat split; reflexivity.
Qed.

(** X14: Over any number of screenshots of the canvas path taken one after the
    other, the screenshot canvas is created once, by the first one if there
    was none, and reused.  Each observer that finds a 2D context and a
    rendering canvas draws once and calls the encoder once, and puts the
    success callback to use once if it was given one; each other observer
    logs one error and neither draws nor encodes nor calls the success
    callback. *)
Theorem screenshot_canvas_is_reused (shots : list Shot)
    (screenshotCanvas : ScreenshotCanvas) :
  let calls := snd (drawShots shots screenshotCanvas) in
  countCanvas isCreateCanvasElement calls
  = (match screenshotCanvas, shots with
     | None, _ :: _ => 1
     | _, _ => 0
     end)%nat
  /\ countCanvas isDrawImage calls = completeShots shots
  /\ countCanvas isEncode calls = completeShots shots
  /\ (countCanvas isCanvasLoggerError calls + completeShots shots)%nat = length shots
  /\ countCanvas usesCallback calls = completeShotsWithCallback shots.
Proof.
  revert screenshotCanvas.
  induction shots as [| [[o [width height]] page] shots IH]; intros screenshotCanvas.
  - destruct screenshotCanvas; cbn; repeat split; reflexivity.
  - cbn [drawShots].
    pose proof (drawAtEndFrame_counts o width height page screenshotCanvas) as Hd.
    cbv zeta in Hd.
    destruct (drawAtEndFrame o width height page screenshotCanvas) as [cv calls].
    cbn [fst snd] in Hd. destruct Hd as (Hcv & H1 & H2 & H3 & H4 & H5). subst cv.
    specialize (IH (Some (width, height))). cbv zeta in IH.
    destruct (drawShots shots (Some (width, height))) as [cv' calls'].
    cbn [fst snd] in *. destruct IH as (I1 & I2 & I3 & I4 & I5).
    rewrite !countCanvas_app, H1, H2, H3, H4, H5.
    unfold completeShots, completeShotsWithCallback in *.
    cbn [List.filter fst snd length].
    assert (I1' : countCanvas isCreateCanvasElement calls' = 0%nat)
      by (rewrite I1; destruct shots; reflexivity).
    destruct (complete page), (successCallback o), screenshotCanvas;
      cbn [andb length]; repeat split; lia.
Qed.

(** *** How CreateScreenshot returns *)

(** X15: CreateScreenshot refuses a size exactly when it resolves to zero in a
    dimension.  With the active camera of the scene it only adds an
    observer to the end of the frame: the world is not touched.  With any
    other camera it starts a capture to a render target of the same size,
    with one sample, without sprites and stencil buffer, and with the layer
    mask of the camera; that capture is never refused, and [useFill],
    [forceDownload] and the presence of a success callback have no bearing
    on how it is started. *)
Theorem CreateScreenshot_dispatch (w : World) (camera : CameraId)
    (size : ScreenshotSizeArg) (o : ScreenshotOptions) (antialias : option bool)
    (texture : TextureId) :
  let sz := GetScreenshotSize getAspectRatio engineGetRenderWidth
              engineGetRenderHeight (engine w) camera size in
  let r := CreateScreenshot w camera size o antialias texture in
  (validSize sz = false ->
   r = (Refused, [CanvasLoggerError "Invalid 'size' parameter !"]))
  /\ (validSize sz = true -> activeCamera (scene w) = Some camera ->
      r = (AtEndFrame (width sz) (height sz), []))
  /\ (validSize sz = true -> activeCamera (scene w) <> Some camera ->
      exists (c : Capture) (s : Running),
        r = (UsingRenderTarget (Some c, s), [])
        /\ cap_size c = sz /\ cap_camera c = camera
        /\ samples (cap_options c) = 1%nat
        /\ renderSprites (cap_options c) = false
        /\ enableStencilBuffer (cap_options c) = false
        /\ useLayerMask (cap_options c) = true
        /\ fileName (cap_options c) = None
        /\ In (NewRenderTargetTexture texture (width sz) (height sz) false 1) (trace s)
        /\ forall o' : ScreenshotOptions,
             cs_mimeType o' = cs_mimeType o -> cs_quality o' = cs_quality o ->
             CreateScreenshot w camera size o' antialias texture = r).
Proof.
  intros sz r. subst r. unfold CreateScreenshot. fold sz.
  change (negb (negb (height sz =? 0) && negb (width sz =? 0)))
    with (negb (validSize sz)).
  split; [| split].
  - intros Hv. now rewrite Hv.
  - intros Hv Hcam. rewrite Hv. cbn [negb].
    now rewrite bool_decide_eq_true_2 by exact Hcam.
  - intros Hv Hcam. rewrite Hv. cbn [negb].
    rewrite bool_decide_eq_false_2 by exact Hcam. cbn [negb].
    match goal with
    | |- context [CreateScreenshotUsingRenderTarget ?a ?b ?c ?d ?e ?f ?g ?h ?i] =>
        destruct (CreateScreenshotUsingRenderTarget a b c d e f g h i)
          as [[c0 |] s0] eqn:E
    end.
    + pose proof (Create_started _ _ _ _ _ _ _ _ _ _ _ E) as Hs. cbv zeta in Hs.
      fold sz in Hs.
      destruct Hs as (_ & Hsz & Hc & _ & Ho & _ & _ & _ & _ & _ & _ & Htr).
      exists c0, s0. rewrite Ho. cbn [samples renderSprites enableStencilBuffer
                                      useLayerMask fileName].
      repeat split; try assumption.
      * rewrite Htr. cbn [enableStencilBuffer samples].
        apply in_app_iff. right. now left.
      * intros o' Hm Hq. rewrite Hm, Hq, E. reflexivity.
    + exfalso.
      destruct (Create_valid_starts getAspectRatio engineGetRenderWidth
                  engineGetRenderHeight None w camera size
                  {| mimeType := cs_mimeType o; samples := 1;
                     antialiasing := match antialias with Some b => b | None => false end;
                     fileName := None; renderSprites := false;
                     enableStencilBuffer := false; useLayerMask := true;
                     quality := cs_quality o |} texture Hv) as (c1 & s1 & E1).
      rewrite E1 in E. discriminate E.
Qed.

(** *** The promises of the canvas path *)

Lemma mul_one_double (q : Q) :
  isDouble q = true ->
  exists r : Q, mul (Fin q) (of_Z 1) = Fin r /\ (r == q)%Q.
Proof.
  unfold isDouble, mul, of_Z, round64. intros H.
  rewrite (roundBinary_comp 53 (-1074) 1024 (q * inject_Z 1) q)
    by (change (inject_Z 1) with 1%Q; apply Qmult_1_r).
  destruct (roundBinary 53 (-1074) 1024 q) as [| |r]; try discriminate H.
  exists r. split; [reflexivity | now apply Qeq_bool_iff].
Qed.

Lemma GetScreenshotSize_widthAndHeight (engine : AbstractEngine) (camera : CameraId)
    (qw qh : Q) :
  (0 < qw)%Q -> (0 < qh)%Q -> isDouble qw = true -> isDouble qh = true ->
  GetScreenshotSize getAspectRatio engineGetRenderWidth engineGetRenderHeight
    engine camera (SizeObject (widthAndHeight (Fin qw) (Fin qh)))
  = {| height := wrap32 (Qfloor qh); width := wrap32 (Qfloor qw);
       finalWidth := wrap32 (Qfloor qw); finalHeight := wrap32 (Qfloor qh) |}.
Proof.
  intros Hw Hh Dw Dh.
  destruct (mul_one_double qw Dw) as (rw & Ew & Qw).
  destruct (mul_one_double qh Dh) as (rh & Eh & Qh).
  unfold GetScreenshotSize, resolveSize, widthAndHeight.
  cbn [size_precision size_width size_height size_finalWidth size_finalHeight
       truthy_opt to_number truthy].
  rewrite (Qlt_0_Qeq_bool qw Hw), (Qlt_0_Qeq_bool qh Hh).
  cbn [negb andb]. rewrite Ew, Eh.
  cbn [raw_width raw_height raw_finalWidth raw_finalHeight].
  rewrite !ToInt32_floorIfSet. unfold floor32.
  rewrite (Qfloor_comp rw qw Qw), (Qfloor_comp rh qh Qh). reflexivity.
Qed.

(** X16: CreateScreenshotWithResizeAsync and CreateScreenshotAsync on the canvas
    path, for a width and a height that are positive doubles.  The two
    functions return alike.  The dimensions are the floors of the width and
    of the height wrapped to 32 bits.  When one of them is zero, which it is
    when the width or the height is below 1, the size is refused and the
    success callback is dropped: the promise is never settled.  Otherwise
    the observer of the end of the frame gets the two dimensions, which are
    the floors themselves when the width and the height are at least 1 and
    their floors are below 2^31.  With a complete page the two functions
    make the same calls up to the encoder, then
    CreateScreenshotWithResizeAsync keeps the callback from the encoder and
    calls it itself, so its promise is resolved before anything is encoded,
    while CreateScreenshotAsync hands the callback to the encoder and does
    not call it. *)
Theorem canvas_promises_settle (w : World) (camera : CameraId) (qw qh : Q)
    (mimeType : string) (quality : option number) (useFill : bool)
    (antialias : option bool) (texture : TextureId) (page : Page)
    (screenshotCanvas : ScreenshotCanvas) :
  activeCamera (scene w) = Some camera ->
  (0 < qw)%Q -> (0 < qh)%Q -> isDouble qw = true -> isDouble qh = true ->
  let resize :=
    CreateScreenshotWithResizeAsync w camera (Fin qw) (Fin qh) mimeType quality
      useFill antialias texture in
  let async :=
    CreateScreenshotAsync w camera (SizeObject (widthAndHeight (Fin qw) (Fin qh)))
      mimeType quality useFill antialias texture in
  let width := wrap32 (Qfloor qw) in
  let height := wrap32 (Qfloor qh) in
  async = resize
  /\ (width = 0 \/ height = 0 ->
      resize = (Refused, [CanvasLoggerError "Invalid 'size' parameter !"]))
  /\ (width <> 0 -> height <> 0 -> resize = (AtEndFrame width height, []))
  /\ ((qw < 1)%Q \/ (qh < 1)%Q -> width = 0 \/ height = 0)
  /\ ((1 <= qw)%Q -> (1 <= qh)%Q -> Qfloor qw < 2 ^ 31 -> Qfloor qh < 2 ^ 31 ->
      width = Qfloor qw /\ height = Qfloor qh /\ width <> 0 /\ height <> 0)
  /\ (forall width height : Z,
        complete page = true ->
        exists pre : list CanvasCall,
          snd (drawAtEndFrame (resizeOptions mimeType quality useFill)
                 width height page screenshotCanvas)
          = pre ++ [EncodeScreenshotCanvasData false mimeType quality;
                    CallSuccessCallback EmptyString]
          /\ snd (drawAtEndFrame (asyncOptions mimeType quality useFill)
                    width height page screenshotCanvas)
             = pre ++ [EncodeScreenshotCanvasData true mimeType quality]
          /\ countCanvas usesCallback pre = 0%nat).
Proof.
  intros Hcam Hw Hh Dw Dh resize async wd ht. subst resize async.
  unfold CreateScreenshotWithResizeAsync, CreateScreenshotAsync, CreateScreenshot.
  rewrite (GetScreenshotSize_widthAndHeight (engine w) camera qw qh Hw Hh Dw Dh).
  cbn [height width]. fold wd ht.
  rewrite (bool_decide_eq_true_2 _ Hcam). cbn [negb].
  split; [reflexivity |]. split; [| split; [| split; [| split]]].
  - intros Hz.
    assert (E : negb (ht =? 0) && negb (wd =? 0) = false).
    { apply andb_false_iff. destruct Hz as [Hz | Hz]; [right | left];
        rewrite Hz; reflexivity. }
    now rewrite E.
  - intros Hnw Hnh.
    assert (E : negb (ht =? 0) && negb (wd =? 0) = true).
    { apply andb_true_iff. split; apply negb_true_iff, Z.eqb_neq; assumption. }
    now rewrite E.
  - intros Hlt. subst wd ht. destruct Hlt as [Hlt | Hlt]; [left | right].
    + assert (E : Qfloor qw = 0)
        by (apply Qfloor_zero_iff; split; [apply Qlt_le_weak, Hw | exact Hlt]).
      rewrite E. reflexivity.
    + assert (E : Qfloor qh = 0)
        by (apply Qfloor_zero_iff; split; [apply Qlt_le_weak, Hh | exact Hlt]).
      rewrite E. reflexivity.
  - intros Hw1 Hh1 Hwr Hhr. subst wd ht.
    assert (Hfw : 1 <= Qfloor qw).
    { change 1 with (Qfloor 1%Q). apply Qfloor_resp_le, Hw1. }
    assert (Hfh : 1 <= Qfloor qh).
    { change 1 with (Qfloor 1%Q). apply Qfloor_resp_le, Hh1. }
    rewrite !wrap32_small by lia. repeat split; lia.
  - intros width' height' Hpage. unfold complete in Hpage. unfold drawAtEndFrame.
    destruct (renderingCanvas page) as [[srcWidth srcHeight] |]; [| discriminate Hpage].
    rewrite Hpage. cbn [resizeOptions asyncOptions forceDownload successCallback
                         cs_mimeType cs_quality snd].
    match goal with
    | |- context [?created ++ ?draw :: [EncodeScreenshotCanvasData false _ _; _]] =>
        exists (created ++ [draw])
    end.
    split; [| split].
    + rewrite <- app_assoc. reflexivity.
    + rewrite <- app_assoc. reflexivity.
    + rewrite countCanvas_app. destruct screenshotCanvas; reflexivity.
Qed.

End CreateScreenshot.

(** ** Further properties of the registry *)

(** Registrations made one after the other. *)
Fixpoint registerAll {Factory : Type} (exts : list (string * bool * Factory))
    (r : GLTF.Registry Factory) : GLTF.Registry Factory :=
  match exts with
  | [] => r
  | (name, isGLTFExtension, factory) :: exts =>
      registerAll exts (GLTF.registerGLTFExtension name isGLTFExtension factory r)
  end.

Lemma registerGLTFExtension_map {Factory : Type} (name : string) (b : bool)
    (f : Factory) (r : GLTF.Registry Factory) :
  GLTF.RegisteredGLTFExtensions (GLTF.registerGLTFExtension name b f r)
  = <[name := {| GLTF.isGLTFExtension := b; GLTF.factory := f |}]>
      (GLTF.RegisteredGLTFExtensions r).
Proof.
  unfold GLTF.registerGLTFExtension, GLTF.unregisterGLTFExtension.
  cbn [GLTF.RegisteredGLTFExtensions]. apply insert_delete_eq.
Qed.

Lemma registerGLTFExtension_warnings {Factory : Type} (name : string) (b : bool)
    (f : Factory) (r : GLTF.Registry Factory) :
  length (GLTF.warnings (GLTF.registerGLTFExtension name b f r))
  = match GLTF.RegisteredGLTFExtensions r !! name with
    | Some _ => S (length (GLTF.warnings r))
    | None => length (GLTF.warnings r)
    end.
Proof.
  unfold GLTF.registerGLTFExtension, GLTF.unregisterGLTFExtension.
  cbn [GLTF.RegisteredGLTFExtensions GLTF.warnings].
  destruct (GLTF.RegisteredGLTFExtensions r !! name) as [x |] eqn:E.
  - rewrite bool_decide_eq_true_2 by eauto. rewrite length_app. cbn. lia.
  - rewrite bool_decide_eq_false_2 by (intros [x Hx]; discriminate Hx). reflexivity.
Qed.

(** X17: Unregistering what was just registered: it returns [true]; when the
    name was not registered before, the map is the one from before the
    registration and no warning has been logged; and unregistering the
    name once more returns [false] and changes nothing. *)
Theorem register_unregister_round_trip {Factory : Type} (name : string)
    (b : bool) (f : Factory) (r : GLTF.Registry Factory) :
  let r1 := GLTF.registerGLTFExtension name b f r in
  let r2 := snd (GLTF.unregisterGLTFExtension name r1) in
  fst (GLTF.unregisterGLTFExtension name r1) = true
  /\ GLTF.RegisteredGLTFExtensions r2 = delete name (GLTF.RegisteredGLTFExtensions r)
  /\ (GLTF.RegisteredGLTFExtensions r !! name = None ->
      GLTF.RegisteredGLTFExtensions r2 = GLTF.RegisteredGLTFExtensions r
      /\ GLTF.warnings r2 = GLTF.warnings r)
  /\ fst (GLTF.unregisterGLTFExtension name r2) = false
  /\ snd (GLTF.unregisterGLTFExtension name r2) = r2.
Proof.
  intros r1 r2.
  assert (Hmap : GLTF.RegisteredGLTFExtensions r2
                 = delete name (GLTF.RegisteredGLTFExtensions r)).
  { subst r2 r1. unfold GLTF.unregisterGLTFExtension at 1.
    cbn [snd GLTF.RegisteredGLTFExtensions].
    rewrite registerGLTFExtension_map. apply delete_insert_eq. }
  split; [| split; [exact Hmap | split; [| split]]].
  - subst r1. unfold GLTF.unregisterGLTFExtension at 1. cbn [fst].
    apply bool_decide_eq_true_2. rewrite registerGLTFExtension_map.
    rewrite lookup_insert_eq. eauto.
  - intros Hnone. split.
    + rewrite Hmap. now apply delete_id.
    + subst r2 r1. unfold GLTF.registerGLTFExtension, GLTF.unregisterGLTFExtension.
      cbn [snd GLTF.warnings GLTF.RegisteredGLTFExtensions].
      rewrite bool_decide_eq_false_2; [reflexivity |].
      intros [x Hx]. rewrite Hnone in Hx. discriminate Hx.
  - unfold GLTF.unregisterGLTFExtension at 1. cbn [fst].
    apply bool_decide_eq_false_2. rewrite Hmap, lookup_delete_eq.
    intros [x Hx]. discriminate Hx.
  - unfold GLTF.unregisterGLTFExtension at 1. cbn [snd].
    destruct r2 as [m ws] eqn:E2. cbn [GLTF.RegisteredGLTFExtensions GLTF.warnings] in *.
    f_equal. apply delete_id. rewrite Hmap. apply lookup_delete_eq.
Qed.

(** X18: Every registration either adds a name to the map or logs one warning,
    never both and never neither: over any sequence of registrations, the
    number of names registered plus the number of warnings logged grows by
    the number of registrations.  After the sequence, a name that was
    registered last with some value maps to that value. *)
Theorem registrations_add_a_name_or_warn {Factory : Type}
    (exts : list (string * bool * Factory)) (r : GLTF.Registry Factory) :
  let r' := registerAll exts r in
  (size (GLTF.RegisteredGLTFExtensions r') + length (GLTF.warnings r')
   = size (GLTF.RegisteredGLTFExtensions r) + length (GLTF.warnings r)
     + length exts)%nat
  /\ (forall (before : list (string * bool * Factory)) (name : string) (b : bool)
        (f : Factory),
        exts = before ++ [(name, b, f)] ->
        GLTF.RegisteredGLTFExtensions r' !! name
        = Some {| GLTF.isGLTFExtension := b; GLTF.factory := f |}).
Proof.
  intros r'. subst r'. split.
  - revert r. induction exts as [| [[name b] f] exts IH]; intros r.
    + cbn. lia.
    + cbn [registerAll length]. rewrite IH.
      rewrite registerGLTFExtension_map, registerGLTFExtension_warnings,
        map_size_insert.
      destruct (GLTF.RegisteredGLTFExtensions r !! name); cbn; lia.
  - intros before name b f ->. revert r.
    induction before as [| [[n0 b0] f0] before IH]; intros r.
    + cbn [app registerAll]. rewrite registerGLTFExtension_map. apply lookup_insert_eq.
    + cbn [app registerAll]. apply IH.
Qed.

(** ** The audio engine

    A shallow embedding of the class AudioEngine (Audio/audioEngine.ts): its
    fields, the part of the page it writes to, the promises it waits for and
    the calls it makes. *)
Module Audio.

(** AudioContext.state. *)
Inductive ContextState : Type := suspended | running | closed.

(** The fields of the engine.  [_audioContext] is [None] for [null] and
    else holds the state that the context reports; [_muteButton] says
    whether the field holds a button; [masterGain] is the value that
    [masterGain.gain.value] reads; an observable is kept as the number of
    its observers. *)
Record AudioEngine : Type := {
  _audioContext : option ContextState;
  _audioContextInitialized : bool;
  _muteButton : bool;
  canUseWebAudio : bool;
  masterGain : number;
  WarnedWebAudioUnsupported : bool;
  unlocked : bool;
  useCustomUnlockedButton : bool;
  _connectedAnalyser : option nat;
  _tryToRun : bool;
  onAudioUnlockedObservers : nat;
  onAudioLockedObservers : nat;
}.

(** The promise that [_resumeAudioContextAsync] returns: the one of
    [AudioContext.resume()], or [Promise.resolve()]. *)
Inductive ResumeKind : Type := FromContext | AlreadyResolved.

Inductive AudioCall : Type :=
  | NotifyUnlocked (observers : nat)
  | NotifyLocked (observers : nat)
  | NewAudioContext
  | ContextResume
  | ContextSuspend
  | ContextClose
  | AudioLoggerError (msg : string)
  | AnalyserStopDebugCanvas (analyser : nat)
  | AnalyserDispose (analyser : nat)
  | AnalyserConnectAudioNodes (analyser : nat)
  | MasterGainDisconnect
  | MasterGainConnect.

(** The engine with what surrounds it: the mute buttons appended to
    [document.body], the style elements appended to the head, the listener
    of [resize] on the window, the continuations of
    [_triggerRunningStateAsync] that wait for their promise, oldest first,
    the continuations of [suspend()] that wait, and the calls made. *)
Record System : Type := {
  this : AudioEngine;
  muteButtonsInBody : nat;
  styleElementsInHead : nat;
  resizeListener : bool;
  pendingResumes : list ResumeKind;
  pendingSuspends : nat;
  calls : list AudioCall;
}.

(** Field assignments. *)
Definition set_audioContext (v : option ContextState) (e : AudioEngine) : AudioEngine :=
  {| _audioContext := v;
     _audioContextInitialized := _audioContextInitialized e;
     _muteButton := _muteButton e;
     canUseWebAudio := canUseWebAudio e;
     masterGain := masterGain e;
     WarnedWebAudioUnsupported := WarnedWebAudioUnsupported e;
     unlocked := unlocked e;
     useCustomUnlockedButton := useCustomUnlockedButton e;
     _connectedAnalyser := _connectedAnalyser e;
     _tryToRun := _tryToRun e;
     onAudioUnlockedObservers := onAudioUnlockedObservers e;
     onAudioLockedObservers := onAudioLockedObservers e |}.

Definition set_audioContextInitialized (v : bool) (e : AudioEngine) : AudioEngine :=
  {| _audioContext := _audioContext e;
     _audioContextInitialized := v;
     _muteButton := _muteButton e;
     canUseWebAudio := canUseWebAudio e;
     masterGain := masterGain e;
     WarnedWebAudioUnsupported := WarnedWebAudioUnsupported e;
     unlocked := unlocked e;
     useCustomUnlockedButton := useCustomUnlockedButton e;
     _connectedAnalyser := _connectedAnalyser e;
     _tryToRun := _tryToRun e;
     onAudioUnlockedObservers := onAudioUnlockedObservers e;
     onAudioLockedObservers := onAudioLockedObservers e |}.

Definition set_muteButton (v : bool) (e : AudioEngine) : AudioEngine :=
  {| _audioContext := _audioContext e;
     _audioContextInitialized := _audioContextInitialized e;
     _muteButton := v;
     canUseWebAudio := canUseWebAudio e;
     masterGain := masterGain e;
     WarnedWebAudioUnsupported := WarnedWebAudioUnsupported e;
     unlocked := unlocked e;
     useCustomUnlockedButton := useCustomUnlockedButton e;
     _connectedAnalyser := _connectedAnalyser e;
     _tryToRun := _tryToRun e;
     onAudioUnlockedObservers := onAudioUnlockedObservers e;
     onAudioLockedObservers := onAudioLockedObservers e |}.

Definition set_canUseWebAudio (v : bool) (e : AudioEngine) : AudioEngine :=
  {| _audioContext := _audioContext e;
     _audioContextInitialized := _audioContextInitialized e;
     _muteButton := _muteButton e;
     canUseWebAudio := v;
     masterGain := masterGain e;
     WarnedWebAudioUnsupported := WarnedWebAudioUnsupported e;
     unlocked := unlocked e;
     useCustomUnlockedButton := useCustomUnlockedButton e;
     _connectedAnalyser := _connectedAnalyser e;
     _tryToRun := _tryToRun e;
     onAudioUnlockedObservers := onAudioUnlockedObservers e;
     onAudioLockedObservers := onAudioLockedObservers e |}.

Definition set_masterGain (v : number) (e : AudioEngine) : AudioEngine :=
  {| _audioContext := _audioContext e;
     _audioContextInitialized := _audioContextInitialized e;
     _muteButton := _muteButton e;
     canUseWebAudio := canUseWebAudio e;
     masterGain := v;
     WarnedWebAudioUnsupported := WarnedWebAudioUnsupported e;
     unlocked := unlocked e;
     useCustomUnlockedButton := useCustomUnlockedButton e;
     _connectedAnalyser := _connectedAnalyser e;
     _tryToRun := _tryToRun e;
     onAudioUnlockedObservers := onAudioUnlockedObservers e;
     onAudioLockedObservers := onAudioLockedObservers e |}.

Definition set_WarnedWebAudioUnsupported (v : bool) (e : AudioEngine) : AudioEngine :=
  {| _audioContext := _audioContext e;
     _audioContextInitialized := _audioContextInitialized e;
     _muteButton := _muteButton e;
     canUseWebAudio := canUseWebAudio e;
     masterGain := masterGain e;
     WarnedWebAudioUnsupported := v;
     unlocked := unlocked e;
     useCustomUnlockedButton := useCustomUnlockedButton e;
     _connectedAnalyser := _connectedAnalyser e;
     _tryToRun := _tryToRun e;
     onAudioUnlockedObservers := onAudioUnlockedObservers e;
     onAudioLockedObservers := onAudioLockedObservers e |}.

Definition set_unlocked (v : bool) (e : AudioEngine) : AudioEngine :=
  {| _audioContext := _audioContext e;
     _audioContextInitialized := _audioContextInitialized e;
     _muteButton := _muteButton e;
     canUseWebAudio := canUseWebAudio e;
     masterGain := masterGain e;
     WarnedWebAudioUnsupported := WarnedWebAudioUnsupported e;
     unlocked := v;
     useCustomUnlockedButton := useCustomUnlockedButton e;
     _connectedAnalyser := _connectedAnalyser e;
     _tryToRun := _tryToRun e;
     onAudioUnlockedObservers := onAudioUnlockedObservers e;
     onAudioLockedObservers := onAudioLockedObservers e |}.

Definition set_connectedAnalyser (v : option nat) (e : AudioEngine) : AudioEngine :=
  {| _audioContext := _audioContext e;
     _audioContextInitialized := _audioContextInitialized e;
     _muteButton := _muteButton e;
     canUseWebAudio := canUseWebAudio e;
     masterGain := masterGain e;
     WarnedWebAudioUnsupported := WarnedWebAudioUnsupported e;
     unlocked := unlocked e;
     useCustomUnlockedButton := useCustomUnlockedButton e;
     _connectedAnalyser := v;
     _tryToRun := _tryToRun e;
     onAudioUnlockedObservers := onAudioUnlockedObservers e;
     onAudioLockedObservers := onAudioLockedObservers e |}.

Definition set_tryToRun (v : bool) (e : AudioEngine) : AudioEngine :=
  {| _audioContext := _audioContext e;
     _audioContextInitialized := _audioContextInitialized e;
     _muteButton := _muteButton e;
     canUseWebAudio := canUseWebAudio e;
     masterGain := masterGain e;
     WarnedWebAudioUnsupported := WarnedWebAudioUnsupported e;
     unlocked := unlocked e;
     useCustomUnlockedButton := useCustomUnlockedButton e;
     _connectedAnalyser := _connectedAnalyser e;
     _tryToRun := v;
     onAudioUnlockedObservers := onAudioUnlockedObservers e;
     onAudioLockedObservers := onAudioLockedObservers e |}.

Definition set_onAudioUnlockedObservers (v : nat) (e : AudioEngine) : AudioEngine :=
  {| _audioContext := _audioContext e;
     _audioContextInitialized := _audioContextInitialized e;
     _muteButton := _muteButton e;
     canUseWebAudio := canUseWebAudio e;
     masterGain := masterGain e;
     WarnedWebAudioUnsupported := WarnedWebAudioUnsupported e;
     unlocked := unlocked e;
     useCustomUnlockedButton := useCustomUnlockedButton e;
     _connectedAnalyser := _connectedAnalyser e;
     _tryToRun := _tryToRun e;
     onAudioUnlockedObservers := v;
     onAudioLockedObservers := onAudioLockedObservers e |}.

Definition set_onAudioLockedObservers (v : nat) (e : AudioEngine) : AudioEngine :=
  {| _audioContext := _audioContext e;
     _audioContextInitialized := _audioContextInitialized e;
     _muteButton := _muteButton e;
     canUseWebAudio := canUseWebAudio e;
     masterGain := masterGain e;
     WarnedWebAudioUnsupported := WarnedWebAudioUnsupported e;
     unlocked := unlocked e;
     useCustomUnlockedButton := useCustomUnlockedButton e;
     _connectedAnalyser := _connectedAnalyser e;
     _tryToRun := _tryToRun e;
     onAudioUnlockedObservers := onAudioUnlockedObservers e;
     onAudioLockedObservers := v |}.

Definition set_this (v : AudioEngine) (s : System) : System :=
  {| this := v;
     muteButtonsInBody := muteButtonsInBody s;
     styleElementsInHead := styleElementsInHead s;
     resizeListener := resizeListener s;
     pendingResumes := pendingResumes s;
     pendingSuspends := pendingSuspends s;
     calls := calls s |}.

Definition set_muteButtonsInBody (v : nat) (s : System) : System :=
  {| this := this s;
     muteButtonsInBody := v;
     styleElementsInHead := styleElementsInHead s;
     resizeListener := resizeListener s;
     pendingResumes := pendingResumes s;
     pendingSuspends := pendingSuspends s;
     calls := calls s |}.

Definition set_styleElementsInHead (v : nat) (s : System) : System :=
  {| this := this s;
     muteButtonsInBody := muteButtonsInBody s;
     styleElementsInHead := v;
     resizeListener := resizeListener s;
     pendingResumes := pendingResumes s;
     pendingSuspends := pendingSuspends s;
     calls := calls s |}.

Definition set_resizeListener (v : bool) (s : System) : System :=
  {| this := this s;
     muteButtonsInBody := muteButtonsInBody s;
     styleElementsInHead := styleElementsInHead s;
     resizeListener := v;
     pendingResumes := pendingResumes s;
     pendingSuspends := pendingSuspends s;
     calls := calls s |}.

Definition set_pendingResumes (v : list ResumeKind) (s : System) : System :=
  {| this := this s;
     muteButtonsInBody := muteButtonsInBody s;
     styleElementsInHead := styleElementsInHead s;
     resizeListener := resizeListener s;
     pendingResumes := v;
     pendingSuspends := pendingSuspends s;
     calls := calls s |}.

Definition set_pendingSuspends (v : nat) (s : System) : System :=
  {| this := this s;
     muteButtonsInBody := muteButtonsInBody s;
     styleElementsInHead := styleElementsInHead s;
     resizeListener := resizeListener s;
     pendingResumes := pendingResumes s;
     pendingSuspends := v;
     calls := calls s |}.

Definition set_calls (v : list AudioCall) (s : System) : System :=
  {| this := this s;
     muteButtonsInBody := muteButtonsInBody s;
     styleElementsInHead := styleElementsInHead s;
     resizeListener := resizeListener s;
     pendingResumes := pendingResumes s;
     pendingSuspends := pendingSuspends s;
     calls := v |}.

Definition on_this (f : AudioEngine -> AudioEngine) (s : System) : System :=
  set_this (f (this s)) s.

(** A call of the browser returns or throws an exception with a message. *)
Inductive Outcome (A : Type) : Type :=
  | Returns (a : A)
  | Throws (message : string).
Arguments Returns {A} a.
Arguments Throws {A} message.

(** What the browser does when the context is initialized: the outcome of
    [new AudioContext()], with the state of the context created, of
    [createGain()] and of [connect()], for those of them that are called. *)
Record Attempt : Type := {
  newAudioContext : Outcome ContextState;
  createGain : Outcome unit;
  connect : Outcome unit;
}.

Section Engine.

(** The value that [masterGain.gain.value] reads once a number has been
    assigned to it: the audio parameter is code of the browser. *)
Variable gainValue : number -> number.

Definition call (c : AudioCall) (s : System) : System :=
  set_calls (calls s ++ [c]) s.

Definition _hideMuteButton (s : System) : System :=
  if _muteButton (this s)
  then on_this (set_muteButton false)
         (set_muteButtonsInBody (Nat.pred (muteButtonsInBody s)) s)
  else s.

(** The button is created with its style element, appended to the body,
    and the listener of [resize] is added. *)
Definition _displayMuteButton (s : System) : System :=
  if useCustomUnlockedButton (this s) || _muteButton (this s) then s
  else
    let s := on_this (set_muteButton true) s in
    let s := set_styleElementsInHead (S (styleElementsInHead s)) s in
    let s := set_muteButtonsInBody (S (muteButtonsInBody s)) s in
    set_resizeListener true s.

Definition _triggerSuspendedState (s : System) : System :=
  let s := on_this (set_unlocked false) s in
  let s := call (NotifyLocked (onAudioLockedObservers (this s))) s in
  _displayMuteButton s.

Definition lock (s : System) : System := _triggerSuspendedState s.

Definition _resumeAudioContextAsync (s : System) : System * ResumeKind :=
  match _audioContext (this s) with
  | Some _ => (call ContextResume s, FromContext)
  | None => (s, AlreadyResolved)
  end.

(** Up to the [await]: the continuation is queued. *)
Definition _triggerRunningStateAsync (s : System) : System :=
  if _tryToRun (this s) then s
  else
    let s := on_this (set_tryToRun true) s in
    let '(s, k) := _resumeAudioContextAsync s in
    set_pendingResumes (pendingResumes s ++ [k]) s.

(** After the [await]: the [try] block when the promise is fulfilled, the
    [catch] block when it is rejected. *)
Definition resumed (fulfilled : bool) (s : System) : System :=
  if fulfilled then
    let s := on_this (set_tryToRun false) s in
    let s := if _muteButton (this s) then _hideMuteButton s else s in
    let s := on_this (set_unlocked true) s in
    call (NotifyUnlocked (onAudioUnlockedObservers (this s))) s
  else
    let s := on_this (set_tryToRun false) s in
    on_this (set_unlocked false) s.

Definition unlock (s : System) : System :=
  match _audioContext (this s) with
  | Some running =>
      let s := _hideMuteButton s in
      if negb (unlocked (this s)) then
        let s := on_this (set_unlocked true) s in
        call (NotifyUnlocked (onAudioUnlockedObservers (this s))) s
      else s
  | ctx =>
      if _tryToRun (this s) then
        match ctx with
        | Some _ => set_pendingSuspends (S (pendingSuspends s)) (call ContextSuspend s)
        | None => s
        end
      else _triggerRunningStateAsync s
  end.

(** The two callbacks of [suspend().then]. *)
Definition suspended_then (fulfilled : bool) (s : System) : System :=
  if fulfilled then
    let s := on_this (set_tryToRun false) s in
    _triggerRunningStateAsync s
  else call (AudioLoggerError "Failed to suspend audio context.") s.

(** The [catch] block. *)
Definition caught (message : string) (s : System) : System :=
  let s := on_this (set_canUseWebAudio false) s in
  call (AudioLoggerError ("Web Audio: " ++ message)) s.

(** [a] tells what the calls of the browser do.  The calls of
    [new AudioContext()] and of [connect()] are recorded when they are made,
    whether they return or throw.  [created] is the context that the engine
    holds after the first statement of the [try] block, with its state, or
    the exception that [new AudioContext()] has thrown. *)
Definition _initializeAudioContext (a : Attempt) (s : System) : System :=
  if canUseWebAudio (this s) then
    let '(s, created) :=
      match _audioContext (this s) with
      | Some st => (s, Returns st)
      | None =>
          let s := call NewAudioContext s in
          match newAudioContext a with
          | Returns st => (on_this (set_audioContext (Some st)) s, Returns st)
          | Throws message => (s, Throws message)
          end
      end in
    match created with
    | Returns st =>
        match createGain a with
        | Returns _ =>
            let s := on_this (set_masterGain (gainValue (of_Z 1))) s in
            let s := call MasterGainConnect s in
            match connect a with
            | Returns _ =>
                let s := on_this (set_audioContextInitialized true) s in
                match st with
                | running => _triggerRunningStateAsync s
                | _ => s
                end
            | Throws message => caught message s
            end
        | Throws message => caught message s
        end
    | Throws message => caught message s
    end
  else s.

(** The getter [audioContext]: the engine after it, and the context
    returned. *)
Definition audioContext (a : Attempt) (s : System)
    : System * option ContextState :=
  let s := if negb (_audioContextInitialized (this s))
           then _initializeAudioContext a s else s in
  (s, _audioContext (this s)).

Definition dispose (s : System) : System :=
  let s :=
    if canUseWebAudio (this s) && _audioContextInitialized (this s) then
      let s :=
        match _connectedAnalyser (this s), _audioContext (this s) with
        | Some a, Some _ =>
            let s := call (AnalyserStopDebugCanvas a) s in
            let s := call (AnalyserDispose a) s in
            let s := call MasterGainDisconnect s in
            let s := call MasterGainConnect s in
            on_this (set_connectedAnalyser None) s
        | _, _ => s
        end in
      on_this (set_masterGain (gainValue (of_Z 1))) s
    else s in
  let s := on_this (set_WarnedWebAudioUnsupported false) s in
  let s := _hideMuteButton s in
  let s := set_resizeListener false s in
  let s := on_this (set_onAudioUnlockedObservers 0) s in
  let s := on_this (set_onAudioLockedObservers 0) s in
  let s := match _audioContext (this s) with
           | Some _ => call ContextClose s
           | None => s
           end in
  on_this (set_audioContext None) s.

Definition getGlobalVolume (s : System) : number :=
  if canUseWebAudio (this s) && _audioContextInitialized (this s)
  then masterGain (this s)
  else of_Z (-1).

Definition setGlobalVolume (newVolume : number) (s : System) : System :=
  if canUseWebAudio (this s) && _audioContextInitialized (this s)
  then on_this (set_masterGain (gainValue newVolume)) s
  else s.

Definition connectToAnalyser (analyser : nat) (s : System) : System :=
  let s := match _connectedAnalyser (this s) with
           | Some a => call (AnalyserStopDebugCanvas a) s
           | None => s
           end in
  match canUseWebAudio (this s) && _audioContextInitialized (this s),
        _audioContext (this s) with
  | true, Some _ =>
      let s := on_this (set_connectedAnalyser (Some analyser)) s in
      let s := call MasterGainDisconnect s in
      call (AnalyserConnectAudioNodes analyser) s
  | _, _ => s
  end.

(** What can happen to an engine: calls of its public methods, a click or a
    touch on the mute button, the settling of a promise it waits for, and
    a change of state of its context.  The button receives events only
    while it is in the page.  [ResumeSettled i] settles the promise that
    the continuation at position [i] waits for: promises settle in any
    order. *)
Inductive AudioEvent : Type :=
  | Lock
  | Unlock
  | Click
  | TouchEnd
  | ResumeSettled (i : nat) (fulfilled : bool)
  | SuspendSettled (fulfilled : bool)
  | ContextStateChanges (st : ContextState)
  | GetAudioContext (a : Attempt)
  | SetGlobalVolume (newVolume : number)
  | ConnectToAnalyser (analyser : nat)
  | Dispose.

Definition step (s : System) (ev : AudioEvent) : System :=
  match ev with
  | Lock => lock s
  | Unlock => unlock s
  | Click => if _muteButton (this s) then unlock s else s
  | TouchEnd => if _muteButton (this s) then _triggerRunningStateAsync s else s
  | ResumeSettled i fulfilled =>
      match nth_error (pendingResumes s) i with
      | Some k =>
          resumed (match k with AlreadyResolved => true | FromContext => fulfilled end)
            (set_pendingResumes
               (firstn i (pendingResumes s) ++ skipn (S i) (pendingResumes s)) s)
      | None => s
      end
  | SuspendSettled fulfilled =>
      match pendingSuspends s with
      | S n => suspended_then fulfilled (set_pendingSuspends n s)
      | O => s
      end
  | ContextStateChanges st =>
      match _audioContext (this s) with
      | Some _ => on_this (set_audioContext (Some st)) s
      | None => s
      end
  | GetAudioContext a => fst (audioContext a s)
  | SetGlobalVolume newVolume => setGlobalVolume newVolume s
  | ConnectToAnalyser analyser => connectToAnalyser analyser s
  | Dispose => dispose s
  end.

Definition run (s : System) (evs : list AudioEvent) : System :=
  fold_left step evs s.

(** The engine as its constructor leaves it in a browser, with the audio
    context it was given, if any. *)
Definition constructed (canUseWebAudio useCustomUnlockedButton : bool)
    (audioContext : option ContextState) : System :=
  {| this :=
       {| _audioContext := audioContext; _audioContextInitialized := false;
          _muteButton := false; canUseWebAudio := canUseWebAudio;
          masterGain := NaN; WarnedWebAudioUnsupported := false;
          unlocked := false; useCustomUnlockedButton := useCustomUnlockedButton;
          _connectedAnalyser := None; _tryToRun := false;
          onAudioUnlockedObservers := 0; onAudioLockedObservers := 0 |};
     muteButtonsInBody := 0; styleElementsInHead := 0; resizeListener := false;
     pendingResumes := []; pendingSuspends := 0; calls := [] |}.

(** The page holds the button of the engine and no other. *)
Definition buttonInPage (s : System) : Prop :=
  muteButtonsInBody s = (if _muteButton (this s) then 1 else 0)%nat.

(** While [_tryToRun] is set, a continuation that clears it is waiting. *)
Definition runIsPending (s : System) : Prop :=
  _tryToRun (this s) = true -> pendingResumes s <> [].

(** The engine relies on a custom button and has none of its own. *)
Definition customButton (s : System) : Prop :=
  useCustomUnlockedButton (this s) = true /\ _muteButton (this s) = false.

(** The number of calls of a kind among those made. *)
Definition countCalls (p : AudioCall -> bool) (cs : list AudioCall) : nat :=
  length (List.filter p cs).

Definition isNewAudioContext (c : AudioCall) : bool :=
  match c with NewAudioContext => true | _ => false end.

Definition contextsCreated (s : System) : nat :=
  countCalls isNewAudioContext (calls s).

(** [new AudioContext()] has been called at most once, and if it has, the
    engine is initialized or can no longer use Web Audio: it does not call
    it again. *)
Definition createdOnce (s : System) : Prop :=
  (contextsCreated s
   <= if _audioContextInitialized (this s) || negb (canUseWebAudio (this s))
      then 1 else 0)%nat.

(** *** Properties of the audio engine *)

Ltac audio_simpl :=
  cbn [step lock unlock _triggerSuspendedState _displayMuteButton _hideMuteButton
       _triggerRunningStateAsync _resumeAudioContextAsync resumed suspended_then
       audioContext _initializeAudioContext caught dispose setGlobalVolume
       getGlobalVolume connectToAnalyser on_this call
       set_audioContext set_audioContextInitialized set_muteButton set_canUseWebAudio
       set_masterGain set_WarnedWebAudioUnsupported set_unlocked set_connectedAnalyser
       set_tryToRun set_onAudioUnlockedObservers set_onAudioLockedObservers
       set_this set_muteButtonsInBody set_styleElementsInHead set_resizeListener
       set_pendingResumes set_pendingSuspends set_calls
       this muteButtonsInBody styleElementsInHead resizeListener pendingResumes
       pendingSuspends calls
       _audioContext _audioContextInitialized _muteButton canUseWebAudio masterGain
       WarnedWebAudioUnsupported unlocked useCustomUnlockedButton _connectedAnalyser
       _tryToRun onAudioUnlockedObservers onAudioLockedObservers
       fst snd orb andb negb] in *.

Ltac audio_unfold :=
  cbv beta zeta delta
    [step lock unlock _triggerSuspendedState _displayMuteButton _hideMuteButton
     _triggerRunningStateAsync _resumeAudioContextAsync resumed suspended_then
     audioContext _initializeAudioContext caught dispose setGlobalVolume
     getGlobalVolume connectToAnalyser] in *;
  audio_simpl.

(** Case analysis on what the operations test, innermost test first. *)
Ltac audio_cases :=
  repeat (audio_unfold;
          match goal with
          | |- context [match ?x with _ => _ end] =>
              lazymatch x with
              | context [match _ with _ => _ end] => fail
              | _ => destruct x eqn:?
              end
          end);
  audio_unfold.

Ltac audio_facts :=
  repeat match goal with
         | H : _ || _ = false |- _ => apply orb_false_elim in H; destruct H
         | H : _ && _ = true |- _ => apply andb_prop in H; destruct H
         | H : negb _ = true |- _ => apply negb_true_iff in H
         | H : negb _ = false |- _ => apply negb_false_iff in H
         | H : _ && _ = false |- _ => apply andb_false_iff in H; destruct H
         | H : _ || _ = true |- _ => apply orb_prop in H; destruct H
         end.

Ltac audio_done :=
  first [reflexivity | assumption | congruence | cbn; lia].

Lemma step_buttonInPage (s : System) (ev : AudioEvent) :
  buttonInPage s -> buttonInPage (step s ev).
Proof.
  unfold buttonInPage. intros Hb.
  destruct ev; audio_cases; audio_facts;
    repeat match goal with
           | H : _muteButton (this s) = _ |- _ => rewrite H in Hb
           end;
    try reflexivity; try discriminate; try lia.
Qed.

Lemma step_runIsPending (s : System) (ev : AudioEvent) :
  runIsPending s -> runIsPending (step s ev).
Proof.
  unfold runIsPending. intros Hp.
  destruct ev; audio_cases; audio_facts; intros Ht;
    try discriminate;
    try (intros He; apply app_eq_nil in He; destruct He as [_ He]; discriminate He);
    try (apply Hp; first [assumption | reflexivity]); try congruence.
Qed.

Lemma step_customButton (s : System) (ev : AudioEvent) :
  customButton s ->
  customButton (step s ev)
  /\ muteButtonsInBody (step s ev) = muteButtonsInBody s
  /\ styleElementsInHead (step s ev) = styleElementsInHead s.
Proof.
  unfold customButton. intros [Hc Hb].
  destruct ev; audio_cases; audio_facts;
    try congruence; (split; [split |]; [assumption .. | split; reflexivity]).
Qed.

Lemma countCalls_app (p : AudioCall -> bool) (cs cs' : list AudioCall) :
  countCalls p (cs ++ cs') = (countCalls p cs + countCalls p cs')%nat.
Proof. unfold countCalls. rewrite List.filter_app, length_app. reflexivity. Qed.

Lemma step_createdOnce (s : System) (ev : AudioEvent) :
  createdOnce s -> createdOnce (step s ev).
Proof.
  unfold createdOnce, contextsCreated. intros Hc.
  destruct ev; audio_cases; audio_facts; try congruence;
    repeat match goal with
           | H : _audioContextInitialized (this s) = _ |- _ => rewrite H in Hc
           | H : canUseWebAudio (this s) = _ |- _ => rewrite H in Hc
           end;
    rewrite ?countCalls_app; cbn in Hc |- *; try discriminate; try lia.
Qed.

Lemma run_step (s : System) (ev : AudioEvent) (evs : list AudioEvent) :
  run s (ev :: evs) = run (step s ev) evs.
Proof. reflexivity. Qed.

Lemma run_buttonInPage (s : System) (evs : list AudioEvent) :
  buttonInPage s -> buttonInPage (run s evs).
Proof.
  revert s. induction evs as [| ev evs IH]; intros s Hb; [exact Hb |].
  rewrite run_step. apply IH, step_buttonInPage, Hb.
Qed.

Lemma run_runIsPending (s : System) (evs : list AudioEvent) :
  runIsPending s -> runIsPending (run s evs).
Proof.
  revert s. induction evs as [| ev evs IH]; intros s Hp; [exact Hp |].
  rewrite run_step. apply IH, step_runIsPending, Hp.
Qed.

(** X19: The engine never has two mute buttons in the page, and none that it
    has lost track of: over any sequence of events, the page holds one mute
    button when [_muteButton] is set and none when it is not.  An engine
    that relies on a custom button never creates a button or a style
    element. *)
Theorem mute_button_at_most_one (s : System) (evs : list AudioEvent) :
  buttonInPage s ->
  buttonInPage (run s evs)
  /\ (muteButtonsInBody (run s evs) <= 1)%nat
  /\ (customButton s ->
      _muteButton (this (run s evs)) = false
      /\ muteButtonsInBody (run s evs) = muteButtonsInBody s
      /\ styleElementsInHead (run s evs) = styleElementsInHead s).
Proof.
  intros Hb.
  assert (Hinv : buttonInPage (run s evs)) by (apply run_buttonInPage, Hb).
  split; [exact Hinv |]. split.
  - unfold buttonInPage in Hinv. rewrite Hinv.
    destruct (_muteButton (this (run s evs))); lia.
  - clear Hb Hinv. revert s. induction evs as [| ev evs IH]; intros s Hc.
    + destruct Hc as [_ Hc]. split; [exact Hc |]. split; reflexivity.
    + rewrite run_step. destruct (step_customButton s ev Hc) as (Hc' & Hm & Hs).
      destruct (IH _ Hc') as (A & B & C).
      split; [exact A |]. split; congruence.
Qed.

(** X20: [_tryToRun] cannot stay set with nothing to clear it: over any sequence
    of events, while the flag is set a continuation of
    [_triggerRunningStateAsync] is waiting for its promise, so once every
    promise has settled the flag is clear. *)
Theorem tryToRun_is_cleared (s : System) (evs : list AudioEvent) :
  runIsPending s ->
  runIsPending (run s evs)
  /\ (pendingResumes (run s evs) = [] -> _tryToRun (this (run s evs)) = false).
Proof.
  intros Hp.
  assert (Hinv : runIsPending (run s evs)) by (apply run_runIsPending, Hp).
  split; [exact Hinv |]. intros Hnil. unfold runIsPending in Hinv.
  destruct (_tryToRun (this (run s evs))); [| reflexivity].
  exfalso. now apply Hinv.
Qed.

(** X21: While a resume requested by [_triggerRunningStateAsync] is under way,
    touching the mute button requests no other: the engine is left as it
    is.  When none is under way and the engine has a context, one touch
    requests exactly one resume. *)
Theorem resume_is_requested_once (s : System) :
  (_tryToRun (this s) = true ->
   forall n : nat, run s (repeat TouchEnd n) = s)
  /\ (_tryToRun (this s) = false -> _muteButton (this s) = true ->
      _audioContext (this s) <> None ->
      let s1 := step s TouchEnd in
      calls s1 = calls s ++ [ContextResume]
      /\ pendingResumes s1 = pendingResumes s ++ [FromContext]
      /\ _tryToRun (this s1) = true
      /\ forall n : nat, run s1 (repeat TouchEnd n) = s1).
Proof.
  assert (Hidle : forall s0, _tryToRun (this s0) = true ->
                  forall n, run s0 (repeat TouchEnd n) = s0).
  { intros s0 Ht n. induction n as [| n IH]; [reflexivity |].
    cbn [repeat]. rewrite run_step.
    assert (E : step s0 TouchEnd = s0).
    { unfold step, _triggerRunningStateAsync. rewrite Ht.
      destruct (_muteButton (this s0)); reflexivity. }
    rewrite E. exact IH. }
  split; [apply Hidle |].
  intros Ht Hb Hctx s1.
  assert (E : s1 = set_pendingResumes (pendingResumes s ++ [FromContext])
                     (call ContextResume (on_this (set_tryToRun true) s))).
  { subst s1. unfold step, _triggerRunningStateAsync, _resumeAudioContextAsync.
    rewrite Hb, Ht. audio_simpl.
    destruct (_audioContext (this s)); [reflexivity | contradiction]. }
  rewrite E. split; [reflexivity |]. split; [reflexivity |]. split; [reflexivity |].
  apply Hidle. reflexivity.
Qed.

(** X22: When Web Audio can be used and the context has been initialized, the
    global volume is what the gain of the master gain node reads after the
    volume last set was assigned to it, which is for the browser to say; it
    is -1 otherwise, in which case setting it changes nothing.  Disposing of
    the engine assigns 1 to the gain.  A volume set earlier has no bearing
    on the volume read after a later one is set. *)
Theorem global_volume_round_trip (s : System) (newVolume : number) :
  let usable := canUseWebAudio (this s) && _audioContextInitialized (this s) in
  getGlobalVolume (setGlobalVolume newVolume s)
  = (if usable then gainValue newVolume else of_Z (-1))
  /\ (usable = false -> setGlobalVolume newVolume s = s)
  /\ getGlobalVolume (dispose (setGlobalVolume newVolume s))
     = (if usable then gainValue (of_Z 1) else of_Z (-1))
  /\ (forall v : number,
        getGlobalVolume (setGlobalVolume v (setGlobalVolume newVolume s))
        = getGlobalVolume (setGlobalVolume v s)).
Proof.
  intros usable. subst usable.
  split; [| split; [| split]].
  - audio_cases; congruence.
  - intros Hu. unfold setGlobalVolume. rewrite Hu. reflexivity.
  - audio_cases; congruence.
  - intros v. audio_cases; congruence.
Qed.

(** X23: With a running context, locking and then unlocking the engine brings
    it back unlocked and without a mute button, having notified the
    observers of the lock and then those of the unlock, once each, and
    without asking the context to resume; unlocking it again changes
    nothing and notifies nobody. *)
Theorem lock_then_unlock_running (s : System) :
  _audioContext (this s) = Some running ->
  buttonInPage s ->
  let s2 := unlock (lock s) in
  unlocked (this s2) = true
  /\ _muteButton (this s2) = false
  /\ muteButtonsInBody s2 = 0%nat
  /\ calls s2
     = calls s ++ [NotifyLocked (onAudioLockedObservers (this s));
                   NotifyUnlocked (onAudioUnlockedObservers (this s))]
  /\ pendingResumes s2 = pendingResumes s
  /\ unlock s2 = s2.
Proof.
  intros Hctx Hb s2. subst s2. unfold buttonInPage in Hb.
  audio_cases; audio_facts; try congruence;
    repeat match goal with
           | H : _muteButton (this s) = _ |- _ => rewrite H in Hb
           end;
    try discriminate;
    rewrite <- ?app_assoc;
    (split; [reflexivity |]); (split; [reflexivity |]); (split; [cbn; lia |]);
    (split; [reflexivity |]); (split; reflexivity).
Qed.

(** X24: Disposing of the engine leaves it without a context, without a mute
    button in the page, without a listener of [resize] and without
    observers, and closes the context if there was one.  An engine whose
    context had been initialized does not get a new one afterwards: the
    getter [audioContext] returns [null] and creates nothing, whatever the
    calls of the browser would do.  An engine whose context had not been
    initialized, and which can use Web Audio, calls [new AudioContext()] at
    the next use of the getter, and when that call returns the getter
    returns the new context. *)
Theorem dispose_releases (s : System) :
  buttonInPage s ->
  let d := dispose s in
  _audioContext (this d) = None
  /\ _muteButton (this d) = false
  /\ muteButtonsInBody d = 0%nat
  /\ resizeListener d = false
  /\ onAudioUnlockedObservers (this d) = 0%nat
  /\ onAudioLockedObservers (this d) = 0%nat
  /\ (_audioContext (this s) <> None -> In ContextClose (calls d))
  /\ (_audioContextInitialized (this s) = true ->
      forall a : Attempt, audioContext a d = (d, None))
  /\ (_audioContextInitialized (this s) = false -> canUseWebAudio (this s) = true ->
      forall a : Attempt,
        In NewAudioContext (calls (fst (audioContext a d)))
        /\ forall st : ContextState,
             newAudioContext a = Returns st -> snd (audioContext a d) = Some st).
Proof.
  intros Hb d. subst d. unfold buttonInPage in Hb.
  split; [audio_cases; audio_done |].
  split; [audio_cases; audio_done |].
  split; [audio_cases; audio_facts; audio_done |].
  split; [audio_cases; audio_done |].
  split; [audio_cases; audio_done |].
  split; [audio_cases; audio_done |].
  split; [| split].
  - intros Hctx. audio_cases; try contradiction;
      apply in_app_iff; right; now left.
  - intros Hi a. audio_cases; audio_facts; congruence.
  - intros Hi Hc a. split.
    + audio_cases; audio_facts; try congruence;
        repeat (apply in_app_iff; first [right; now left | left]).
    + intros st Ha. audio_cases; audio_facts; congruence.
Qed.

(** X25: [new AudioContext()] is called at most once in the life of the
    engine, whether it returns or throws: over any sequence of events that
    starts before any such call, it has been called at most once, and once
    it has been called the engine is initialized or can no longer use Web
    Audio.  Getting the context twice in a row is the same as getting it
    once, whatever the calls of the browser do. *)
Theorem context_created_at_most_once (s : System) (evs : list AudioEvent) :
  contextsCreated s = 0%nat ->
  createdOnce (run s evs)
  /\ (contextsCreated (run s evs) <= 1)%nat
  /\ (contextsCreated (run s evs) = 1%nat ->
      _audioContextInitialized (this (run s evs)) = true
      \/ canUseWebAudio (this (run s evs)) = false)
  /\ (forall a a' : Attempt,
        fst (audioContext a' (fst (audioContext a s)))
        = fst (audioContext a s)).
Proof.
  intros H0.
  assert (Hc : createdOnce s) by (unfold createdOnce; rewrite H0; lia).
  assert (Hinv : createdOnce (run s evs)).
  { clear H0. revert s Hc. induction evs as [| ev evs IH]; intros s Hc; [exact Hc |].
    rewrite run_step. apply IH, step_createdOnce, Hc. }
  split; [exact Hinv |]. unfold createdOnce in Hinv. split; [| split].
  - destruct (_audioContextInitialized (this (run s evs))
              || negb (canUseWebAudio (this (run s evs)))); lia.
  - intros H1. rewrite H1 in Hinv.
    destruct (_audioContextInitialized (this (run s evs))); [now left | right].
    destruct (canUseWebAudio (this (run s evs))); [cbn in Hinv; lia | reflexivity].
  - intros a a'. clear Hc Hinv.
    audio_cases; audio_facts; try reflexivity; congruence.
Qed.

(** X26: An engine that can use Web Audio and has its context records the
    analyser it is connected to.  Connecting another one stops the debug
    canvas of the first and does not dispose of it; disposing of the engine
    stops and disposes of the analyser connected last, and of no other. *)
Theorem analyser_replaced_is_not_disposed (s : System) (a b : nat) :
  canUseWebAudio (this s) = true ->
  _audioContextInitialized (this s) = true ->
  _audioContext (this s) <> None ->
  let s1 := connectToAnalyser a s in
  let s2 := connectToAnalyser b s1 in
  _connectedAnalyser (this s1) = Some a
  /\ calls s1
     = calls s
       ++ match _connectedAnalyser (this s) with
          | Some old => [AnalyserStopDebugCanvas old]
          | None => []
          end
       ++ [MasterGainDisconnect; AnalyserConnectAudioNodes a]
  /\ calls s2
     = calls s1 ++ [AnalyserStopDebugCanvas a; MasterGainDisconnect;
                    AnalyserConnectAudioNodes b]
  /\ calls (dispose s2)
     = calls s2 ++ [AnalyserStopDebugCanvas b; AnalyserDispose b;
                    MasterGainDisconnect; MasterGainConnect; ContextClose].
Proof.
  intros Hu Hi Hctx s1 s2. subst s1 s2.
  split; [| split; [| split]];
    audio_cases; audio_facts; rewrite <- ?app_assoc;
    first [reflexivity | congruence].
Qed.

(** X27: Unlocking an engine whose context is not running while a resume is
    under way asks the context to suspend and requests no resume.  When the
    suspension succeeds a new resume is requested; when it fails an error
    is logged and [_tryToRun] stays set. *)
Theorem unlock_suspends_stuck_resume (s : System) (st : ContextState) :
  _audioContext (this s) = Some st ->
  st <> running ->
  _tryToRun (this s) = true ->
  calls (unlock s) = calls s ++ [ContextSuspend]
  /\ pendingResumes (unlock s) = pendingResumes s
  /\ (let s1 := step (unlock s) (SuspendSettled true) in
      calls s1 = calls s ++ [ContextSuspend; ContextResume]
      /\ pendingResumes s1 = pendingResumes s ++ [FromContext]
      /\ _tryToRun (this s1) = true)
  /\ (let s1 := step (unlock s) (SuspendSettled false) in
      calls s1 = calls s ++ [ContextSuspend;
                             AudioLoggerError "Failed to suspend audio context."]
      /\ pendingResumes s1 = pendingResumes s
      /\ _tryToRun (this s1) = true).
Proof.
  intros Hctx Hst Ht.
  assert (Hu : unlock s
               = set_pendingSuspends (S (pendingSuspends s)) (call ContextSuspend s)).
  { unfold unlock. rewrite Hctx, Ht. destruct st; [reflexivity | | reflexivity].
    now contradiction Hst. }
  rewrite Hu. audio_unfold. rewrite Hctx, ?Ht. audio_unfold.
  rewrite <- ?app_assoc.
  split; [reflexivity |]. split; [reflexivity |].
  split; (split; [reflexivity |]; split; [reflexivity |]); first [reflexivity | exact Ht].
Qed.




End Engine.

End Audio.
(** ** The further properties on the sample inputs *)

Lemma GetScreenshotSize_final_defaults_witness :
  let size := SizeObject (onlyWidth (of_Z 300)) in
  let sz := sampleSize Sample.engine0 2%nat size in
  noFinalSize size = true
  /\ finalWidth sz = width sz /\ finalHeight sz = height sz
  /\ finalWidth sz = 300 /\ finalHeight sz = 150.
Proof.
  intros size sz. split; [reflexivity |].
  destruct (GetScreenshotSize_final_defaults Sample.aspectRatio2 Sample.renderWidth800
              Sample.renderHeight400 Sample.engine0 2%nat size eq_refl) as [Hw Hh].
  split; [exact Hw |]. split; [exact Hh |].
  split; vm_compute; reflexivity.
Defined.

Lemma GetScreenshotSize_final_explicit_witness :
  let sz := sampleSize Sample.engine0 2%nat (SizeObject size100x50to400x200) in
  truthy_opt (size_finalWidth size100x50to400x200) = true
  /\ truthy_opt (size_finalHeight size100x50to400x200) = true
  /\ finalWidth sz = floor32 (of_Z 400) /\ finalHeight sz = floor32 (of_Z 200).
Proof.
  intros sz. split; [reflexivity |]. split; [reflexivity |].
  exact (GetScreenshotSize_final_explicit Sample.aspectRatio2 Sample.renderWidth800
           Sample.renderHeight400 Sample.engine0 2%nat size100x50to400x200
           eq_refl eq_refl).
Defined.

Lemma GetScreenshotSize_single_dimension_witness :
  (0 < 301)%Q
  /\ mul (Fin 301%Q) (of_Z 1) = Fin 301%Q
  /\ div (Fin 301%Q) (Sample.aspectRatio2 Sample.engine0 2%nat) = Fin (301 # 2)%Q
  /\ width (sampleSize Sample.engine0 2%nat (SizeObject (onlyWidth (Fin 301%Q))))
     = Qfloor 301%Q
  /\ height (sampleSize Sample.engine0 2%nat (SizeObject (onlyWidth (Fin 301%Q))))
     = Qfloor ((301 # 2) + (1 # 2))%Q.
Proof.
  assert (Hm : mul (Fin 301%Q) (of_Z 1) = Fin 301%Q) by (vm_compute; reflexivity).
  assert (Hd : div (Fin 301%Q) (Sample.aspectRatio2 Sample.engine0 2%nat)
               = Fin (301 # 2)%Q) by (vm_compute; reflexivity).
  split; [reflexivity |]. split; [exact Hm |]. split; [exact Hd |].
  destruct (proj1 (GetScreenshotSize_single_dimension Sample.aspectRatio2
                     Sample.renderWidth800 Sample.renderHeight400 Sample.engine0 2%nat)
              301%Q 301%Q (301 # 2)%Q eq_refl Hm Hd
              ltac:(vm_compute; split; [discriminate | reflexivity])
              ltac:(vm_compute; split; [discriminate | reflexivity]))
    as (Hw & Hh & _).
  split; [exact Hw | exact Hh].
Defined.

Lemma number_size_validity_witness :
  - 2 ^ 31 <= Qfloor (1 # 2) < 2 ^ 31
  /\ (0 <= 1 # 2 /\ 1 # 2 < 1)%Q
  /\ validSize (sampleSize Sample.engine0 2%nat (SizeNumber (Fin (1 # 2)))) = false
  /\ (- (3 # 2) < 0)%Q
  /\ width (sampleSize Sample.engine0 2%nat (SizeNumber (Fin (- (3 # 2))))) < 0.
Proof.
  destruct (number_size_validity Sample.aspectRatio2 Sample.renderWidth800
              Sample.renderHeight400 Sample.engine0 2%nat) as [Hq _].
  assert (Hr : - 2 ^ 31 <= Qfloor (1 # 2) < 2 ^ 31)
    by (vm_compute; split; [discriminate | reflexivity]).
  assert (Hin : (0 <= 1 # 2 /\ 1 # 2 < 1)%Q)
    by (split; [discriminate | reflexivity]).
  split; [exact Hr |]. split; [exact Hin |].
  split; [exact (proj2 (proj1 (proj2 (Hq (1 # 2)%Q Hr))) Hin) |].
  split; [reflexivity |].
  exact (proj1 (proj2 (proj2 (proj2 (Hq (- (3 # 2))%Q
           ltac:(vm_compute; split; [discriminate | reflexivity]))) eq_refl))).
Defined.

Lemma frames_skipped_until_render_witness :
  let r := sampleCreate Sample.worldSkipping 2%nat (SizeNumber (of_Z 256))
             Sample.optionsFxaa 7%nat in
  let evs := [EffectCreated false; EffectCompiled; RetryTick 1 ConditionFails;
              EffectCompiled] in
  let s1 := capture_run Sample.renderReturns Sample.dumpReturns r evs in
  fst r <> None
  /\ forallb beforeRender (pending s1) = true
  /\ pending s1 = [AwaitCompiled; Retrying; Retrying]
  /\ skipFrameRender (engine (world s1)) = true
  /\ count isSceneRender (trace s1) = 0%nat.
Proof.
  intros r evs s1.
  eassert (E : r = (Some _, _)) by reflexivity.
  split; [discriminate |]. split; [reflexivity |]. split; [reflexivity |].
  exact (frames_skipped_until_render Sample.aspectRatio2 Sample.renderWidth800
           Sample.renderHeight400 Sample.renderReturns Sample.dumpReturns None
           _ _ _ _ _ _ _ evs E eq_refl).
Defined.

Lemma encoder_called_once_per_render_pass_witness :
  let r := sampleCreate Sample.world0 2%nat (SizeNumber (of_Z 256))
             Sample.options0 7%nat in
  let s1 := capture_run Sample.renderReturns Sample.dumpReturns r
              [RetryTick 0 ConditionHolds; EndFrame;
               ReadPixelsSettled 0 (Some [1; 2; 3]);
               ReadPixelsSettled 0 (Some [4; 5; 6]); EndFrame; EffectCompiled] in
  fst r <> None
  /\ handlerAssigned (pending s1) = false
  /\ count isDumpData (trace s1) = 1%nat
  /\ (count isDumpData (trace s1) <= 1)%nat
  /\ (count isDumpData (trace s1) <= count isSceneRender (trace s1))%nat.
Proof.
  intros r s1.
  eassert (E : r = (Some _, _)) by reflexivity.
  destruct (encoder_called_once_per_render_pass Sample.aspectRatio2
              Sample.renderWidth800 Sample.renderHeight400 Sample.renderReturns
              Sample.dumpReturns None _ _ _ _ _ _ _
              [RetryTick 0 ConditionHolds; EndFrame;
               ReadPixelsSettled 0 (Some [1; 2; 3]);
               ReadPixelsSettled 0 (Some [4; 5; 6]); EndFrame; EffectCompiled] E)
    as (H1 & _ & _ & H4).
  split; [discriminate |]. split; [reflexivity |]. split; [reflexivity |].
  split; [exact (proj1 (H4 eq_refl)) | exact H1].
Defined.

Lemma readiness_error_gives_engine_back_witness :
  let r := sampleCreate Sample.world0 2%nat (SizeNumber (of_Z 256))
             Sample.options0 7%nat in
  let s1 := capture_run Sample.renderReturns Sample.dumpReturns r
              [RetryTick 0 ConditionFails] in
  let s' := capture_run Sample.renderReturns Sample.dumpReturns r
              ([RetryTick 0 ConditionFails] ++ RetryTick 0 ConditionThrows
                 :: [RetryTick 0 ConditionHolds; EndFrame; EffectCompiled]) in
  fst r <> None
  /\ pending s1 !! 0%nat = Some Retrying
  /\ handlerAssigned (pending s1) = false
  /\ pending s' = [Idle]
  /\ count isSceneRender (trace s') = 0%nat
  /\ count isDumpData (trace s') = 0%nat
  /\ count isDisposeRenderTarget (trace s') = 0%nat.
Proof.
  intros r s1 s'.
  eassert (E : r = (Some _, _)) by reflexivity.
  destruct (readiness_error_gives_engine_back Sample.aspectRatio2
              Sample.renderWidth800 Sample.renderHeight400 Sample.renderReturns
              Sample.dumpReturns None _ _ _ _ _ _ _
              [RetryTick 0 ConditionFails] 0%nat E eq_refl)
    as (_ & _ & _ & _ & _ & Hover).
  destruct (Hover eq_refl [RetryTick 0 ConditionHolds; EndFrame; EffectCompiled])
    as (_ & H2 & H3 & H4 & _ & H6).
  split; [discriminate |]. split; [reflexivity |]. split; [reflexivity |].
  split; [exact H2 |]. split; [exact H3 |]. split; [exact H4 | exact H6].
Defined.

Lemma readback_follows_any_render_outcome_witness :
  let r := sampleCreate Sample.world0 2%nat (SizeNumber (of_Z 256))
             Sample.options0 7%nat in
  let s1 := capture_run Sample.renderThrows Sample.dumpReturns r
              ([] ++ [RetryTick 0 ConditionHolds]) in
  let s2 := capture_run Sample.renderThrows Sample.dumpReturns (fst r, s1)
              [EndFrame; ReadPixelsSettled 0 (Some [1; 2; 3])] in
  fst r <> None
  /\ pending (snd r) !! 0%nat = Some Retrying
  /\ handlerAssigned (pending (snd r)) = false
  /\ snd (Sample.renderThrows Sample.world0) = false
  /\ pending s1 = [AwaitEndFrame]
  /\ In (ReadPixels 7%nat) (trace s2)
  /\ count isDumpData (trace s2) = 1%nat.
Proof.
  intros r s1 s2.
  eassert (E : r = (Some _, _)) by reflexivity.
  destruct (readback_follows_any_render_outcome Sample.aspectRatio2
              Sample.renderWidth800 Sample.renderHeight400 Sample.renderThrows
              Sample.dumpReturns None _ _ _ _ _ _ _ [] 0%nat [1; 2; 3]
              E eq_refl eq_refl) as (_ & _ & _ & H4 & _ & H6).
  destruct (H6 eq_refl) as (A & _ & C).
  split; [discriminate |]. split; [reflexivity |]. split; [reflexivity |].
  split; [reflexivity |]. split; [exact A |]. split; [exact H4 | exact C].
Defined.

Lemma capture_takes_one_path_witness :
  let r := sampleCreate Sample.world0 2%nat (SizeObject size100x50to400x200)
             Sample.options0 7%nat in
  let tr := trace (capture_run Sample.renderReturns Sample.dumpReturns r
                     [RetryTick 0 ConditionHolds; EndFrame; ImportSettled 0 true;
                      ApplyPostProcessSettled 0 (Some 9%nat);
                      ReadTexturePixelsSettled 0 (Some [1; 2; 3])]) in
  fst r <> None
  /\ count isReadPixels tr = 0%nat /\ count isDisposeRenderTarget tr = 0%nat.
Proof.
  intros r tr.
  eassert (E : r = (Some _, _)) by reflexivity.
  destruct (capture_takes_one_path Sample.aspectRatio2 Sample.renderWidth800
              Sample.renderHeight400 Sample.renderReturns Sample.dumpReturns None
              _ _ _ _ _ _ _
              [RetryTick 0 ConditionHolds; EndFrame; ImportSettled 0 true;
               ApplyPostProcessSettled 0 (Some 9%nat);
               ReadTexturePixelsSettled 0 (Some [1; 2; 3])] E) as [_ H2].
  split; [vm_compute; discriminate |].
  exact (H2 ltac:(intros [Hw _]; vm_compute in Hw; discriminate Hw)).
Defined.

Lemma overlapping_captures_need_nesting_witness :
  let rA := sampleCreate Sample.world0 2%nat (SizeNumber (of_Z 256))
              Sample.options0 7%nat in
  let rB := sampleCreate (world (snd rA)) 2%nat (SizeNumber (of_Z 128))
              Sample.options0 8%nat in
  let sA1 := capture_run Sample.renderReturns Sample.dumpReturns
               (fst rA, resumeIn (world (snd rB)) (snd rA))
               [RetryTick 0 ConditionHolds] in
  let sB1 := capture_run Sample.renderReturns Sample.dumpReturns
               (fst rB, resumeIn (world sA1) (snd rB))
               [RetryTick 0 ConditionHolds] in
  fst rA <> None /\ fst rB <> None
  /\ antialiasing Sample.options0 = false
  /\ getRenderWidth (engine Sample.world0) = EngineGetRenderWidth
  /\ getRenderWidth (engine (world sB1)) = CaptureGetRenderWidth 256.
Proof.
  intros rA rB sA1 sB1.
  eassert (EA : rA = (Some _, _)) by reflexivity.
  eassert (EB : rB = (Some _, _)) by reflexivity.
  destruct (overlapping_captures_need_nesting Sample.aspectRatio2
              Sample.renderWidth800 Sample.renderHeight400 Sample.renderReturns
              Sample.dumpReturns None _ _ _ _ _ _ _ _ _ _ _ _ _
              EA eq_refl EB eq_refl) as [[H1 _] _].
  split; [discriminate |]. split; [discriminate |].
  split; [reflexivity |]. split; [reflexivity |]. exact H1.
Defined.

Lemma CreateScreenshot_dispatch_witness :
  let o := {| successCallback := true; cs_mimeType := "image/jpeg";
              forceDownload := false; cs_quality := None; useFill := false |} in
  validSize (sampleSize (engine Sample.world0) 1%nat (SizeNumber (of_Z 256))) = true
  /\ activeCamera (scene Sample.world0) = Some 1%nat
  /\ CreateScreenshot Sample.aspectRatio2 Sample.renderWidth800
       Sample.renderHeight400 Sample.world0 1%nat (SizeNumber (of_Z 256)) o
       (Some true) 7%nat
     = (AtEndFrame 256 256, [])
  /\ activeCamera (scene Sample.world0) <> Some 2%nat
  /\ exists (c : Capture) (s : Running),
       CreateScreenshot Sample.aspectRatio2 Sample.renderWidth800
         Sample.renderHeight400 Sample.world0 2%nat (SizeNumber (of_Z 256)) o
         (Some true) 7%nat
       = (UsingRenderTarget (Some c, s), [])
       /\ cap_camera c = 2%nat /\ samples (cap_options c) = 1%nat.
Proof.
  intros o.
  split; [reflexivity |]. split; [reflexivity |].
  split.
  - exact (proj1 (proj2 (CreateScreenshot_dispatch Sample.aspectRatio2
                           Sample.renderWidth800 Sample.renderHeight400
                           Sample.world0 1%nat (SizeNumber (of_Z 256)) o
                           (Some true) 7%nat)) eq_refl eq_refl).
  - assert (Hne : activeCamera (scene Sample.world0) <> Some 2%nat) by discriminate.
    split; [exact Hne |].
    destruct (proj2 (proj2 (CreateScreenshot_dispatch Sample.aspectRatio2
                              Sample.renderWidth800 Sample.renderHeight400
                              Sample.world0 2%nat (SizeNumber (of_Z 256)) o
                              (Some true) 7%nat)) eq_refl Hne)
      as (c & s & Hr & _ & Hcam & Hs & _).
    exists c, s. split; [exact Hr |]. split; [exact Hcam | exact Hs].
Defined.

Lemma register_unregister_round_trip_witness :
  let r : GLTF.Registry nat :=
    {| GLTF.RegisteredGLTFExtensions :=
         {[ "KHR_draco_mesh_compression" :=
              {| GLTF.isGLTFExtension := true; GLTF.factory := 1%nat |} ]};
       GLTF.warnings := [] |} in
  let r1 := GLTF.registerGLTFExtension "KHR_lights_punctual" true 2%nat r in
  let r2 := snd (GLTF.unregisterGLTFExtension "KHR_lights_punctual" r1) in
  GLTF.RegisteredGLTFExtensions r !! "KHR_lights_punctual" = None
  /\ GLTF.RegisteredGLTFExtensions r2 = GLTF.RegisteredGLTFExtensions r
  /\ GLTF.warnings r2 = GLTF.warnings r.
Proof.
  intros r r1 r2.
  assert (Hnone : GLTF.RegisteredGLTFExtensions r !! "KHR_lights_punctual" = None)
    by reflexivity.
  split; [exact Hnone |].
  exact (proj1 (proj2 (proj2 (register_unregister_round_trip "KHR_lights_punctual"
                                true 2%nat r))) Hnone).
Defined.

Lemma registrations_add_a_name_or_warn_witness :
  let r : GLTF.Registry nat :=
    {| GLTF.RegisteredGLTFExtensions := ∅; GLTF.warnings := [] |} in
  let exts := [("KHR_lights_punctual", true, 1%nat)]
              ++ [("KHR_lights_punctual", false, 2%nat)] in
  GLTF.RegisteredGLTFExtensions (registerAll exts r) !! "KHR_lights_punctual"
  = Some {| GLTF.isGLTFExtension := false; GLTF.factory := 2%nat |}.
Proof.
  intros r exts.
  exact (proj2 (registrations_add_a_name_or_warn exts r)
           [("KHR_lights_punctual", true, 1%nat)] "KHR_lights_punctual" false 2%nat
           eq_refl).
Defined.

Lemma canvas_promises_settle_witness :
  let page := {| renderContext := true;
                 renderingCanvas := Some (of_Z 800, of_Z 400) |} in
  activeCamera (scene Sample.world0) = Some 1%nat
  /\ (0 < 1281 # 2)%Q /\ (0 < 480)%Q
  /\ isDouble (1281 # 2) = true /\ isDouble 480 = true
  /\ (1 <= 1281 # 2)%Q /\ (1 <= 480)%Q
  /\ Qfloor (1281 # 2) < 2 ^ 31 /\ Qfloor 480 < 2 ^ 31
  /\ wrap32 (Qfloor (1281 # 2)) = Qfloor (1281 # 2)
  /\ wrap32 (Qfloor 480) = Qfloor 480
  /\ CreateScreenshotAsync Sample.aspectRatio2 Sample.renderWidth800
       Sample.renderHeight400 Sample.world0 1%nat
       (SizeObject (widthAndHeight (Fin (1281 # 2)) (Fin 480)))
       "image/png" None false None 7%nat
     = CreateScreenshotWithResizeAsync Sample.aspectRatio2 Sample.renderWidth800
         Sample.renderHeight400 Sample.world0 1%nat (Fin (1281 # 2)) (Fin 480)
         "image/png" None false None 7%nat.
Proof.
  intros page.
  assert (Hw : (1 <= 1281 # 2)%Q) by (vm_compute; discriminate).
  assert (Hh : (1 <= 480)%Q) by (vm_compute; discriminate).
  assert (Dw : isDouble (1281 # 2) = true) by (vm_compute; reflexivity).
  assert (Dh : isDouble 480 = true) by (vm_compute; reflexivity).
  destruct (canvas_promises_settle Sample.aspectRatio2
              Sample.renderWidth800 Sample.renderHeight400 of_Z
              Sample.world0 1%nat (1281 # 2)%Q 480%Q "image/png" None
              false None 7%nat page None eq_refl eq_refl eq_refl Dw Dh)
    as (H1 & _ & _ & _ & H5 & _).
  destruct (H5 Hw Hh eq_refl eq_refl) as (A & B & _).
  split; [reflexivity |]. split; [reflexivity |]. split; [reflexivity |].
  split; [exact Dw |]. split; [exact Dh |].
  split; [exact Hw |]. split; [exact Hh |].
  split; [reflexivity |]. split; [reflexivity |].
  split; [exact A |]. split; [exact B | exact H1].
Defined.

(** An engine in a browser that supports Web Audio, given a suspended
    context, and the same engine once locked; a browser in which every call
    returns, and one in which [new AudioContext()] throws. *)
Local Abbreviation sampleEngine := (Audio.constructed true false (Some Audio.suspended)).
Local Abbreviation lockedEngine := (Audio.run Sample.gainFloat32 sampleEngine [Audio.Lock]).
Local Abbreviation allReturn :=
  {| Audio.newAudioContext := Audio.Returns Audio.suspended;
     Audio.createGain := Audio.Returns tt;
     Audio.connect := Audio.Returns tt |}.
Local Abbreviation constructorThrows :=
  {| Audio.newAudioContext := Audio.Throws "The operation is not supported.";
     Audio.createGain := Audio.Returns tt;
     Audio.connect := Audio.Returns tt |}.

Lemma mute_button_at_most_one_witness :
  let evs := [Audio.Lock; Audio.Lock; Audio.Click; Audio.ResumeSettled 0 true;
              Audio.Lock] in
  Audio.buttonInPage sampleEngine
  /\ Audio.buttonInPage (Audio.run Sample.gainFloat32 sampleEngine evs)
  /\ Audio.muteButtonsInBody (Audio.run Sample.gainFloat32 sampleEngine evs) = 1%nat.
Proof.
  intros evs.
  assert (Hb : Audio.buttonInPage sampleEngine) by reflexivity.
  split; [exact Hb |].
  split; [exact (proj1 (Audio.mute_button_at_most_one Sample.gainFloat32
                          sampleEngine evs Hb)) |].
  reflexivity.
Defined.

Lemma tryToRun_is_cleared_witness :
  let evs := [Audio.Unlock; Audio.Unlock; Audio.SuspendSettled true;
              Audio.ResumeSettled 1 true; Audio.ResumeSettled 0 false] in
  Audio.runIsPending sampleEngine
  /\ Audio.pendingResumes (Audio.run Sample.gainFloat32 sampleEngine evs) = []
  /\ Audio._tryToRun (Audio.this (Audio.run Sample.gainFloat32 sampleEngine evs))
     = false.
Proof.
  intros evs.
  assert (Hp : Audio.runIsPending sampleEngine) by (intros Ht; discriminate Ht).
  split; [exact Hp |]. split; [reflexivity |].
  exact (proj2 (Audio.tryToRun_is_cleared Sample.gainFloat32 sampleEngine evs Hp)
           eq_refl).
Defined.

Lemma resume_is_requested_once_witness :
  let s1 := Audio.step Sample.gainFloat32 lockedEngine Audio.TouchEnd in
  Audio._tryToRun (Audio.this lockedEngine) = false
  /\ Audio._muteButton (Audio.this lockedEngine) = true
  /\ Audio._audioContext (Audio.this lockedEngine) <> None
  /\ Audio.calls s1 = Audio.calls lockedEngine ++ [Audio.ContextResume]
  /\ Audio.run Sample.gainFloat32 s1 (repeat Audio.TouchEnd 3) = s1.
Proof.
  intros s1.
  assert (Hctx : Audio._audioContext (Audio.this lockedEngine) <> None)
    by discriminate.
  destruct (proj2 (Audio.resume_is_requested_once Sample.gainFloat32 lockedEngine)
              eq_refl eq_refl Hctx)
    as (H1 & _ & _ & H4).
  split; [reflexivity |]. split; [reflexivity |]. split; [exact Hctx |].
  split; [exact H1 | exact (H4 3%nat)].
Defined.

Lemma global_volume_round_trip_witness :
  let s := fst (Audio.audioContext Sample.gainFloat32 allReturn sampleEngine) in
  let off := Audio.constructed false false None in
  let tenth := Fin (1 # 10) in
  Audio.canUseWebAudio (Audio.this s) && Audio._audioContextInitialized (Audio.this s)
  = true
  /\ Audio.getGlobalVolume (Audio.setGlobalVolume Sample.gainFloat32 tenth s)
     = Sample.gainFloat32 tenth
  /\ Sample.gainFloat32 tenth = Fin (13421773 # 134217728)
  /\ Audio.getGlobalVolume
       (Audio.dispose Sample.gainFloat32
          (Audio.setGlobalVolume Sample.gainFloat32 tenth s))
     = Sample.gainFloat32 (of_Z 1)
  /\ Audio.canUseWebAudio (Audio.this off)
     && Audio._audioContextInitialized (Audio.this off) = false
  /\ Audio.setGlobalVolume Sample.gainFloat32 tenth off = off.
Proof.
  intros s off tenth.
  destruct (Audio.global_volume_round_trip Sample.gainFloat32 s tenth)
    as (H1 & _ & H3 & _).
  split; [reflexivity |]. split; [exact H1 |].
  split; [vm_compute; reflexivity |]. split; [exact H3 |].
  split; [reflexivity |].
  exact (proj1 (proj2 (Audio.global_volume_round_trip Sample.gainFloat32 off tenth))
           eq_refl).
Defined.

Lemma lock_then_unlock_running_witness :
  let s := Audio.constructed true false (Some Audio.running) in
  let s2 := Audio.unlock (Audio.lock s) in
  Audio._audioContext (Audio.this s) = Some Audio.running
  /\ Audio.buttonInPage s
  /\ Audio.unlocked (Audio.this s2) = true
  /\ Audio.muteButtonsInBody s2 = 0%nat
  /\ Audio.calls s2 = [Audio.NotifyLocked 0; Audio.NotifyUnlocked 0]
  /\ Audio.unlock s2 = s2.
Proof.
  intros s s2.
  assert (Hb : Audio.buttonInPage s) by reflexivity.
  destruct (Audio.lock_then_unlock_running s eq_refl Hb) as (H1 & _ & H3 & H4 & _ & H6).
  split; [reflexivity |]. split; [exact Hb |]. split; [exact H1 |].
  split; [exact H3 |]. split; [exact H4 | exact H6].
Defined.

Lemma dispose_releases_witness :
  let s := Audio.run Sample.gainFloat32 sampleEngine
             [Audio.GetAudioContext allReturn; Audio.Lock] in
  let d := Audio.dispose Sample.gainFloat32 s in
  Audio.buttonInPage s
  /\ Audio.muteButtonsInBody s = 1%nat
  /\ Audio.muteButtonsInBody d = 0%nat
  /\ Audio.resizeListener d = false
  /\ In Audio.ContextClose (Audio.calls d)
  /\ Audio.audioContext Sample.gainFloat32 allReturn d = (d, None).
Proof.
  intros s d.
  assert (Hb : Audio.buttonInPage s) by reflexivity.
  destruct (Audio.dispose_releases Sample.gainFloat32 s Hb)
    as (_ & _ & H3 & H4 & _ & _ & H7 & H8 & _).
  split; [exact Hb |]. split; [reflexivity |]. split; [exact H3 |].
  split; [exact H4 |]. split; [exact (H7 ltac:(discriminate)) |].
  exact (H8 eq_refl allReturn).
Defined.

Lemma context_created_at_most_once_witness :
  let s := Audio.constructed true false None in
  let evs := [Audio.GetAudioContext constructorThrows;
              Audio.GetAudioContext allReturn; Audio.Dispose;
              Audio.GetAudioContext allReturn] in
  Audio.contextsCreated s = 0%nat
  /\ Audio.contextsCreated (Audio.run Sample.gainFloat32 s evs) = 1%nat
  /\ (Audio.contextsCreated (Audio.run Sample.gainFloat32 s evs) <= 1)%nat
  /\ Audio._audioContextInitialized (Audio.this (Audio.run Sample.gainFloat32 s evs))
     = false
  /\ Audio.canUseWebAudio (Audio.this (Audio.run Sample.gainFloat32 s evs)) = false
  /\ Audio.calls (Audio.run Sample.gainFloat32 s evs)
     = [Audio.NewAudioContext;
        Audio.AudioLoggerError "Web Audio: The operation is not supported."].
Proof.
  intros s evs.
  destruct (Audio.context_created_at_most_once Sample.gainFloat32 s evs eq_refl)
    as (_ & H2 & _).
  split; [reflexivity |]. split; [reflexivity |]. split; [exact H2 |].
  split; [reflexivity |]. split; reflexivity.
Defined.

Lemma analyser_replaced_is_not_disposed_witness :
  let s := fst (Audio.audioContext Sample.gainFloat32 allReturn sampleEngine) in
  let s2 := Audio.connectToAnalyser 2%nat (Audio.connectToAnalyser 1%nat s) in
  Audio.canUseWebAudio (Audio.this s) = true
  /\ Audio._audioContextInitialized (Audio.this s) = true
  /\ Audio._audioContext (Audio.this s) <> None
  /\ Audio.calls (Audio.dispose Sample.gainFloat32 s2)
     = Audio.calls s2
       ++ [Audio.AnalyserStopDebugCanvas 2%nat; Audio.AnalyserDispose 2%nat;
           Audio.MasterGainDisconnect; Audio.MasterGainConnect; Audio.ContextClose].
Proof.
  intros s s2.
  assert (Hctx : Audio._audioContext (Audio.this s) <> None) by discriminate.
  split; [reflexivity |]. split; [reflexivity |]. split; [exact Hctx |].
  exact (proj2 (proj2 (proj2
           (Audio.analyser_replaced_is_not_disposed Sample.gainFloat32 s 1%nat 2%nat
              eq_refl eq_refl Hctx)))).
Defined.


Lemma unlock_suspends_stuck_resume_witness :
  let s := Audio.step Sample.gainFloat32 sampleEngine Audio.Unlock in
  Audio._audioContext (Audio.this s) = Some Audio.suspended
  /\ Audio.suspended <> Audio.running
  /\ Audio._tryToRun (Audio.this s) = true
  /\ Audio.calls (Audio.unlock s) = Audio.calls s ++ [Audio.ContextSuspend]
  /\ Audio.pendingResumes (Audio.unlock s) = Audio.pendingResumes s.
Proof.
  intros s.
  assert (Hst : Audio.suspended <> Audio.running) by discriminate.
  destruct (Audio.unlock_suspends_stuck_resume Sample.gainFloat32 s Audio.suspended
              eq_refl Hst eq_refl)
    as (H1 & H2 & _).
  split; [reflexivity |]. split; [exact Hst |]. split; [reflexivity |].
  split; [exact H1 | exact H2].
Defined.
